(** * ZoraxFinanceWebApp: session-gated bookkeeping backend

    A shallow embedding of [server/routes.ts], [server/storage.ts] and
    [shared/schema.ts].

    Conventions of the model.
    - JavaScript numbers that the server handles are integers (row ids,
      slNo counters); they are carried as [Z], with [NaN] kept apart.  The
      schema bounds them ([serial]/[integer] are 32-bit, [varchar(10)] keeps
      a counter below 10^7), a range in which doubles are exact; statements
      about the value [parseInt] reads are made for integers up to
      [Number.MAX_SAFE_INTEGER].
    - Strings hold text in UTF-8, one [ascii] per byte: this is how the
      text travels in a request and how the database, whose encoding is
      UTF8, keeps it.  Lengths are counted as the code does: [s.length] in
      UTF-16 code units ([Js.length]), [varchar(n)] and [substring] in
      characters ([Sql.charLength], [Sql.dropChars]).  A byte sequence that
      is not well-formed UTF-8 stands for no string of the program, and a
      JavaScript string with an unpaired surrogate is not represented.  The
      database orders text by code point, which on UTF-8 is the order of
      the bytes (the C collation); a linguistic collation gives the same
      order on the digit strings and dates the application stores.
    - The relational store is a record of tables (lists of rows) plus the
      [serial] sequences.  The engine converts the parameters of a
      statement to the types of their columns before it runs the statement:
      a text that holds the character U+0000, an integer outside 32 bits or
      a text longer than its [varchar] column raises there, whatever rows
      the statement would touch and before a sequence is advanced (a text
      that is too long by spaces only is cut to the length instead).  A
      statement whose result would break a key declared in the schema
      (primary key, unique) raises when it runs, and so does the query
      builder when [set] is given no column.  Exceptions are values of
      [result]; a handler's [try]/[catch] turns them into responses.
    - Request bodies are taken at their TypeScript types: a column is either
      absent or holds a value of the column's type. *)

From Stdlib Require Import ZArith QArith List String Ascii Bool Lia.
From Stdlib Require Import Permutation Sorted DecimalString DecimalPos OrderedTypeEx.
Import ListNotations.

#[local] Open Scope list_scope.
#[local] Open Scope string_scope.
#[local] Open Scope Z_scope.

(** ** UTF-8 *)
Module Utf8.

Definition byte (c : ascii) : Z := Z.of_nat (nat_of_ascii c).

(** A byte that continues a multi-byte character ([10xxxxxx]). *)
Definition isContinuation (c : ascii) : bool :=
  (128 <=? byte c) && (byte c <=? 191).

(** What is left of [s] after the continuation bytes it opens with. *)
Fixpoint skipContinuation (s : string) : string :=
  match s with
  | String c s' => if isContinuation c then skipContinuation s' else s
  | EmptyString => EmptyString
  end.

End Utf8.

(** ** JavaScript built-ins used by the server *)
Module Js.

Inductive number : Type :=
| NaN
| Num (z : Z).

Definition isNaN (n : number) : bool :=
  match n with NaN => true | Num _ => false end.

(** [n + 1] on numbers: NaN is absorbing. *)
Definition succ (n : number) : number :=
  match n with NaN => NaN | Num z => Num (z + 1) end.

Definition code (c : ascii) : Z := Z.of_nat (nat_of_ascii c).

(** [s.length]: the number of UTF-16 code units.  A character outside
    the Basic Multilingual Plane (a four-byte sequence, opened by a byte
    from 240 on) takes two units, any other character one. *)
Fixpoint length (s : string) : nat :=
  match s with
  | String c s' =>
      Nat.add (if Utf8.isContinuation c then 0%nat
               else if 240 <=? code c then 2%nat else 1%nat)
              (length s')
  | EmptyString => 0%nat
  end.

(** White space skipped by [parseInt] (the StrWhiteSpaceChar class).
    One byte: TAB, LF, VT, FF, CR, SP. *)
Definition isWhiteSpace (c : ascii) : bool :=
  let n := code c in ((9 <=? n) && (n <=? 13)) || (n =? 32).

(** Two bytes: U+00A0 (no-break space). *)
Definition isWhiteSpace2 (c0 c1 : ascii) : bool :=
  (code c0 =? 194) && (code c1 =? 160).

(** Three bytes: U+1680, U+2000 to U+200A, U+2028, U+2029, U+202F,
    U+205F, U+3000 and U+FEFF. *)
Definition isWhiteSpace3 (c0 c1 c2 : ascii) : bool :=
  let a := code c0 in
  let b := code c1 in
  let c := code c2 in
  ((a =? 225) && (b =? 154) && (c =? 128))
  || ((a =? 226) && (b =? 128)
      && (((128 <=? c) && (c <=? 138)) || (c =? 168) || (c =? 169) || (c =? 175)))
  || ((a =? 226) && (b =? 129) && (c =? 159))
  || ((a =? 227) && (b =? 128) && (c =? 128))
  || ((a =? 239) && (b =? 187) && (c =? 191)).

Fixpoint trimStart (s : string) : string :=
  match s with
  | String c0 s0 =>
      if isWhiteSpace c0 then trimStart s0
      else
        match s0 with
        | String c1 s1 =>
            if isWhiteSpace2 c0 c1 then trimStart s1
            else
              match s1 with
              | String c2 s2 => if isWhiteSpace3 c0 c1 c2 then trimStart s2 else s
              | EmptyString => s
              end
        | EmptyString => s
        end
  | EmptyString => EmptyString
  end.

(** Value of a character as a digit in some radix up to 36. *)
Definition digitValue (c : ascii) : option Z :=
  let n := code c in
  if (48 <=? n) && (n <=? 57) then Some (n - 48)
  else if (97 <=? n) && (n <=? 122) then Some (n - 87)
  else if (65 <=? n) && (n <=? 90) then Some (n - 55)
  else None.

Definition radixDigit (R : Z) (c : ascii) : option Z :=
  match digitValue c with
  | Some d => if d <? R then Some d else None
  | None => None
  end.

(** Reads the longest prefix of radix-[R] digits; [acc] is the value read
    so far, [None] while no digit has been seen. *)
Fixpoint scanDigits (R : Z) (s : string) (acc : option Z) : option Z :=
  match s with
  | String c s' =>
      match radixDigit R c with
      | Some d =>
          scanDigits R s' (Some (match acc with Some a => a * R + d | None => d end))
      | None => acc
      end
  | EmptyString => acc
  end.

Definition stripSign (s : string) : Z * string :=
  match s with
  | String c s' =>
      if Ascii.eqb c "-" then (-1, s')
      else if Ascii.eqb c "+" then (1, s')
      else (1, s)
  | EmptyString => (1, s)
  end.

(** The string opens with the hexadecimal marker [0x] or [0X]. *)
Definition hasHexPrefix (s : string) : bool :=
  match s with
  | String c0 (String c1 _) =>
      Ascii.eqb c0 "0" && (Ascii.eqb c1 "x" || Ascii.eqb c1 "X")
  | _ => false
  end.

Definition stripHexPrefix (s : string) : Z * string :=
  match s with
  | String _ (String _ s') => if hasHexPrefix s then (16, s') else (10, s)
  | _ => (10, s)
  end.

(** [parseInt(s)] with no radix argument. *)
Definition parseInt (s : string) : number :=
  let (sign, s1) := stripSign (trimStart s) in
  let (R, s2) := stripHexPrefix s1 in
  match scanDigits R s2 None with
  | Some m => Num (sign * m)
  | None => NaN
  end.

(** [String(n)] for an integer-valued number. *)
Definition toString (n : number) : string :=
  match n with
  | NaN => "NaN"
  | Num z => NilZero.string_of_int (Z.to_int z)
  end.

Fixpoint repeatString (fill : string) (n : nat) : string :=
  match n with
  | O => EmptyString
  | S n' => fill ++ repeatString fill n'
  end.

(** [s.padStart(maxLength, fill)], for [s] and [fill] made of one-byte
    characters (the server pads the decimal numeral of a counter with
    "0"), where bytes, characters and code units are the same. *)
Definition padStart (maxLength : nat) (fill : string) (s : string) : string :=
  if (maxLength <=? String.length s)%nat then s
  else if (String.length fill =? 0)%nat then s
  else
    let fillLen := (maxLength - String.length s)%nat in
    String.substring 0 fillLen (repeatString fill fillLen) ++ s.

(** Truthiness of a string value. *)
Definition truthy (s : string) : bool := negb (String.eqb s "").

End Js.

(** ** Text functions of the database engine *)
Module Sql.

(** [substring(s from start)]: positions count characters, from 1. *)
Fixpoint dropChars (n : nat) (s : string) {struct n} : string :=
  match n, s with
  | O, _ => s
  | S n', String _ s' => dropChars n' (Utf8.skipContinuation s')
  | S _, EmptyString => EmptyString
  end.

Definition substringFrom (start : nat) (s : string) : string :=
  dropChars (start - 1) s.

Definition greatest (a b : string) : string :=
  if String.leb a b then b else a.

(** [char_length(s)]: the number of characters. *)
Fixpoint charLength (s : string) : nat :=
  match s with
  | String c s' =>
      Nat.add (if Utf8.isContinuation c then 0%nat else 1%nat) (charLength s')
  | EmptyString => 0%nat
  end.

(** The first [n] characters of [s]. *)
Fixpoint takeChars (n : nat) (s : string) : string :=
  match s with
  | String c s' =>
      if Utf8.isContinuation c then String c (takeChars n s')
      else
        match n with
        | O => EmptyString
        | S n' => String c (takeChars n' s')
        end
  | EmptyString => EmptyString
  end.

Fixpoint onlySpaces (s : string) : bool :=
  match s with
  | String c s' => Ascii.eqb c " " && onlySpaces s'
  | EmptyString => true
  end.

(** The value that a [varchar(n)] column keeps of a text assigned to it:
    the text itself when it has at most [n] characters, its first [n]
    characters otherwise (the engine accepts a longer text only when what
    it cuts off is spaces). *)
Definition clip (n : nat) (s : string) : string :=
  if (charLength s <=? n)%nat then s else takeChars n s.

(** The character U+0000, which no text value of the engine holds. *)
Fixpoint hasNul (s : string) : bool :=
  match s with
  | String c s' => (Utf8.byte c =? 0) || hasNul s'
  | EmptyString => false
  end.

(** The [max] aggregate over a text column: NULL on the empty table. *)
Definition aggMax (l : list string) : option string :=
  fold_left
    (fun acc s => match acc with
                  | None => Some s
                  | Some m => Some (greatest m s)
                  end)
    l None.

End Sql.

(** ** JSON values carried by requests and responses *)
#[local] Unset Elimination Schemes.
Inductive json : Type :=
| JUndefined
| JNum (q : Q)
| JStr (s : string)
| JArr (items : list json)
| JObj (fields : list (string * json)).
#[local] Set Elimination Schemes.

Definition JInt (z : Z) : json := JNum (inject_Z z).

Module Obj.

Definition t : Type := list (string * json).

Fixpoint get (k : string) (o : t) : option json :=
  match o with
  | [] => None
  | (k', v) :: o' => if String.eqb k' k then Some v else get k o'
  end.

(** The rest pattern [{ k: _, ...rest } = o]: every own field but [k]. *)
Definition omit (k : string) (o : t) : t :=
  filter (fun kv => negb (String.eqb (fst kv) k)) o.

End Obj.

(** ** shared/schema.ts *)

(** Row of [users]: id serial primary key, username text unique,
    password, name, role text not null default 'staff'. *)
Module User.
Record t : Type := mk
  { id : Z; username : string; password : string; name : string;
    role : string }.

Definition toObj (u : t) : Obj.t :=
  [ ("id", JInt (id u)); ("username", JStr (username u));
    ("password", JStr (password u)); ("name", JStr (name u));
    ("role", JStr (role u)) ].
End User.

(** [InsertUser]: the picked columns; [role] has a default, so it is
    optional. *)
Module InsertUser.
Record t : Type := mk
  { username : string; password : string; name : string;
    role : option string }.
End InsertUser.

(** Row shared by [expenses] and [gains] ([transactionFields]). *)
Module Txn.
Record t : Type := mk
  { id : Z; slNo : string; date : string; time : string; name : string;
    type : string; detail : string; paymentType : string; amount : Q;
    createdBy : Z }.

Definition toObj (r : t) : Obj.t :=
  [ ("id", JInt (id r)); ("slNo", JStr (slNo r)); ("date", JStr (date r));
    ("time", JStr (time r)); ("name", JStr (name r));
    ("type", JStr (type r)); ("detail", JStr (detail r));
    ("paymentType", JStr (paymentType r)); ("amount", JNum (amount r));
    ("createdBy", JInt (createdBy r)) ].
End Txn.

(** [InsertExpense] / [InsertGain]: the row without [id]. *)
Module InsertTxn.
Record t : Type := mk
  { slNo : string; date : string; time : string; name : string;
    type : string; detail : string; paymentType : string; amount : Q;
    createdBy : Z }.
End InsertTxn.

(** A request body for the transaction routes: a JSON object in which
    each column may or may not be present (values taken at the column's
    TypeScript type). *)
Module TxnBody.
Record t : Type := mk
  { id : option Z; slNo : option string; date : option string;
    time : option string; name : option string; type : option string;
    detail : option string; paymentType : option string;
    amount : option Q; createdBy : option Z }.

Definition empty : t :=
  mk None None None None None None None None None None.

Definition isSome {A} (o : option A) : bool :=
  match o with Some _ => true | None => false end.

(** [Object.entries(values).length === 0] *)
Definition isEmpty (b : t) : bool :=
  negb (isSome (id b) || isSome (slNo b) || isSome (date b)
        || isSome (time b) || isSome (name b) || isSome (type b)
        || isSome (detail b) || isSome (paymentType b)
        || isSome (amount b) || isSome (createdBy b)).

(** [{ ...body, createdBy: v }] *)
Definition withCreatedBy (v : Z) (b : t) : t :=
  mk (id b) (slNo b) (date b) (time b) (name b) (type b) (detail b)
     (paymentType b) (amount b) (Some v).

Definition orElse {A} (o : option A) (d : A) : A :=
  match o with Some a => a | None => d end.

(** [UPDATE ... SET] with the columns present in the body: the others
    keep the row's value. *)
Definition apply (b : t) (r : Txn.t) : Txn.t :=
  Txn.mk (orElse (id b) (Txn.id r)) (orElse (slNo b) (Txn.slNo r))
         (orElse (date b) (Txn.date r)) (orElse (time b) (Txn.time r))
         (orElse (name b) (Txn.name r)) (orElse (type b) (Txn.type r))
         (orElse (detail b) (Txn.detail r))
         (orElse (paymentType b) (Txn.paymentType r))
         (orElse (amount b) (Txn.amount r))
         (orElse (createdBy b) (Txn.createdBy r)).
End TxnBody.

(** Body of POST /api/users. *)
Module UserBody.
Record t : Type := mk
  { username : option string; password : option string;
    name : option string; role : option string }.
End UserBody.

(** What an insert schema finds wrong with a body (zod's issues
    [invalid_type] on an absent field and [too_big]). *)
Module Zod.
Inductive issue : Type :=
| Required (path : string)
| TooBig (maximum : nat) (path : string).
End Zod.

(** Exceptions that reach a handler's [catch]. *)
Inductive error : Type :=
| ZodError (issues : list Zod.issue)
| DbError (sqlstate : string)
| JsError (message : string).

Inductive result (A : Type) : Type :=
| Ok (a : A)
| Throw (e : error).
Arguments Ok {A} a.
Arguments Throw {A} e.

Module Schema.

(** A field without a default: it has to be present. *)
Definition required {A} (field : string) (o : option A) : list Zod.issue :=
  match o with Some _ => [] | None => [Zod.Required field] end.

(** A [varchar(n)] column: present, and [z.string().max(n)], which
    compares [s.length] with [n]. *)
Definition atMost (n : nat) (field : string) (o : option string) : list Zod.issue :=
  match o with
  | Some s => if (Js.length s <=? n)%nat then [] else [Zod.TooBig n field]
  | None => [Zod.Required field]
  end.

(** [insertUserSchema.parse] *)
Definition parseInsertUser (b : UserBody.t) : result InsertUser.t :=
  match UserBody.username b, UserBody.password b, UserBody.name b with
  | Some u, Some p, Some n => Ok (InsertUser.mk u p n (UserBody.role b))
  | _, _, _ =>
      Throw (ZodError (required "username" (UserBody.username b)
                       ++ required "password" (UserBody.password b)
                       ++ required "name" (UserBody.name b)))
  end.

(** The issues of a body under [insertExpenseSchema] / [insertGainSchema],
    in the order of the schema's fields. *)
Definition insertTxnIssues (b : TxnBody.t) : list Zod.issue :=
  (atMost 10 "slNo" (TxnBody.slNo b)
   ++ atMost 10 "date" (TxnBody.date b)
   ++ atMost 10 "time" (TxnBody.time b)
   ++ required "name" (TxnBody.name b)
   ++ required "type" (TxnBody.type b)
   ++ required "detail" (TxnBody.detail b)
   ++ required "paymentType" (TxnBody.paymentType b)
   ++ required "amount" (TxnBody.amount b)
   ++ required "createdBy" (TxnBody.createdBy b))%list.

(** [insertExpenseSchema.parse] / [insertGainSchema.parse]: [id] is
    omitted from the schema, so a supplied [id] is dropped. *)
Definition parseInsertTxn (b : TxnBody.t) : result InsertTxn.t :=
  match insertTxnIssues b,
        TxnBody.slNo b, TxnBody.date b, TxnBody.time b, TxnBody.name b,
        TxnBody.type b, TxnBody.detail b, TxnBody.paymentType b,
        TxnBody.amount b, TxnBody.createdBy b with
  | [], Some s, Some d, Some t, Some n, Some ty, Some de, Some p, Some a, Some c =>
      Ok (InsertTxn.mk s d t n ty de p a c)
  | issues, _, _, _, _, _, _, _, _, _ => Throw (ZodError issues)
  end.

(** Column types. *)
Definition int4 (z : Z) : bool :=
  (-2147483648 <=? z) && (z <=? 2147483647).

Definition text (s : string) : bool := negb (Sql.hasNul s).

Definition varchar (n : nat) (s : string) : bool :=
  text s && (Sql.charLength s <=? n)%nat.

Fixpoint distinct {A} (eqb : A -> A -> bool) (l : list A) : bool :=
  match l with
  | [] => true
  | x :: l' => negb (existsb (eqb x) l') && distinct eqb l'
  end.

Definition userOk (u : User.t) : bool :=
  int4 (User.id u) && text (User.username u) && text (User.password u)
  && text (User.name u) && text (User.role u).

(** Constraints of [users]: primary key, unique username, column
    types. *)
Definition usersOk (rows : list User.t) : bool :=
  distinct Z.eqb (map User.id rows)
  && distinct String.eqb (map User.username rows)
  && forallb userOk rows.

Definition txnOk (r : Txn.t) : bool :=
  int4 (Txn.id r) && varchar 10 (Txn.slNo r) && varchar 10 (Txn.date r)
  && varchar 10 (Txn.time r) && text (Txn.name r) && text (Txn.type r)
  && text (Txn.detail r) && text (Txn.paymentType r) && int4 (Txn.createdBy r).

(** Constraints of [expenses] and of [gains]: primary key, unique slNo,
    column types. *)
Definition txnsOk (rows : list Txn.t) : bool :=
  distinct Z.eqb (map Txn.id rows)
  && distinct String.eqb (map Txn.slNo rows)
  && forallb txnOk rows.

End Schema.

(** ** The database engine: the parameters of a statement *)
Module Pg.

(** SQLSTATE codes raised by the engine. *)
Definition unique_violation : error := DbError "23505".
Definition out_of_range : error := DbError "22003".
Definition invalid_byte_sequence : error := DbError "22021".
Definition right_truncation : error := DbError "22001".
Definition sequence_limit : error := DbError "2200H".
Definition invalid_text_representation : error := DbError "22P02".

(** What reading a number that is no 32-bit integer raises: the number
    arrives as its decimal numeral, which from 10^21 on is in exponent
    notation and is no integer numeral at all. *)
Definition int4Error (z : Z) : error :=
  if Z.abs z <? 10 ^ 21 then out_of_range else invalid_text_representation.

(** A parameter, with the type of the column it is meant for. *)
Inductive param : Type :=
| Text (s : string)
| Varchar (n : nat) (s : string)
| Int4 (z : Z)
| Float8 (q : Q).

(** Reading a parameter at its type, when the statement is bound. *)
Definition bindError (p : param) : option error :=
  match p with
  | Text s | Varchar _ s =>
      if Sql.hasNul s then Some invalid_byte_sequence else None
  | Int4 z => if Schema.int4 z then None else Some (int4Error z)
  | Float8 _ => None
  end.

(** Cutting a parameter to the declared length of its column, when the
    statement is planned: characters beyond the length raise, unless they
    are all spaces. *)
Definition lengthError (p : param) : option error :=
  match p with
  | Varchar n s =>
      if (Sql.charLength s <=? n)%nat then None
      else if Sql.onlySpaces (Sql.dropChars n s) then None
      else Some right_truncation
  | _ => None
  end.

Fixpoint firstError (check : param -> option error) (ps : list param)
  : option error :=
  match ps with
  | [] => None
  | p :: ps' =>
      match check p with
      | Some e => Some e
      | None => firstError check ps'
      end
  end.

(** The error, if any, that the parameters raise before the statement
    runs. *)
Definition prepare (ps : list param) : option error :=
  match firstError bindError ps with
  | Some e => Some e
  | None => firstError lengthError ps
  end.

(** The parameter is a value of its column's type. *)
Definition fits (p : param) : bool :=
  match p with
  | Text s => Schema.text s
  | Varchar n s => Schema.varchar n s
  | Int4 z => Schema.int4 z
  | Float8 _ => true
  end.

Definition optional {A} (f : A -> param) (o : option A) : list param :=
  match o with Some a => [f a] | None => [] end.

End Pg.

(** ** The database: three tables and their [serial] sequences *)
Record Db : Type := mkDb
  { users : list User.t; users_seq : Z;
    expenses : list Txn.t; expenses_seq : Z;
    gains : list Txn.t; gains_seq : Z }.

Definition emptyDb : Db := mkDb [] 0 [] 0 [] 0.

(** The two structurally identical transaction tables. *)
Inductive Kind : Type := Expense | Gain.

Definition rows (k : Kind) (db : Db) : list Txn.t :=
  match k with Expense => expenses db | Gain => gains db end.

Definition seq (k : Kind) (db : Db) : Z :=
  match k with Expense => expenses_seq db | Gain => gains_seq db end.

Definition setRows (k : Kind) (l : list Txn.t) (db : Db) : Db :=
  match k with
  | Expense =>
      mkDb (users db) (users_seq db) l (expenses_seq db) (gains db) (gains_seq db)
  | Gain =>
      mkDb (users db) (users_seq db) (expenses db) (expenses_seq db) l (gains_seq db)
  end.

Definition setSeq (k : Kind) (n : Z) (db : Db) : Db :=
  match k with
  | Expense =>
      mkDb (users db) (users_seq db) (expenses db) n (gains db) (gains_seq db)
  | Gain =>
      mkDb (users db) (users_seq db) (expenses db) (expenses_seq db) (gains db) n
  end.

Definition setUsers (l : list User.t) (db : Db) : Db :=
  mkDb l (users_seq db) (expenses db) (expenses_seq db) (gains db) (gains_seq db).

Definition setUsersSeq (n : Z) (db : Db) : Db :=
  mkDb (users db) n (expenses db) (expenses_seq db) (gains db) (gains_seq db).

(** The display prefix of a kind and the position at which the numeric
    suffix starts ([substring(sl_no from 4)] and [from 3]). *)
Definition prefix (k : Kind) : string :=
  match k with Expense => "EXP" | Gain => "GN" end.

Definition suffixFrom (k : Kind) : nat :=
  match k with Expense => 4%nat | Gain => 3%nat end.

(** Database calls: they read and write the store and may throw. *)
Definition M (A : Type) : Type := Db -> result A * Db.

Definition ret {A} (a : A) : M A := fun db => (Ok a, db).

Definition throw {A} (e : error) : M A := fun db => (Throw e, db).

Definition bind {A B} (m : M A) (k : A -> M B) : M B :=
  fun db =>
    match m db with
    | (Ok a, db') => k a db'
    | (Throw e, db') => (Throw e, db')
    end.

Notation "x <- m ;; k" := (bind m (fun x => k))
  (at level 61, m at next level, right associativity).

(** ** server/storage.ts *)
Module Storage.

Definition getUser (id : Z) : M (option User.t) :=
  fun db =>
    if Schema.int4 id
    then (Ok (find (fun u => User.id u =? id) (users db)), db)
    else (Throw (Pg.int4Error id), db).

Definition getUserByUsername (username : string) : M (option User.t) :=
  fun db =>
    match Pg.prepare [Pg.Text username] with
    | Some e => (Throw e, db)
    | None =>
        (Ok (find (fun u => String.eqb (User.username u) username) (users db)), db)
    end.

(** [insertUser.role || 'staff'] *)
Definition roleOrStaff (r : option string) : string :=
  match r with
  | Some s => if Js.truthy s then s else "staff"
  | None => "staff"
  end.

(** [db.insert(users).values(userData).returning()]: the id is the next
    value of the sequence, which stays advanced when the row is then
    refused by a key. *)
Definition createUser (insertUser : InsertUser.t) : M User.t :=
  fun db =>
    let role := roleOrStaff (InsertUser.role insertUser) in
    match Pg.prepare [Pg.Text (InsertUser.username insertUser);
                      Pg.Text (InsertUser.password insertUser);
                      Pg.Text (InsertUser.name insertUser); Pg.Text role] with
    | Some e => (Throw e, db)
    | None =>
        let id := users_seq db + 1 in
        if negb (Schema.int4 id) then (Throw Pg.sequence_limit, db)
        else
          let db1 := setUsersSeq id db in
          let user :=
            User.mk id (InsertUser.username insertUser)
                    (InsertUser.password insertUser) (InsertUser.name insertUser)
                    role in
          let rows' := (users db ++ [user])%list in
          if Schema.usersOk rows'
          then (Ok user, setUsers rows' db1)
          else (Throw Pg.unique_violation, db1)
    end.

(** The parameters of an insert into [expenses] or [gains], in the order
    of the columns. *)
Definition insertParams (ins : InsertTxn.t) : list Pg.param :=
  [ Pg.Varchar 10 (InsertTxn.slNo ins); Pg.Varchar 10 (InsertTxn.date ins);
    Pg.Varchar 10 (InsertTxn.time ins); Pg.Text (InsertTxn.name ins);
    Pg.Text (InsertTxn.type ins); Pg.Text (InsertTxn.detail ins);
    Pg.Text (InsertTxn.paymentType ins); Pg.Float8 (InsertTxn.amount ins);
    Pg.Int4 (InsertTxn.createdBy ins) ].

(** [db.insert(expenses).values(insertExpense).returning()] and the same
    for gains. *)
Definition create (k : Kind) (ins : InsertTxn.t) : M Txn.t :=
  fun db =>
    match Pg.prepare (insertParams ins) with
    | Some e => (Throw e, db)
    | None =>
        let id := seq k db + 1 in
        if negb (Schema.int4 id) then (Throw Pg.sequence_limit, db)
        else
          let db1 := setSeq k id db in
          let row :=
            Txn.mk id (Sql.clip 10 (InsertTxn.slNo ins))
                   (Sql.clip 10 (InsertTxn.date ins))
                   (Sql.clip 10 (InsertTxn.time ins))
                   (InsertTxn.name ins) (InsertTxn.type ins) (InsertTxn.detail ins)
                   (InsertTxn.paymentType ins) (InsertTxn.amount ins)
                   (InsertTxn.createdBy ins) in
          let rows' := (rows k db ++ [row])%list in
          if Schema.txnsOk rows'
          then (Ok row, setRows k rows' db1)
          else (Throw Pg.unique_violation, db1)
    end.

(** [ORDER BY date DESC]: rows with equal dates keep the table's order
    (the engine leaves the order of ties open). *)
Fixpoint insertByDateDesc (r : Txn.t) (l : list Txn.t) : list Txn.t :=
  match l with
  | [] => [r]
  | x :: l' =>
      if String.ltb (Txn.date r) (Txn.date x)
      then x :: insertByDateDesc r l'
      else r :: l
  end.

Definition orderByDateDesc (l : list Txn.t) : list Txn.t :=
  fold_right insertByDateDesc [] l.

Definition listByDate (k : Kind) : M (list Txn.t) :=
  fun db => (Ok (orderByDateDesc (rows k db)), db).

(** [select ... where id = $1]: the parameter has to be a 32-bit integer. *)
Definition getById (k : Kind) (id : Z) : M (option Txn.t) :=
  fun db =>
    if Schema.int4 id
    then (Ok (find (fun r => Txn.id r =? id) (rows k db)), db)
    else (Throw (Pg.int4Error id), db).

(** The parameters of [UPDATE ... SET ... WHERE id = $n]: the columns
    present in the map, in the order of the table's columns, then the
    id. *)
Definition updateParams (patch : TxnBody.t) (id : Z) : list Pg.param :=
  (Pg.optional Pg.Int4 (TxnBody.id patch)
   ++ Pg.optional (Pg.Varchar 10) (TxnBody.slNo patch)
   ++ Pg.optional (Pg.Varchar 10) (TxnBody.date patch)
   ++ Pg.optional (Pg.Varchar 10) (TxnBody.time patch)
   ++ Pg.optional Pg.Text (TxnBody.name patch)
   ++ Pg.optional Pg.Text (TxnBody.type patch)
   ++ Pg.optional Pg.Text (TxnBody.detail patch)
   ++ Pg.optional Pg.Text (TxnBody.paymentType patch)
   ++ Pg.optional Pg.Float8 (TxnBody.amount patch)
   ++ Pg.optional Pg.Int4 (TxnBody.createdBy patch)
   ++ [Pg.Int4 id])%list.

(** The values that the columns take from the map. *)
Definition assigned (patch : TxnBody.t) : TxnBody.t :=
  TxnBody.mk (TxnBody.id patch)
             (option_map (Sql.clip 10) (TxnBody.slNo patch))
             (option_map (Sql.clip 10) (TxnBody.date patch))
             (option_map (Sql.clip 10) (TxnBody.time patch))
             (TxnBody.name patch) (TxnBody.type patch) (TxnBody.detail patch)
             (TxnBody.paymentType patch) (TxnBody.amount patch)
             (TxnBody.createdBy patch).

(** [db.update(t).set(patch).where(eq(t.id, id)).returning()]: the query
    builder throws when [set] is given no column (an UPDATE without an
    assignment is not SQL either); the first returned row is the result. *)
Definition update (k : Kind) (id : Z) (patch : TxnBody.t) : M (option Txn.t) :=
  fun db =>
    if TxnBody.isEmpty patch then (Throw (JsError "No values to set"), db)
    else
      match Pg.prepare (updateParams patch id) with
      | Some e => (Throw e, db)
      | None =>
          let hit := fun r => Txn.id r =? id in
          let set := assigned patch in
          let rows' :=
            map (fun r => if hit r then TxnBody.apply set r else r) (rows k db) in
          let returning := map (TxnBody.apply set) (filter hit (rows k db)) in
          if Schema.txnsOk rows'
          then (Ok (hd_error returning), setRows k rows' db)
          else (Throw Pg.unique_violation, db)
      end.

(** [db.delete(t).where(eq(t.id, id)).returning({ id })], then
    [result.length > 0]. *)
Definition delete (k : Kind) (id : Z) : M bool :=
  fun db =>
    if negb (Schema.int4 id) then (Throw (Pg.int4Error id), db)
    else
      let hit := fun r => Txn.id r =? id in
      let returning := filter hit (rows k db) in
      (Ok (0 <? Z.of_nat (List.length returning)),
       setRows k (filter (fun r => negb (hit r)) (rows k db)) db).

(** [select max(substring(sl_no from n))]: one row, whose [maxSlNo] is
    NULL on an empty table. *)
Definition maxSlNo (k : Kind) (db : Db) : option string :=
  Sql.aggMax (map (fun r => Sql.substringFrom (suffixFrom k) (Txn.slNo r)) (rows k db)).

Definition nextSequentialId (k : Kind) : M string :=
  fun db =>
    let counter :=
      match maxSlNo k db with
      | Some m => if Js.truthy m then Js.succ (Js.parseInt m) else Js.Num 1
      | None => Js.Num 1
      end in
    (Ok (prefix k ++ Js.padStart 3 "0" (Js.toString counter))%string, db).

Definition createExpense : InsertTxn.t -> M Txn.t := create Expense.
Definition getExpenses : M (list Txn.t) := listByDate Expense.
Definition updateExpense : Z -> TxnBody.t -> M (option Txn.t) := update Expense.
Definition deleteExpense : Z -> M bool := delete Expense.
Definition getNextExpenseSlNo : M string := nextSequentialId Expense.

Definition createGain : InsertTxn.t -> M Txn.t := create Gain.
Definition getGains : M (list Txn.t) := listByDate Gain.
Definition getGain : Z -> M (option Txn.t) := getById Gain.
Definition updateGain : Z -> TxnBody.t -> M (option Txn.t) := update Gain.
Definition deleteGain : Z -> M bool := delete Gain.
Definition getNextGainSlNo : M string := nextSequentialId Gain.

Definition createIfAbsent (u : InsertUser.t) : M unit :=
  existing <- getUserByUsername (InsertUser.username u) ;;
  match existing with
  | Some _ => ret tt
  | None => _ <- createUser u ;; ret tt
  end.

Definition initializeDefaultUsers : M unit :=
  _ <- createIfAbsent (InsertUser.mk "admin" "786786" "Admin User" (Some "admin")) ;;
  createIfAbsent (InsertUser.mk "staff1" "1234" "Staff User" (Some "staff")).

End Storage.

(** The store once the start-up step has seeded the two accounts. *)
Definition bootDb : Db := snd (Storage.initializeDefaultUsers emptyDb).

(** ** server/routes.ts *)
Record Response : Type := reply { status : Z; body : json }.

(** What a request ends in: a response, or a rejection that no
    [try]/[catch] covers (the middleware [authenticate] has none). *)
Inductive Outcome : Type :=
| Sent (r : Response)
| Unhandled (e : error).

(** [req.session]: the bound user id, if any. *)
Record Session : Type := mkSession { userId : option Z }.

Module LoginBody.
Record t : Type := mk { username : option string; password : option string }.
End LoginBody.

Module Routes.

Definition message (m : string) : json := JObj [("message", JStr m)].

(** [const { password, ...userInfo } = user] *)
Definition userInfo (user : User.t) : json :=
  JObj (Obj.omit "password" (User.toObj user)).

Definition txnJson (r : Txn.t) : json := JObj (Txn.toObj r).

Definition optTxnJson (o : option Txn.t) : json :=
  match o with Some r => txnJson r | None => JUndefined end.

(** [!value] for a body field that is a string or absent. *)
Definition missing (o : option string) : bool :=
  match o with Some s => negb (Js.truthy s) | None => true end.

Definition quote : string := String (ascii_of_nat 34) EmptyString.

(** The text of an issue followed by its path. *)
Definition issueMessage (i : Zod.issue) : string :=
  match i with
  | Zod.Required path => ("Required at " ++ quote ++ path ++ quote)%string
  | Zod.TooBig maximum path =>
      ("String must contain at most "
       ++ Js.toString (Js.Num (Z.of_nat maximum))
       ++ " character(s) at " ++ quote ++ path ++ quote)%string
  end.

(** [fromZodError(error).message] *)
Definition fromZodError (issues : list Zod.issue) : string :=
  ("Validation error: " ++ String.concat "; " (map issueMessage issues))%string.

Definition liftResult {A} (r : result A) : M A := fun db => (r, db).

(** [try { ... } catch (error) { ... }] around a handler body. *)
Definition tryCatch (body : M Response) (handler : error -> Response)
  : Db -> Outcome * Db :=
  fun db =>
    match body db with
    | (Ok r, db') => (Sent r, db')
    | (Throw e, db') => (Sent (handler e), db')
    end.

(** A body field read as text, once it is known to be present. *)
Definition text (o : option string) : string :=
  match o with Some s => s | None => "" end.

(** POST /api/login *)
Definition login (b : LoginBody.t) (sess : Session) : Db -> Response * Db * Session :=
  fun db =>
    let username := LoginBody.username b in
    let password := LoginBody.password b in
    if missing username || missing password
    then (reply 400 (message "Username and password are required"), db, sess)
    else
      match Storage.getUserByUsername (text username) db with
      | (Ok None, db') =>
          (reply 401 (message "Invalid username or password"), db', sess)
      | (Ok (Some user), db') =>
          if negb (String.eqb (User.password user) (text password))
          then (reply 401 (message "Invalid username or password"), db', sess)
          else (reply 200 (userInfo user), db', mkSession (Some (User.id user)))
      | (Throw _, db') =>
          (reply 500 (message "Internal server error"), db', sess)
      end.

(** POST /api/logout; [destroyFails] is the session store's verdict. *)
Definition logout (destroyFails : bool) (sess : Session) : Response * Session :=
  if destroyFails then (reply 500 (message "Failed to logout"), sess)
  else (reply 200 (message "Logged out successfully"), mkSession None).

(** Auth middleware: [!req.session.userId] holds for an absent id and
    for 0. *)
Definition authenticate (sess : Session) (next : User.t -> Db -> Outcome * Db)
  : Db -> Outcome * Db :=
  fun db =>
    match userId sess with
    | None => (Sent (reply 401 (message "Not authenticated")), db)
    | Some uid =>
        if uid =? 0 then (Sent (reply 401 (message "Not authenticated")), db)
        else
          match Storage.getUser uid db with
          | (Ok None, db') => (Sent (reply 401 (message "User not found")), db')
          | (Ok (Some user), db') => next user db'
          | (Throw e, db') => (Unhandled e, db')
          end
    end.

(** Admin middleware *)
Definition requireAdmin (user : User.t) (next : Db -> Outcome * Db)
  : Db -> Outcome * Db :=
  fun db =>
    if negb (String.eqb (User.role user) "admin")
    then (Sent (reply 403 (message "Forbidden: Admin access required")), db)
    else next db.

(** GET /api/users/me *)
Definition getMe (sess : Session) : Db -> Outcome * Db :=
  authenticate sess (fun user db => (Sent (reply 200 (userInfo user)), db)).

(** POST /api/users *)
Definition postUsers (sess : Session) (b : UserBody.t) : Db -> Outcome * Db :=
  authenticate sess (fun user =>
  requireAdmin user
    (tryCatch
       (userData <- liftResult (Schema.parseInsertUser b) ;;
        existingUser <- Storage.getUserByUsername (InsertUser.username userData) ;;
        match existingUser with
        | Some _ => ret (reply 400 (message "Username already exists"))
        | None =>
            newUser <- Storage.createUser userData ;;
            ret (reply 201 (userInfo newUser))
        end)
       (fun e =>
          match e with
          | ZodError fields => reply 400 (message (fromZodError fields))
          | _ => reply 500 (message "Failed to create user")
          end))).

Definition noun (k : Kind) : string :=
  match k with Expense => "expense" | Gain => "gain" end.

Definition Noun (k : Kind) : string :=
  match k with Expense => "Expense" | Gain => "Gain" end.

(** GET /api/expenses, GET /api/gains *)
Definition getAll (k : Kind) (sess : Session) : Db -> Outcome * Db :=
  authenticate sess (fun user =>
    tryCatch
      (l <- Storage.listByDate k ;; ret (reply 200 (JArr (map txnJson l))))
      (fun _ => reply 500 (message ("Failed to fetch " ++ noun k ++ "s")))).

(** GET /api/expenses/next-slno, GET /api/gains/next-slno *)
Definition getNextSlNo (k : Kind) (sess : Session) : Db -> Outcome * Db :=
  authenticate sess (fun user =>
    tryCatch
      (slNo <- Storage.nextSequentialId k ;;
       ret (reply 200 (JObj [("slNo", JStr slNo)])))
      (fun _ => reply 500 (message "Failed to generate next SL NO"))).

(** POST /api/expenses, POST /api/gains *)
Definition postTxn (k : Kind) (sess : Session) (b : TxnBody.t) : Db -> Outcome * Db :=
  authenticate sess (fun user =>
    tryCatch
      (data <- liftResult
                 (Schema.parseInsertTxn (TxnBody.withCreatedBy (User.id user) b)) ;;
       newRow <- Storage.create k data ;;
       ret (reply 201 (txnJson newRow)))
      (fun e =>
         match e with
         | ZodError fields => reply 400 (message (fromZodError fields))
         | _ => reply 500 (message ("Failed to create " ++ noun k))
         end)).

(** PUT /api/expenses/:id, PUT /api/gains/:id *)
Definition putTxn (k : Kind) (sess : Session) (idParam : string) (b : TxnBody.t)
  : Db -> Outcome * Db :=
  authenticate sess (fun user =>
  requireAdmin user
    (tryCatch
       match Js.parseInt idParam with
       | Js.NaN => ret (reply 400 (message ("Invalid " ++ noun k ++ " ID")))
       | Js.Num id =>
           existing <- Storage.getById k id ;;
           match existing with
           | None => ret (reply 404 (message (Noun k ++ " not found")))
           | Some _ =>
               updated <- Storage.update k id b ;;
               ret (reply 200 (optTxnJson updated))
           end
       end
       (fun _ => reply 500 (message ("Failed to update " ++ noun k))))).

(** DELETE /api/expenses/:id, DELETE /api/gains/:id *)
Definition deleteTxn (k : Kind) (sess : Session) (idParam : string)
  : Db -> Outcome * Db :=
  authenticate sess (fun user =>
  requireAdmin user
    (tryCatch
       match Js.parseInt idParam with
       | Js.NaN => ret (reply 400 (message ("Invalid " ++ noun k ++ " ID")))
       | Js.Num id =>
           existing <- Storage.getById k id ;;
           match existing with
           | None => ret (reply 404 (message (Noun k ++ " not found")))
           | Some _ =>
               _ <- Storage.delete k id ;;
               ret (reply 200 (message (Noun k ++ " deleted successfully")))
           end
       end
       (fun _ => reply 500 (message ("Failed to delete " ++ noun k))))).

Definition getExpenses := getAll Expense.
Definition getNextExpenseSlNo := getNextSlNo Expense.
Definition postExpenses := postTxn Expense.
Definition putExpense := putTxn Expense.
Definition deleteExpense := deleteTxn Expense.

Definition getGains := getAll Gain.
Definition getNextGainSlNo := getNextSlNo Gain.
Definition postGains := postTxn Gain.
Definition deleteGain := deleteTxn Gain.

End Routes.

(** ** Vocabulary of the statements *)

(** The user that [authenticate] attaches to a request, if it lets the
    request through. *)
Definition sessionUser (sess : Session) (db : Db) : option User.t :=
  match userId sess with
  | Some uid =>
      if uid =? 0 then None
      else match Storage.getUser uid db with
           | (Ok o, _) => o
           | (Throw _, _) => None
           end
  | None => None
  end.

Definition forbidden : Response :=
  reply 403 (Routes.message "Forbidden: Admin access required").

Definition invalidCredentials : Response :=
  reply 401 (Routes.message "Invalid username or password").

(** A 2xx status. *)
Definition success (r : Response) : Prop := 200 <= status r < 300.

(** [b] is an object holding every field of the stored [user] but the
    password. *)
Definition stripsPassword (user : User.t) (b : json) : Prop :=
  exists o,
    b = JObj o
    /\ Obj.get "password" o = None
    /\ forall k, k <> "password" -> Obj.get k o = Obj.get k (User.toObj user).

(** The columns of [user] that a response may show, as an object. *)
Definition publicFields (user : User.t) : json :=
  JObj [ ("id", JInt (User.id user)); ("username", JStr (User.username user));
         ("name", JStr (User.name user)); ("role", JStr (User.role user)) ].

(** Decimal digit strings and the number they denote. *)
Definition isDigit (c : ascii) : bool :=
  (48 <=? Js.code c) && (Js.code c <=? 57).

Fixpoint allDigits (s : string) : bool :=
  match s with
  | String c s' => isDigit c && allDigits s'
  | EmptyString => true
  end.

Fixpoint decimalFrom (acc : Z) (s : string) : Z :=
  match s with
  | String c s' => decimalFrom (acc * 10 + (Js.code c - 48)) s'
  | EmptyString => acc
  end.

Definition decimalValue (s : string) : Z := decimalFrom 0 s.

Definition startsWithDigit (s : string) : bool :=
  match s with String c _ => isDigit c | EmptyString => false end.

(** A stored slNo whose counter has exactly three digits (counters up to
    999). *)
Definition threeDigits (k : Kind) (slNo : string) : Prop :=
  exists ds, slNo = (prefix k ++ ds)%string
             /\ allDigits ds = true /\ String.length ds = 3%nat.

(** The largest integer below which every integer is a JavaScript number
    ([Number.MAX_SAFE_INTEGER]). *)
Definition maxSafeInteger : Z := 9007199254740991.

(** The slNo format: the kind's prefix, then a counter padded to three
    digits. *)
Definition formatted (k : Kind) (slNo : string) : Prop :=
  exists n, 0 <= n /\ slNo = (prefix k ++ Js.padStart 3 "0" (Js.toString (Js.Num n)))%string.

Definition allFormatted (k : Kind) (db : Db) : Prop :=
  Forall (fun r => formatted k (Txn.slNo r)) (rows k db).

(** A text made of one-byte characters none of which is a space. *)
Fixpoint solid (s : string) : bool :=
  match s with
  | String c s' =>
      negb (Utf8.isContinuation c) && negb (Ascii.eqb c " ") && solid s'
  | EmptyString => true
  end.

(** The next sequential id as the specification words it: one more than
    the numeric maximum of the existing suffixes, 1 on an empty table,
    printed after the prefix with at least three digits. *)
Definition suffixValues (k : Kind) (db : Db) : list Z :=
  map (fun r => decimalValue (Sql.substringFrom (suffixFrom k) (Txn.slNo r)))
      (rows k db).

Definition nextSequentialId_spec (k : Kind) (db : Db) : string :=
  let counter :=
    match suffixValues k db with
    | [] => 1
    | v :: vs => fold_left Z.max vs v + 1
    end in
  (prefix k ++ Js.padStart 3 "0" (Js.toString (Js.Num counter)))%string.

(** Descending order on the date column. *)
Definition dateGe (a b : Txn.t) : Prop :=
  String.leb (Txn.date b) (Txn.date a) = true.

(** A field that is present and at most [n] code units long. *)
Definition within (n : nat) (o : option string) : Prop :=
  exists s, o = Some s /\ (Js.length s <= n)%nat.

(** A body that the insert schema accepts once the server has set
    [createdBy]: every other field is present, and slNo, date and time are
    at most ten code units long. *)
Definition validTxnBody (b : TxnBody.t) : Prop :=
  within 10 (TxnBody.slNo b) /\ within 10 (TxnBody.date b)
  /\ within 10 (TxnBody.time b)
  /\ TxnBody.name b <> None /\ TxnBody.type b <> None
  /\ TxnBody.detail b <> None /\ TxnBody.paymentType b <> None
  /\ TxnBody.amount b <> None.

(** No text that the field holds contains the character U+0000. *)
Definition storable (o : option string) : Prop :=
  forall s, o = Some s -> Schema.text s = true.

(** No text of the body holds U+0000. *)
Definition storableBody (b : TxnBody.t) : Prop :=
  storable (TxnBody.slNo b) /\ storable (TxnBody.date b)
  /\ storable (TxnBody.time b) /\ storable (TxnBody.name b)
  /\ storable (TxnBody.type b) /\ storable (TxnBody.detail b)
  /\ storable (TxnBody.paymentType b).

(** The table of kind [k] takes the row that body [b] describes: the
    table is consistent, the next value of the id sequence is a fresh 32-bit
    key, the slNo is unused, and no text of the body holds U+0000. *)
Definition accepts (k : Kind) (db : Db) (b : TxnBody.t) : Prop :=
  Schema.txnsOk (rows k db) = true
  /\ Schema.int4 (seq k db + 1) = true
  /\ (forall r, In r (rows k db) -> Txn.id r <> seq k db + 1)
  /\ (forall s, TxnBody.slNo b = Some s ->
                forall r, In r (rows k db) -> Txn.slNo r <> s)
  /\ storableBody b.

(** Every value that the map supplies is a value of its column's type:
    a 32-bit integer, a text without U+0000, of at most ten characters for
    slNo, date and time. *)
Definition fitsColumns (patch : TxnBody.t) : Prop :=
  (forall z, TxnBody.id patch = Some z -> Schema.int4 z = true)
  /\ (forall s, TxnBody.slNo patch = Some s -> Schema.varchar 10 s = true)
  /\ (forall s, TxnBody.date patch = Some s -> Schema.varchar 10 s = true)
  /\ (forall s, TxnBody.time patch = Some s -> Schema.varchar 10 s = true)
  /\ storable (TxnBody.name patch) /\ storable (TxnBody.type patch)
  /\ storable (TxnBody.detail patch) /\ storable (TxnBody.paymentType patch)
  /\ (forall z, TxnBody.createdBy patch = Some z -> Schema.int4 z = true).

(** A column after [UPDATE ... SET]: the supplied value as it came, or
    the old value when none was supplied. *)
Definition taken {A} (supplied : option A) (old new : A) : Prop :=
  match supplied with Some v => new = v | None => new = old end.

Definition appliedVerbatim (patch : TxnBody.t) (row row' : Txn.t) : Prop :=
  taken (TxnBody.id patch) (Txn.id row) (Txn.id row')
  /\ taken (TxnBody.slNo patch) (Txn.slNo row) (Txn.slNo row')
  /\ taken (TxnBody.date patch) (Txn.date row) (Txn.date row')
  /\ taken (TxnBody.time patch) (Txn.time row) (Txn.time row')
  /\ taken (TxnBody.name patch) (Txn.name row) (Txn.name row')
  /\ taken (TxnBody.type patch) (Txn.type row) (Txn.type row')
  /\ taken (TxnBody.detail patch) (Txn.detail row) (Txn.detail row')
  /\ taken (TxnBody.paymentType patch) (Txn.paymentType row) (Txn.paymentType row')
  /\ taken (TxnBody.amount patch) (Txn.amount row) (Txn.amount row')
  /\ taken (TxnBody.createdBy patch) (Txn.createdBy row) (Txn.createdBy row').

(** The table after [UPDATE ... WHERE id = id]. *)
Definition patched (id : Z) (patch : TxnBody.t) (l : list Txn.t) : list Txn.t :=
  map (fun r => if Txn.id r =? id then TxnBody.apply patch r else r) l.

(** The constraints declared in the schema hold in all three tables. *)
Definition storeOk (db : Db) : Prop :=
  Schema.usersOk (users db) = true
  /\ Schema.txnsOk (expenses db) = true
  /\ Schema.txnsOk (gains db) = true.

(** A step that takes consistent stores to consistent stores. *)
Definition keeps {A} (step : Db -> A * Db) : Prop :=
  forall db, storeOk db -> storeOk (snd (step db)).

(** Sample data for the closed statements. *)
Definition sampleRow (id : Z) (slNo date : string) : Txn.t :=
  Txn.mk id slNo date "10:30" "Rent" "Office" "March rent" "cash" (1250 # 1) 2.

Definition sampleBody (slNo : string) : TxnBody.t :=
  TxnBody.mk None (Some slNo) (Some "2024-03-01") (Some "10:30") (Some "Rent")
             (Some "Office") (Some "March rent") (Some "cash")
             (Some (1250 # 1)%Q) None.

(** The seeded store holding the rows [l] in the table of kind [k], the
    id sequence standing at the largest id handed out. *)
Definition stored (k : Kind) (l : list Txn.t) : Db :=
  setSeq k (fold_right Z.max 0 (map Txn.id l)) (setRows k l bootDb).

Definition adminSession : Session := mkSession (Some 1).
Definition staffSession : Session := mkSession (Some 2).

(** ** Vocabulary of the further properties *)

Definition notAuthenticated : Response :=
  reply 401 (Routes.message "Not authenticated").

Definition userNotFound : Response :=
  reply 401 (Routes.message "User not found").

(** The routes mounted behind [authenticate]. *)
Definition protectedRoutes (k : Kind) (sess : Session) (idParam : string)
           (tb : TxnBody.t) (ub : UserBody.t) : list (Db -> Outcome * Db) :=
  [ Routes.getMe sess; Routes.postUsers sess ub; Routes.getAll k sess;
    Routes.getNextSlNo k sess; Routes.postTxn k sess tb;
    Routes.putTxn k sess idParam tb; Routes.deleteTxn k sess idParam ].

(** The routes that write to the store. *)
Definition writingRoutes (k : Kind) (sess : Session) (idParam : string)
           (tb : TxnBody.t) (ub : UserBody.t) : list (Db -> Outcome * Db) :=
  [ Routes.postUsers sess ub; Routes.postTxn k sess tb;
    Routes.putTxn k sess idParam tb; Routes.deleteTxn k sess idParam ].

(** A step whose resulting store is always related by [R] to the store it
    started from. *)
Definition respects {A} (R : Db -> Db -> Prop) (step : Db -> A * Db) : Prop :=
  forall db, R db (snd (step db)).

Definition other (k : Kind) : Kind :=
  match k with Expense => Gain | Gain => Expense end.

(** Nothing but the table of kind [k] and its sequence differs. *)
Definition onlyTable (k : Kind) (db db' : Db) : Prop :=
  users db' = users db /\ users_seq db' = users_seq db
  /\ rows (other k) db' = rows (other k) db /\ seq (other k) db' = seq (other k) db.

(** Users are added at the end, never removed or rewritten. *)
Definition usersGrow (db db' : Db) : Prop :=
  exists added, users db' = (users db ++ added)%list.

(** Nothing but the users table and its sequence differs, and users are
    only added. *)
Definition onlyUsers (db db' : Db) : Prop :=
  expenses db' = expenses db /\ expenses_seq db' = expenses_seq db
  /\ gains db' = gains db /\ gains_seq db' = gains_seq db
  /\ usersGrow db db'.

(** No sequence went back. *)
Definition seqsGrow (db db' : Db) : Prop :=
  users_seq db <= users_seq db' /\ expenses_seq db <= expenses_seq db'
  /\ gains_seq db <= gains_seq db'.

(** The three tables hold the same rows. *)
Definition sameRecords (db db' : Db) : Prop :=
  users db' = users db /\ expenses db' = expenses db /\ gains db' = gains db.

(** The key [k] occurs in [j], at any depth. *)
Fixpoint hasKey (k : string) (j : json) : bool :=
  match j with
  | JArr items => existsb (hasKey k) items
  | JObj fields =>
      existsb (fun kv => match kv with
                         | (k', v) => String.eqb k' k || hasKey k v
                         end) fields
  | _ => false
  end.

(** What a response sends under an outcome: nothing when the request was
    never answered. *)
Definition sentBody (o : Outcome) : json :=
  match o with Sent r => body r | Unhandled _ => JUndefined end.

(** Two bodies that differ at most in the fields the server sets itself
    ([id], [createdBy]). *)
Definition sameClientFields (b b' : TxnBody.t) : Prop :=
  TxnBody.slNo b = TxnBody.slNo b' /\ TxnBody.date b = TxnBody.date b'
  /\ TxnBody.time b = TxnBody.time b' /\ TxnBody.name b = TxnBody.name b'
  /\ TxnBody.type b = TxnBody.type b' /\ TxnBody.detail b = TxnBody.detail b'
  /\ TxnBody.paymentType b = TxnBody.paymentType b'
  /\ TxnBody.amount b = TxnBody.amount b'.

(** A protected route, called by any session with any input. *)
Definition isRoute (h : Db -> Outcome * Db) : Prop :=
  exists k sess idParam tb ub, In h (protectedRoutes k sess idParam tb ub).

(** The store after a sequence of requests, served one after the other. *)
Definition runAll (hs : list (Db -> Outcome * Db)) (db : Db) : Db :=
  fold_left (fun d h => snd (h d)) hs db.

(** Every answer of route [h] satisfies [P]. *)
Definition answers (P : Outcome -> Prop) (h : Db -> Outcome * Db) : Prop :=
  forall db, P (fst (h db)).

(** Every response that the handler body [m] returns satisfies [P]. *)
Definition yields (P : Outcome -> Prop) (m : M Response) : Prop :=
  forall db, match fst (m db) with Ok r => P (Sent r) | Throw _ => True end.

(** Nothing that is sent holds a password field. *)
Definition clean (o : Outcome) : Prop := hasKey "password" (sentBody o) = false.

(** * Properties *)

(** ** The parameters of a statement *)
Section Binding.

Lemma firstError_none (check : Pg.param -> option error) (ps : list Pg.param) :
  Pg.firstError check ps = None <-> forall p, In p ps -> check p = None.
Proof.
  induction ps as [|p ps IH]; simpl.
  - split; [intros _ p []|reflexivity].
  - destruct (check p) eqn:E.
    + split; [discriminate|]. intros H.
      rewrite (H p (or_introl eq_refl)) in E. discriminate.
    + rewrite IH. split.
      * intros H q [<-|Hq]; auto.
      * intros H q Hq. apply H. right. exact Hq.
Qed.

(** The parameters raise nothing exactly when none of them does, at
    either check. *)
Lemma prepare_none (ps : list Pg.param) :
  Pg.prepare ps = None
  <-> forall p, In p ps -> Pg.bindError p = None /\ Pg.lengthError p = None.
Proof.
  unfold Pg.prepare.
  destruct (Pg.firstError Pg.bindError ps) eqn:E.
  - split; [discriminate|]. intros H.
    assert (N : Pg.firstError Pg.bindError ps = None).
    { apply firstError_none. intros p Hp. apply (H p Hp). }
    congruence.
  - rewrite firstError_none in E. rewrite firstError_none. split.
    + intros H p Hp. auto.
    + intros H p Hp. apply (H p Hp).
Qed.

Lemma fits_accepted (p : Pg.param) :
  Pg.fits p = true -> Pg.bindError p = None /\ Pg.lengthError p = None.
Proof.
  destruct p as [s|n s|z|q]; simpl; unfold Schema.varchar, Schema.text.
  - destruct (Sql.hasNul s); simpl; intuition discriminate.
  - destruct (Sql.hasNul s); simpl; [intuition discriminate|].
    destruct (Sql.charLength s <=? n)%nat; intuition discriminate.
  - destruct (Schema.int4 z); intuition discriminate.
  - intuition discriminate.
Qed.

(** Parameters that are values of their columns' types raise nothing. *)
Lemma prepare_fits (ps : list Pg.param) :
  forallb Pg.fits ps = true -> Pg.prepare ps = None.
Proof.
  rewrite forallb_forall. intros H. apply prepare_none.
  intros p Hp. apply fits_accepted, H, Hp.
Qed.

(** A text that was bound holds no U+0000. *)
Lemma prepare_text (ps : list Pg.param) (s : string) :
  Pg.prepare ps = None ->
  In (Pg.Text s) ps \/ (exists n, In (Pg.Varchar n s) ps) ->
  Schema.text s = true.
Proof.
  intros H Hin. rewrite prepare_none in H. unfold Schema.text.
  destruct Hin as [Hin|[n Hin]]; destruct (H _ Hin) as [Hb _]; simpl in Hb;
    destruct (Sql.hasNul s); [discriminate|reflexivity|discriminate|reflexivity].
Qed.

Lemma clip_fits (n : nat) (s : string) :
  Schema.varchar n s = true -> Sql.clip n s = s.
Proof.
  unfold Schema.varchar, Sql.clip. intros H. apply andb_true_iff in H as [_ ->].
  reflexivity.
Qed.

(** What the engine makes of a text for a [varchar(10)] column: ten
    two-byte characters fit; spaces beyond the tenth character are cut
    off; anything else beyond it, and U+0000 anywhere, raises. *)
Example varchar_parameters :
  let e := String (ascii_of_nat 195) (String (ascii_of_nat 169) "") in
  let ten := (e ++ e ++ e ++ e ++ e ++ e ++ e ++ e ++ e ++ e)%string in
  String.length ten = 20%nat /\ Js.length ten = 10%nat
  /\ Schema.varchar 10 ten = true
  /\ Pg.prepare [Pg.Varchar 10 ten] = None /\ Sql.clip 10 ten = ten
  /\ Schema.varchar 10 "EXP001      " = false
  /\ Pg.prepare [Pg.Varchar 10 "EXP001      "] = None
  /\ Sql.clip 10 "EXP001      " = "EXP001    "
  /\ Pg.prepare [Pg.Varchar 10 "EXP00000001"] = Some Pg.right_truncation
  /\ Pg.prepare [Pg.Int4 1; Pg.Text (String (ascii_of_nat 0) "a")]
     = Some Pg.invalid_byte_sequence.
Proof. repeat split. Qed.

Lemma getUserByUsername_eq (username : string) (db : Db) :
  Storage.getUserByUsername username db =
  if Schema.text username
  then (Ok (find (fun u => String.eqb (User.username u) username) (users db)), db)
  else (Throw Pg.invalid_byte_sequence, db).
Proof.
  unfold Storage.getUserByUsername, Pg.prepare, Schema.text. simpl.
  destruct (Sql.hasNul username); reflexivity.
Qed.

Lemma getUserByUsername_db (username : string) (db : Db) :
  snd (Storage.getUserByUsername username db) = db.
Proof. rewrite getUserByUsername_eq. destruct (Schema.text username); reflexivity. Qed.

Lemma txnOk_id (r : Txn.t) : Schema.txnOk r = true -> Schema.int4 (Txn.id r) = true.
Proof.
  unfold Schema.txnOk. intros H. do 8 (apply andb_true_iff in H as [H _]). exact H.
Qed.

Lemma usersOk_In (l : list User.t) (user : User.t) :
  Schema.usersOk l = true -> In user l ->
  Schema.int4 (User.id user) = true /\ Schema.text (User.username user) = true.
Proof.
  unfold Schema.usersOk. intros H Hin.
  apply andb_true_iff in H as [_ H]. rewrite forallb_forall in H.
  specialize (H user Hin). unfold Schema.userOk in H.
  do 3 (apply andb_true_iff in H as [H _]). apply andb_true_iff in H as [H1 H2]. auto.
Qed.

(** One character takes at most as many code units as it takes
    characters: a text within [n] code units is within [n] characters. *)
Lemma charLength_le_length (s : string) : (Sql.charLength s <= Js.length s)%nat.
Proof.
  induction s as [|c s IH]; simpl; [lia|].
  destruct (Utf8.isContinuation c); [exact IH|].
  destruct (240 <=? Js.code c); simpl; lia.
Qed.

End Binding.

(** ** The store and the middleware *)

Lemma setRows_same (k : Kind) (db : Db) : setRows k (rows k db) db = db.
Proof. destruct k, db; reflexivity. Qed.

Lemma rows_setRows (k : Kind) (l : list Txn.t) (db : Db) :
  rows k (setRows k l db) = l.
Proof. destruct k; reflexivity. Qed.

Lemma users_setRows (k : Kind) (l : list Txn.t) (db : Db) :
  users (setRows k l db) = users db.
Proof. destruct k; reflexivity. Qed.

Lemma getUser_db (id : Z) (db : Db) : snd (Storage.getUser id db) = db.
Proof. unfold Storage.getUser. destruct (Schema.int4 id); reflexivity. Qed.

Lemma sessionUser_getUser (sess : Session) (db : Db) (user : User.t) :
  sessionUser sess db = Some user ->
  exists uid,
    userId sess = Some uid /\ (uid =? 0) = false
    /\ Storage.getUser uid db = (Ok (Some user), db).
Proof.
  unfold sessionUser. intros H.
  destruct (userId sess) as [uid|]; [|discriminate].
  exists uid. destruct (uid =? 0); [discriminate|].
  pose proof (getUser_db uid db) as Hdb.
  destruct (Storage.getUser uid db) as [[o|e] db']; [|discriminate].
  simpl in Hdb. subst. auto.
Qed.

Lemma sessionUser_stored (sess : Session) (db : Db) (user : User.t) :
  sessionUser sess db = Some user ->
  In user (users db) /\ Schema.int4 (User.id user) = true.
Proof.
  intros H. apply sessionUser_getUser in H as (uid & _ & _ & H).
  unfold Storage.getUser in H.
  destruct (Schema.int4 uid) eqn:Hr; [|discriminate].
  injection H as H. apply find_some in H as [Hin Hid].
  apply Z.eqb_eq in Hid. subst. auto.
Qed.

(** [authenticate] hands a bound session's user to the next handler. *)
Lemma authenticate_bound (sess : Session) (db : Db) (user : User.t)
      (next : User.t -> Db -> Outcome * Db) :
  sessionUser sess db = Some user ->
  Routes.authenticate sess next db = next user db.
Proof.
  intros H. apply sessionUser_getUser in H as (uid & Hs & Hz & Hg).
  unfold Routes.authenticate. rewrite Hs, Hz, Hg. reflexivity.
Qed.

(** Without a bound user the chain stops in [authenticate]: a 401 or an
    uncaught rejection, and the store is as it was. *)
Lemma authenticate_unbound (sess : Session) (db : Db)
      (next : User.t -> Db -> Outcome * Db) :
  sessionUser sess db = None ->
  exists o, Routes.authenticate sess next db = (o, db)
            /\ forall r, o = Sent r -> status r = 401.
Proof.
  unfold sessionUser, Routes.authenticate. intros H.
  destruct (userId sess) as [uid|].
  - destruct (uid =? 0).
    + eexists; split; [reflexivity|]. intros r [= <-]. reflexivity.
    + pose proof (getUser_db uid db) as Hdb.
      destruct (Storage.getUser uid db) as [[o|e] db']; simpl in Hdb; subst.
      * eexists; split; [reflexivity|]. intros r [= <-]. reflexivity.
      * eexists; split; [reflexivity|]. intros r [=].
  - eexists; split; [reflexivity|]. intros r [= <-]. reflexivity.
Qed.

Lemma requireAdmin_staff (user : User.t) (next : Db -> Outcome * Db) (db : Db) :
  User.role user <> "admin" ->
  Routes.requireAdmin user next db = (Sent forbidden, db).
Proof.
  intros H. unfold Routes.requireAdmin.
  apply String.eqb_neq in H. rewrite H. reflexivity.
Qed.

Lemma requireAdmin_admin (user : User.t) (next : Db -> Outcome * Db) (db : Db) :
  User.role user = "admin" ->
  Routes.requireAdmin user next db = next db.
Proof. intros H. unfold Routes.requireAdmin. rewrite H. reflexivity. Qed.

(** ** Admin-only routes *)

(** Any route mounted as [authenticate, requireAdmin, handler]. *)
Lemma gated_chain (sess : Session) (db : Db)
      (inner : User.t -> Db -> Outcome * Db) :
  let h := Routes.authenticate sess (fun user => Routes.requireAdmin user (inner user)) in
  (forall user,
      sessionUser sess db = Some user -> User.role user <> "admin" ->
      h db = (Sent forbidden, db))
  /\ (forall r db',
         h db = (Sent r, db') -> success r ->
         exists user, sessionUser sess db = Some user /\ User.role user = "admin").
Proof.
  intros h. assert (A : forall user,
      sessionUser sess db = Some user -> User.role user <> "admin" ->
      h db = (Sent forbidden, db)).
  { intros user Hs Hr. unfold h. rewrite (authenticate_bound _ _ user) by exact Hs.
    apply requireAdmin_staff. exact Hr. }
  split; [exact A|].
  intros r db' Hh [Hlo Hhi].
  destruct (sessionUser sess db) as [user|] eqn:Hs.
  - destruct (string_dec (User.role user) "admin") as [Ha|Hn].
    + exists user. auto.
    + rewrite (A user eq_refl Hn) in Hh. injection Hh as <- _.
      simpl in Hlo, Hhi. lia.
  - destruct (authenticate_unbound sess db
                (fun user => Routes.requireAdmin user (inner user)) Hs)
      as (o & Ho & H401).
    unfold h in Hh. rewrite Ho in Hh. injection Hh as -> _.
    specialize (H401 r eq_refl). lia.
Qed.

(** C2: PUT and DELETE on /api/expenses/:id and /api/gains/:id and POST
    /api/users answer 403 to an authenticated session whose user is not an
    admin, leaving the store untouched, and answer with a success status
    only when the session-bound user has role "admin". *)
Theorem admin_routes_gate
        (k : Kind) (sess : Session) (db : Db) (idParam : string)
        (tb : TxnBody.t) (ub : UserBody.t) (h : Db -> Outcome * Db) :
  In h [Routes.putTxn k sess idParam tb; Routes.deleteTxn k sess idParam;
        Routes.postUsers sess ub] ->
  (forall user,
      sessionUser sess db = Some user -> User.role user <> "admin" ->
      h db = (Sent forbidden, db))
  /\ (forall r db',
         h db = (Sent r, db') -> success r ->
         exists user, sessionUser sess db = Some user /\ User.role user = "admin").
Proof.
  intros [<-|[<-|[<-|[]]]]; apply gated_chain.
Qed.

(** The seeded staff account is refused on an existing expense. *)
Lemma admin_routes_gate_witness :
  let db := stored Expense [sampleRow 1 "EXP001" "2024-03-01"] in
  let h := Routes.putExpense staffSession "1" (sampleBody "EXP009") in
  In h [Routes.putTxn Expense staffSession "1" (sampleBody "EXP009");
        Routes.deleteTxn Expense staffSession "1";
        Routes.postUsers staffSession (UserBody.mk None None None None)]
  /\ h db = (Sent forbidden, db).
Proof.
  intros db h.
  assert (Hin : In h [Routes.putTxn Expense staffSession "1" (sampleBody "EXP009");
                      Routes.deleteTxn Expense staffSession "1";
                      Routes.postUsers staffSession (UserBody.mk None None None None)])
    by (left; reflexivity).
  split; [exact Hin|].
  destruct (admin_routes_gate Expense staffSession db "1" (sampleBody "EXP009")
              (UserBody.mk None None None None) h Hin) as [A _].
  apply (A (User.mk 2 "staff1" "1234" "Staff User" "staff")).
  - reflexivity.
  - discriminate.
Defined.

(** ** User objects in responses *)

Lemma get_omit (k k' : string) (o : Obj.t) :
  Obj.get k (Obj.omit k' o) = if String.eqb k k' then None else Obj.get k o.
Proof.
  induction o as [|[k0 v] o IH]; cbn [Obj.omit filter fst].
  - destruct (String.eqb k k'); reflexivity.
  - fold (Obj.omit k' o).
    destruct (String.eqb k0 k') eqn:E0; cbn [negb Obj.get].
    + rewrite IH. destruct (String.eqb k k') eqn:E; [reflexivity|].
      destruct (String.eqb k0 k) eqn:E1; [|reflexivity].
      apply String.eqb_eq in E0, E1. subst.
      rewrite String.eqb_refl in E. discriminate.
    + rewrite IH. destruct (String.eqb k0 k) eqn:E1; [|reflexivity].
      apply String.eqb_eq in E1. subst. rewrite E0. reflexivity.
Qed.

Lemma userInfo_strips (user : User.t) : stripsPassword user (Routes.userInfo user).
Proof.
  exists (Obj.omit "password" (User.toObj user)).
  split; [reflexivity|]. split.
  - rewrite get_omit, String.eqb_refl. reflexivity.
  - intros k Hk. rewrite get_omit.
    apply String.eqb_neq in Hk. rewrite Hk. reflexivity.
Qed.

Lemma missing_false (o : option string) :
  Routes.missing o = false -> exists s, o = Some s /\ s <> "" /\ Routes.text o = s.
Proof.
  unfold Routes.missing, Js.truthy. destruct o as [s|]; [|discriminate].
  intros H. exists s. rewrite negb_involutive in H. apply String.eqb_neq in H. auto.
Qed.

(** A login that succeeds: the lookup under the request's username found a
    user whose password is the request's. *)
Lemma login_success (b : LoginBody.t) (sess sess' : Session) (db db' : Db) (r : Response) :
  Routes.login b sess db = (r, db', sess') -> success r ->
  exists user,
    Storage.getUserByUsername (User.username user) db = (Ok (Some user), db)
    /\ LoginBody.username b = Some (User.username user)
    /\ LoginBody.password b = Some (User.password user)
    /\ In user (users db) /\ db' = db
    /\ r = reply 200 (Routes.userInfo user)
    /\ sess' = mkSession (Some (User.id user)).
Proof.
  unfold Routes.login, success. intros H Hs.
  destruct (Routes.missing (LoginBody.username b)) eqn:Mu;
    [injection H as <- _ _; simpl in Hs; lia|].
  destruct (Routes.missing (LoginBody.password b)) eqn:Mp;
    [injection H as <- _ _; simpl in Hs; lia|].
  cbn [orb] in H.
  destruct (missing_false _ Mu) as (u & Eu & _ & Tu).
  destruct (missing_false _ Mp) as (pw & Ep & _ & Tp).
  rewrite Tu, Tp in H.
  destruct (Storage.getUserByUsername u db) as [[[user|]|e] d] eqn:Hg;
    try (injection H as <- _ _; simpl in Hs; lia).
  pose proof (getUserByUsername_db u db) as Hd. rewrite Hg in Hd. cbn [snd] in Hd. subst d.
  destruct (String.eqb (User.password user) pw) eqn:Epw; cbn [negb] in H;
    [|injection H as <- _ _; simpl in Hs; lia].
  injection H as <- <- <-. apply String.eqb_eq in Epw.
  pose proof Hg as Hf. rewrite getUserByUsername_eq in Hf.
  destruct (Schema.text u); [|discriminate]. injection Hf as Hf.
  apply find_some in Hf as [Hin Hname]. apply String.eqb_eq in Hname.
  exists user. rewrite Hname, Epw. auto 10.
Qed.

Lemma getMe_success (sess : Session) (db db' : Db) (r : Response) :
  Routes.getMe sess db = (Sent r, db') -> success r ->
  exists user,
    sessionUser sess db = Some user /\ db' = db
    /\ r = reply 200 (Routes.userInfo user).
Proof.
  unfold Routes.getMe, success. intros H Hs.
  destruct (sessionUser sess db) as [user|] eqn:Hu.
  - rewrite (authenticate_bound _ _ user) in H by exact Hu.
    injection H as <- <-. exists user. auto.
  - destruct (authenticate_unbound sess db
                (fun user db => (Sent (reply 200 (Routes.userInfo user)), db)) Hu)
      as (o & Ho & H401).
    rewrite Ho in H. injection H as -> _. specialize (H401 r eq_refl). lia.
Qed.

Lemma postUsers_success (sess : Session) (ub : UserBody.t) (db db' : Db) (r : Response) :
  Routes.postUsers sess ub db = (Sent r, db') -> success r ->
  exists userData newUser,
    Schema.parseInsertUser ub = Ok userData
    /\ Storage.getUserByUsername (InsertUser.username userData) db = (Ok None, db)
    /\ Storage.createUser userData db = (Ok newUser, db')
    /\ r = reply 201 (Routes.userInfo newUser).
Proof.
  intros H Hs.
  destruct (proj2 (gated_chain sess db _) r db' H Hs) as (admin & Hu & Ha).
  unfold Routes.postUsers in H.
  rewrite (authenticate_bound _ _ admin) in H by exact Hu.
  rewrite requireAdmin_admin in H by exact Ha.
  unfold Routes.tryCatch, bind, Routes.liftResult, ret in H.
  unfold success in Hs.
  destruct (Schema.parseInsertUser ub) as [userData|e];
    [|injection H as <- _; destruct e; simpl in Hs; lia].
  pose proof (getUserByUsername_db (InsertUser.username userData) db) as Hd.
  destruct (Storage.getUserByUsername _ db) as [[[x|]|e] d] eqn:Hg;
    cbn [snd] in Hd; subst d.
  - injection H as <- _. simpl in Hs. lia.
  - destruct (Storage.createUser userData db) as [[newUser|e] db1] eqn:Hc.
    + injection H as <- <-. exists userData, newUser. auto.
    + injection H as <- _. destruct e; simpl in Hs; lia.
  - injection H as <- _. destruct e; simpl in Hs; lia.
Qed.

Lemma createUser_ok (iu : InsertUser.t) (db db' : Db) (user : User.t) :
  Storage.createUser iu db = (Ok user, db') ->
  users db' = (users db ++ [user])%list
  /\ User.role user = Storage.roleOrStaff (InsertUser.role iu)
  /\ User.username user = InsertUser.username iu
  /\ User.password user = InsertUser.password iu.
Proof.
  unfold Storage.createUser. intros H.
  destruct (Pg.prepare _); [discriminate|].
  destruct (negb (Schema.int4 _)); [discriminate|].
  destruct (Schema.usersOk _); [|discriminate].
  injection H as <- <-. simpl. auto.
Qed.

(** The row that [createUser] stores: the columns it was given, under
    the next id, which no earlier user has. *)
Lemma createUser_row (iu : InsertUser.t) (db db' : Db) (user : User.t) :
  Storage.createUser iu db = (Ok user, db') ->
  User.name user = InsertUser.name iu
  /\ User.id user = users_seq db + 1
  /\ Schema.usersOk (users db') = true.
Proof.
  unfold Storage.createUser. intros H.
  destruct (Pg.prepare _); [discriminate|].
  destruct (negb (Schema.int4 _)); [discriminate|].
  destruct (Schema.usersOk _) eqn:E; [|discriminate].
  injection H as <- <-. simpl. auto.
Qed.

Lemma distinct_last {A} (eqb : A -> A -> bool) (l : list A) (b : A) :
  (forall a, eqb a a = true) ->
  Schema.distinct eqb (l ++ [b]) = true -> ~ In b l.
Proof.
  intros Hrefl. induction l as [|y l IH]; simpl; [tauto|].
  intros Hd [->|Hin].
  - apply andb_true_iff in Hd as [Hy _]. apply negb_true_iff in Hy.
    rewrite existsb_app in Hy. simpl in Hy. rewrite Hrefl in Hy.
    rewrite orb_true_r in Hy. discriminate.
  - apply andb_true_iff in Hd as [_ Hd]. exact (IH Hd Hin).
Qed.

Lemma parseInsertUser_fields (ub : UserBody.t) (userData : InsertUser.t) :
  Schema.parseInsertUser ub = Ok userData ->
  UserBody.username ub = Some (InsertUser.username userData)
  /\ UserBody.password ub = Some (InsertUser.password userData)
  /\ UserBody.name ub = Some (InsertUser.name userData)
  /\ UserBody.role ub = InsertUser.role userData.
Proof.
  unfold Schema.parseInsertUser.
  destruct (UserBody.username ub), (UserBody.password ub), (UserBody.name ub);
    try discriminate.
  intros [= <-]. auto.
Qed.

(** C4: every success response that carries a user object (login 200,
    GET /api/users/me 200, POST /api/users 201) holds all fields of the
    stored user except the password, which is absent from it: the id,
    username, name and role, and nothing else.  The user is, for login,
    the stored user whose username and password the request carries, to
    whom the session is then bound; for GET /api/users/me, the user the
    session is bound to; for POST /api/users, the row just stored, which
    carries the body's username, password and name, the body's role or
    "staff", and an id that no earlier user has. *)
Theorem user_responses_omit_password :
  (forall b sess db r db' sess',
      Routes.login b sess db = (r, db', sess') -> success r ->
      status r = 200
      /\ exists user,
           In user (users db')
           /\ LoginBody.username b = Some (User.username user)
           /\ LoginBody.password b = Some (User.password user)
           /\ sess' = mkSession (Some (User.id user))
           /\ stripsPassword user (body r) /\ body r = publicFields user)
  /\ (forall sess db r db',
         Routes.getMe sess db = (Sent r, db') -> success r ->
         status r = 200
         /\ exists user,
              In user (users db')
              /\ sessionUser sess db = Some user
              /\ userId sess = Some (User.id user)
              /\ stripsPassword user (body r) /\ body r = publicFields user)
  /\ (forall sess ub db r db',
         Routes.postUsers sess ub db = (Sent r, db') -> success r ->
         status r = 201
         /\ exists user,
              In user (users db')
              /\ (forall u, In u (users db) -> User.id u <> User.id user)
              /\ UserBody.username ub = Some (User.username user)
              /\ UserBody.password ub = Some (User.password user)
              /\ UserBody.name ub = Some (User.name user)
              /\ User.role user = Storage.roleOrStaff (UserBody.role ub)
              /\ stripsPassword user (body r) /\ body r = publicFields user).
Proof.
  split; [|split].
  - intros b sess db r db' sess' H Hs.
    destruct (login_success _ _ _ _ _ _ H Hs) as (user & _ & Eu & Ep & Hin & -> & -> & ->).
    split; [reflexivity|]. exists user.
    repeat (split; [assumption || reflexivity|]).
    split; [apply userInfo_strips|reflexivity].
  - intros sess db r db' H Hs.
    destruct (getMe_success _ _ _ _ H Hs) as (user & Hu & -> & ->).
    split; [reflexivity|]. exists user.
    split; [apply (sessionUser_stored _ _ _ Hu)|]. split; [exact Hu|]. split.
    + apply sessionUser_getUser in Hu as (uid & Hs' & _ & Hg).
      rewrite Hs'. f_equal. unfold Storage.getUser in Hg.
      destruct (Schema.int4 uid); [|discriminate]. injection Hg as Hg.
      apply find_some in Hg as [_ Hg]. apply Z.eqb_eq in Hg. congruence.
    + split; [apply userInfo_strips|reflexivity].
  - intros sess ub db r db' H Hs.
    destruct (postUsers_success _ _ _ _ _ H Hs) as (ud & nu & Hp & _ & Hc & ->).
    destruct (parseInsertUser_fields ub ud Hp) as (Bu & Bp & Bn & Br).
    destruct (createUser_ok ud db db' nu Hc) as (Husers & Hr & Hn & Hpw).
    destruct (createUser_row ud db db' nu Hc) as (Hname & _ & Hok).
    split; [reflexivity|]. exists nu.
    split; [rewrite Husers; apply in_or_app; right; left; reflexivity|].
    split.
    { intros u Hin E. unfold Schema.usersOk in Hok.
      apply andb_true_iff in Hok as [Hok _]. apply andb_true_iff in Hok as [Hids _].
      rewrite Husers, map_app in Hids. cbn [map] in Hids.
      apply (distinct_last Z.eqb _ _ Z.eqb_refl) in Hids. apply Hids.
      rewrite <- E. apply in_map. exact Hin. }
    rewrite Bu, Bp, Bn, Br, Hn, Hpw, Hname, Hr.
    repeat (split; [reflexivity|]).
    split; [apply userInfo_strips|reflexivity].
Qed.

(** The three routes on the seeded store: the admin logs in, reads
    /api/users/me and creates a user. *)
Lemma user_responses_omit_password_witness :
  let admin := User.mk 1 "admin" "786786" "Admin User" "admin" in
  let clerk := User.mk 3 "clerk" "s3cret" "Clerk" "staff" in
  let r1 := fst (fst (Routes.login (LoginBody.mk (Some "admin") (Some "786786"))
                                   (mkSession None) bootDb)) in
  let ub := UserBody.mk (Some "clerk") (Some "s3cret") (Some "Clerk") None in
  (status r1 = 200 /\ body r1 = publicFields admin)
  /\ (exists r2,
         Routes.getMe adminSession bootDb = (Sent r2, bootDb) /\ status r2 = 200
         /\ body r2 = publicFields admin)
  /\ (exists r3 db3,
         Routes.postUsers adminSession ub bootDb = (Sent r3, db3) /\ status r3 = 201
         /\ body r3 = publicFields clerk /\ In clerk (users db3)).
Proof.
  intros admin clerk r1 ub.
  destruct user_responses_omit_password as (L & G & P).
  split; [|split].
  - destruct (L (LoginBody.mk (Some "admin") (Some "786786")) (mkSession None) bootDb
                r1 bootDb (mkSession (Some 1))) as (Hst & user & _ & _ & _ & Hsess & _ & _).
    + reflexivity.
    + unfold success; simpl; lia.
    + split; [exact Hst|reflexivity].
  - eexists. split; [reflexivity|].
    destruct (G adminSession bootDb (reply 200 (Routes.userInfo admin)) bootDb)
      as (Hst & user & _ & Hu & _).
    + reflexivity.
    + unfold success; simpl; lia.
    + split; [exact Hst|reflexivity].
  - eexists. eexists. split; [reflexivity|].
    destruct (P adminSession ub bootDb (reply 201 (Routes.userInfo clerk))
                (snd (Routes.postUsers adminSession ub bootDb)))
      as (Hst & user & _).
    + reflexivity.
    + unfold success; simpl; lia.
    + split; [exact Hst|]. split; [reflexivity|]. right. right. left. reflexivity.
Defined.

(** ** [createUser] and the role default *)

Lemma roleOrStaff_nonempty (r : option string) : Storage.roleOrStaff r <> "".
Proof.
  unfold Storage.roleOrStaff, Js.truthy.
  destruct r as [s|]; [|discriminate].
  destruct (String.eqb s "") eqn:E; cbn [negb]; [discriminate|].
  apply String.eqb_neq. exact E.
Qed.

(** C10: [createUser] stores role "staff" whenever the supplied role is
    falsy, be it absent or the empty string, so a user created through
    [createUser] never has the empty role. *)
Theorem createUser_role_never_empty
        (insertUser : InsertUser.t) (db db' : Db) (user : User.t) :
  Storage.createUser insertUser db = (Ok user, db') ->
  users db' = (users db ++ [user])%list
  /\ User.role user <> ""
  /\ (InsertUser.role insertUser = None \/ InsertUser.role insertUser = Some ""
      -> User.role user = "staff")
  /\ (forall s, InsertUser.role insertUser = Some s -> s <> "" -> User.role user = s).
Proof.
  intros H. apply createUser_ok in H as (Hu & Hr & _).
  split; [exact Hu|]. rewrite Hr. split; [apply roleOrStaff_nonempty|]. split.
  - intros [->| ->]; reflexivity.
  - intros s -> Hs. unfold Storage.roleOrStaff, Js.truthy.
    apply String.eqb_neq in Hs. rewrite Hs. reflexivity.
Qed.

(** A user posted with the empty role is stored as staff. *)
Lemma createUser_role_never_empty_witness :
  let insertUser := InsertUser.mk "clerk" "s3cret" "Clerk" (Some "") in
  exists user db',
    Storage.createUser insertUser bootDb = (Ok user, db')
    /\ In user (users db') /\ User.role user = "staff".
Proof.
  intros insertUser.
  exists (User.mk 3 "clerk" "s3cret" "Clerk" "staff").
  eexists. split; [reflexivity|].
  destruct (createUser_role_never_empty insertUser bootDb _ _ eq_refl)
    as (Hu & _ & Hs & _).
  split.
  - rewrite Hu. apply in_or_app. right. left. reflexivity.
  - apply Hs. right. reflexivity.
Defined.

(** ** Listing by date *)
Section ListByDate.

Lemma leb_iff (a b : string) : String.leb a b = true <-> a = b \/ String_as_OT.lt a b.
Proof.
  unfold String.leb. destruct (String.compare a b) eqn:E.
  - apply String_as_OT.cmp_eq in E. tauto.
  - apply String_as_OT.cmp_lt in E. tauto.
  - split; [discriminate|]. intros [->|H].
    + assert (E' : String.compare b b = Eq) by (apply String_as_OT.cmp_eq; reflexivity).
      congruence.
    + apply String_as_OT.cmp_lt in H. unfold String_as_OT.cmp in H. congruence.
Qed.

Lemma leb_trans (a b c : string) :
  String.leb a b = true -> String.leb b c = true -> String.leb a c = true.
Proof.
  rewrite !leb_iff. intros [->|H1] [->|H2]; auto.
  right. exact (String_as_OT.lt_trans _ _ _ H1 H2).
Qed.

Lemma ltb_false_leb (a b : string) : String.ltb a b = false -> String.leb b a = true.
Proof.
  unfold String.ltb, String.leb. rewrite (String.compare_antisym b a).
  destruct (String.compare a b); simpl; congruence.
Qed.

Lemma ltb_true_leb (a b : string) : String.ltb a b = true -> String.leb a b = true.
Proof.
  unfold String.ltb, String.leb. destruct (String.compare a b); congruence.
Qed.

Lemma dateGe_trans (a b c : Txn.t) : dateGe a b -> dateGe b c -> dateGe a c.
Proof. unfold dateGe. intros H1 H2. exact (leb_trans _ _ _ H2 H1). Qed.

Lemma insertByDateDesc_perm (r : Txn.t) (l : list Txn.t) :
  Permutation (r :: l) (Storage.insertByDateDesc r l).
Proof.
  induction l as [|x l IH]; simpl.
  - apply Permutation_refl.
  - destruct (String.ltb (Txn.date r) (Txn.date x)).
    + eapply perm_trans; [apply perm_swap|]. apply perm_skip. exact IH.
    + apply Permutation_refl.
Qed.

Lemma insertByDateDesc_sorted (r : Txn.t) (l : list Txn.t) :
  StronglySorted dateGe l -> StronglySorted dateGe (Storage.insertByDateDesc r l).
Proof.
  induction 1 as [|x l Hs IH Hall]; simpl.
  - constructor; constructor.
  - destruct (String.ltb (Txn.date r) (Txn.date x)) eqn:E.
    + constructor; [exact IH|].
      apply (Permutation_Forall (insertByDateDesc_perm r l)).
      constructor; [|exact Hall].
      apply ltb_true_leb. exact E.
    + assert (Hrx : dateGe r x) by (apply ltb_false_leb; exact E).
      constructor; [constructor; assumption|].
      constructor; [exact Hrx|].
      eapply Forall_impl; [|exact Hall].
      intros y Hxy. exact (dateGe_trans _ _ _ Hrx Hxy).
Qed.

Lemma orderByDateDesc_perm (l : list Txn.t) :
  Permutation l (Storage.orderByDateDesc l).
Proof.
  induction l as [|r l IH]; simpl; [constructor|].
  eapply perm_trans; [apply perm_skip; exact IH|].
  apply insertByDateDesc_perm.
Qed.

Lemma orderByDateDesc_sorted (l : list Txn.t) :
  StronglySorted dateGe (Storage.orderByDateDesc l).
Proof.
  induction l as [|r l IH]; simpl; [constructor|].
  apply insertByDateDesc_sorted. exact IH.
Qed.

End ListByDate.

(** C7: for every table state, [getExpenses] and [getGains] return all
    stored records of their kind (each exactly once) ordered by the date
    column descending, and leave the store as it is. *)
Theorem list_by_date_descending (db : Db) :
  (exists l,
      Storage.getExpenses db = (Ok l, db)
      /\ Permutation (expenses db) l /\ StronglySorted dateGe l)
  /\ (exists l,
         Storage.getGains db = (Ok l, db)
         /\ Permutation (gains db) l /\ StronglySorted dateGe l).
Proof.
  split.
  - exists (Storage.orderByDateDesc (expenses db)).
    split; [reflexivity|].
    split; [apply orderByDateDesc_perm|apply orderByDateDesc_sorted].
  - exists (Storage.orderByDateDesc (gains db)).
    split; [reflexivity|].
    split; [apply orderByDateDesc_perm|apply orderByDateDesc_sorted].
Qed.

(** ** [parseInt] on digit strings *)
Section ParseInt.

Ltac bools :=
  repeat match goal with
         | H : _ && _ = true |- _ => apply andb_true_iff in H; destruct H
         | H : (_ <=? _) = true |- _ => apply Z.leb_le in H
         | |- context [?a <=? ?b] => destruct (Z.leb_spec a b)
         | |- context [?a <? ?b] => destruct (Z.ltb_spec a b)
         | |- context [?a =? ?b] => destruct (Z.eqb_spec a b)
         end.

Lemma digit_not_space (c : ascii) : isDigit c = true -> Js.isWhiteSpace c = false.
Proof.
  unfold isDigit, Js.isWhiteSpace. intros H. bools; simpl; try reflexivity; lia.
Qed.

Lemma trimStart_digit (c : ascii) (s : string) :
  isDigit c = true -> Js.trimStart (String c s) = String c s.
Proof.
  intros H. cbn [Js.trimStart]. rewrite (digit_not_space c H).
  unfold isDigit in H. apply andb_true_iff in H as [H1 H2]. apply Z.leb_le in H1, H2.
  assert (W2 : forall c1, Js.isWhiteSpace2 c c1 = false).
  { intros c1. unfold Js.isWhiteSpace2.
    rewrite (proj2 (Z.eqb_neq (Js.code c) 194)) by lia. reflexivity. }
  assert (W3 : forall c1 c2, Js.isWhiteSpace3 c c1 c2 = false).
  { intros c1 c2. unfold Js.isWhiteSpace3. cbv zeta.
    rewrite (proj2 (Z.eqb_neq (Js.code c) 225)), (proj2 (Z.eqb_neq (Js.code c) 226)),
      (proj2 (Z.eqb_neq (Js.code c) 227)), (proj2 (Z.eqb_neq (Js.code c) 239)) by lia.
    reflexivity. }
  destruct s as [|c1 [|c2 s]]; rewrite ?W2, ?W3; reflexivity.
Qed.

Lemma digit_radix10 (c : ascii) :
  isDigit c = true -> Js.radixDigit 10 c = Some (Js.code c - 48).
Proof.
  unfold isDigit, Js.radixDigit, Js.digitValue. intros H.
  repeat (progress (bools; simpl)); try reflexivity; lia.
Qed.

Lemma nondigit_radix10 (c : ascii) :
  isDigit c = false -> Js.radixDigit 10 c = None.
Proof.
  unfold isDigit, Js.radixDigit, Js.digitValue. intros H.
  revert H. repeat (progress (bools; simpl)); intros;
    try reflexivity; try discriminate; lia.
Qed.

Lemma digit_not_sign (c : ascii) :
  isDigit c = true -> Ascii.eqb c "-" = false /\ Ascii.eqb c "+" = false.
Proof.
  intros H. split; apply Ascii.eqb_neq; intros ->; discriminate.
Qed.

Lemma scanDigits_digits (ds t : string) (a : Z) :
  allDigits ds = true -> startsWithDigit t = false ->
  Js.scanDigits 10 (ds ++ t) (Some a) = Some (decimalFrom a ds).
Proof.
  revert a. induction ds as [|c ds IH]; intros a Hd Ht; simpl.
  - destruct t as [|c t]; [reflexivity|]. simpl in Ht. simpl.
    rewrite nondigit_radix10 by exact Ht. reflexivity.
  - simpl in Hd. apply andb_true_iff in Hd as [Hc Hd].
    rewrite digit_radix10 by exact Hc. apply IH; assumption.
Qed.

(** Digits followed by text that does not continue the number: [parseInt]
    reads the digits, unless the text opens with the hexadecimal marker. *)
Lemma parseInt_digits (ds t : string) :
  ds <> "" -> allDigits ds = true -> startsWithDigit t = false ->
  Js.hasHexPrefix (ds ++ t) = false ->
  Js.parseInt (ds ++ t) = Js.Num (decimalValue ds).
Proof.
  intros Hne Hd Ht Hx. destruct ds as [|c ds]; [congruence|].
  pose proof Hd as Hd'. simpl in Hd'. apply andb_true_iff in Hd' as [Hc Hds].
  unfold Js.parseInt. cbn [append].
  rewrite trimStart_digit by exact Hc.
  unfold Js.stripSign. destruct (digit_not_sign c Hc) as [-> ->].
  assert (Hs : Js.stripHexPrefix (String c (ds ++ t)) = (10, String c (ds ++ t))).
  { unfold Js.stripHexPrefix. change (String c (ds ++ t)) with (String c ds ++ t)%string.
    rewrite Hx. cbn [append]. destruct (ds ++ t)%string; reflexivity. }
  rewrite Hs. cbn [Js.scanDigits]. rewrite digit_radix10 by exact Hc.
  rewrite scanDigits_digits by assumption.
  unfold decimalValue. cbn [decimalFrom]. rewrite Z.mul_1_l. reflexivity.
Qed.

End ParseInt.

(** ** The id parameter of PUT and DELETE *)

Lemma append_empty (s : string) : (s ++ "")%string = s.
Proof. induction s as [|c s IH]; simpl; [reflexivity|]. rewrite IH. reflexivity. Qed.

Lemma digits_no_hex_prefix (ds : string) :
  allDigits ds = true -> Js.hasHexPrefix ds = false.
Proof.
  destruct ds as [|c0 [|c1 ds]]; try reflexivity. simpl. intros H.
  apply andb_true_iff in H as [_ H]. apply andb_true_iff in H as [H _].
  assert (Hx : Ascii.eqb c1 "x" = false) by (apply Ascii.eqb_neq; intros ->; discriminate).
  assert (HX : Ascii.eqb c1 "X" = false) by (apply Ascii.eqb_neq; intros ->; discriminate).
  rewrite Hx, HX. apply andb_false_r.
Qed.

Lemma parseInt_digits_only (ds : string) :
  ds <> "" -> allDigits ds = true -> Js.parseInt ds = Js.Num (decimalValue ds).
Proof.
  intros Hne Hd. rewrite <- (append_empty ds) at 1.
  apply parseInt_digits; try assumption; [reflexivity|].
  rewrite append_empty. apply digits_no_hex_prefix. exact Hd.
Qed.

(** White space before the digits is skipped, whatever its width: a
    space, U+00A0, U+2003, U+3000 and U+FEFF. *)
Example parseInt_skips_white_space :
  let nbsp := String (ascii_of_nat 194) (String (ascii_of_nat 160) "") in
  let em := String (ascii_of_nat 226) (String (ascii_of_nat 128)
              (String (ascii_of_nat 131) "")) in
  let ideographic := String (ascii_of_nat 227) (String (ascii_of_nat 128)
                       (String (ascii_of_nat 128) "")) in
  let bom := String (ascii_of_nat 239) (String (ascii_of_nat 187)
               (String (ascii_of_nat 191) "")) in
  Js.parseInt (" " ++ "3") = Js.Num 3
  /\ Js.parseInt (nbsp ++ "3") = Js.Num 3
  /\ Js.parseInt (em ++ nbsp ++ "-12abc") = Js.Num (-12)
  /\ Js.parseInt (ideographic ++ bom ++ "0x1f") = Js.Num 31
  /\ Js.parseInt (String (ascii_of_nat 226) (String (ascii_of_nat 128)
                    (String (ascii_of_nat 139) "3"))) = Js.NaN.
Proof. repeat split. Qed.

Lemma putTxn_admin (k : Kind) (sess : Session) (db : Db) (user : User.t)
      (idParam : string) (b : TxnBody.t) :
  sessionUser sess db = Some user -> User.role user = "admin" ->
  Routes.putTxn k sess idParam b db =
  match Js.parseInt idParam with
  | Js.NaN => (Sent (reply 400 (Routes.message ("Invalid " ++ Routes.noun k ++ " ID"))), db)
  | Js.Num id =>
      match Storage.getById k id db with
      | (Ok None, _) => (Sent (reply 404 (Routes.message (Routes.Noun k ++ " not found"))), db)
      | (Ok (Some _), _) =>
          match Storage.update k id b db with
          | (Ok updated, db') => (Sent (reply 200 (Routes.optTxnJson updated)), db')
          | (Throw _, db') =>
              (Sent (reply 500 (Routes.message ("Failed to update " ++ Routes.noun k))), db')
          end
      | (Throw _, _) =>
          (Sent (reply 500 (Routes.message ("Failed to update " ++ Routes.noun k))), db)
      end
  end.
Proof.
  intros Hu Ha. unfold Routes.putTxn.
  rewrite (authenticate_bound _ _ user) by exact Hu.
  rewrite requireAdmin_admin by exact Ha.
  unfold Routes.tryCatch, bind, ret.
  destruct (Js.parseInt idParam) as [|id]; [reflexivity|].
  unfold Storage.getById. destruct (Schema.int4 id); [|reflexivity].
  destruct (find _ (rows k db)); [|reflexivity].
  destruct (Storage.update k id b db) as [[u|e] db']; reflexivity.
Qed.

Lemma deleteTxn_admin (k : Kind) (sess : Session) (db : Db) (user : User.t)
      (idParam : string) :
  sessionUser sess db = Some user -> User.role user = "admin" ->
  Routes.deleteTxn k sess idParam db =
  match Js.parseInt idParam with
  | Js.NaN => (Sent (reply 400 (Routes.message ("Invalid " ++ Routes.noun k ++ " ID"))), db)
  | Js.Num id =>
      match Storage.getById k id db with
      | (Ok None, _) => (Sent (reply 404 (Routes.message (Routes.Noun k ++ " not found"))), db)
      | (Ok (Some _), _) =>
          match Storage.delete k id db with
          | (Ok _, db') =>
              (Sent (reply 200 (Routes.message (Routes.Noun k ++ " deleted successfully"))), db')
          | (Throw _, db') =>
              (Sent (reply 500 (Routes.message ("Failed to delete " ++ Routes.noun k))), db')
          end
      | (Throw _, _) =>
          (Sent (reply 500 (Routes.message ("Failed to delete " ++ Routes.noun k))), db)
      end
  end.
Proof.
  intros Hu Ha. unfold Routes.deleteTxn.
  rewrite (authenticate_bound _ _ user) by exact Hu.
  rewrite requireAdmin_admin by exact Ha.
  unfold Routes.tryCatch, bind, ret.
  destruct (Js.parseInt idParam) as [|id]; [reflexivity|].
  unfold Storage.getById. destruct (Schema.int4 id); [|reflexivity].
  destruct (find _ (rows k db)); [|reflexivity].
  destruct (Storage.delete k id db) as [[u|e] db']; reflexivity.
Qed.

(** For an admin, the answer is 400 exactly when [parseInt] gives NaN. *)
Lemma invalid_id_iff_NaN (k : Kind) (sess : Session) (db db' : Db) (user : User.t)
      (idParam : string) (b : TxnBody.t) (r : Response) :
  sessionUser sess db = Some user -> User.role user = "admin" ->
  Routes.putTxn k sess idParam b db = (Sent r, db')
  \/ Routes.deleteTxn k sess idParam db = (Sent r, db') ->
  (status r = 400 <-> Js.parseInt idParam = Js.NaN).
Proof.
  intros Hu Ha H.
  rewrite (putTxn_admin k sess db user) in H by assumption.
  rewrite (deleteTxn_admin k sess db user) in H by assumption.
  destruct (Js.parseInt idParam) as [|id].
  - destruct H as [H|H]; injection H as <- _; simpl; tauto.
  - destruct (Storage.getById k id db) as [[[x|]|e] d].
    + destruct (Storage.update k id b db) as [[u|e] d1],
               (Storage.delete k id db) as [[v|e'] d2];
        destruct H as [H|H]; injection H as <- _; simpl;
        (split; [lia|discriminate]).
    + destruct H as [H|H]; injection H as <- _; simpl; (split; [lia|discriminate]).
    + destruct H as [H|H]; injection H as <- _; simpl; (split; [lia|discriminate]).
Qed.

(** C9 (as stated, for contrast): an id parameter whose leading characters
    form a decimal number is not always taken as that number.  "0xyz" is
    the digit 0 followed by text, yet it is rejected with 400; "0x1f" is
    the digit 0 followed by text, yet it targets record 31. *)
Lemma hex_marker_id_counterexample :
  let row := sampleRow 31 "EXP001" "2024-03-01" in
  let db := stored Expense [row] in
  let b := sampleBody "EXP001" in
  sessionUser adminSession db = Some (User.mk 1 "admin" "786786" "Admin User" "admin")
  /\ allDigits "0" = true /\ decimalValue "0" = 0
  /\ fst (Routes.putExpense adminSession ("0" ++ "xyz") b db)
     = Sent (reply 400 (Routes.message "Invalid expense ID"))
  /\ fst (Routes.deleteExpense adminSession ("0" ++ "xyz") db)
     = Sent (reply 400 (Routes.message "Invalid expense ID"))
  /\ Js.parseInt ("0" ++ "x1f") = Js.Num 31
  /\ Routes.deleteExpense adminSession ("0" ++ "x1f") db
     = (Sent (reply 200 (Routes.message "Expense deleted successfully")),
        setRows Expense [] db).
Proof. repeat split. Qed.

(** C9 (amended): PUT and DELETE on /api/expenses/:id and /api/gains/:id
    answer 400 exactly when [parseInt] of the id parameter is NaN; an id
    parameter made of decimal digits (a number JavaScript holds exactly)
    followed by text that does not start with a digit is handled as the
    request whose id is those digits, except when the parameter opens
    with the hexadecimal marker 0x or 0X. *)
Theorem id_param_leading_digits
        (k : Kind) (sess : Session) (db : Db) (user : User.t)
        (ds t : string) (b : TxnBody.t) :
  sessionUser sess db = Some user -> User.role user = "admin" ->
  ds <> "" -> allDigits ds = true -> decimalValue ds <= maxSafeInteger ->
  startsWithDigit t = false -> Js.hasHexPrefix (ds ++ t) = false ->
  Js.parseInt (ds ++ t) = Js.Num (decimalValue ds)
  /\ Routes.putTxn k sess (ds ++ t) b db = Routes.putTxn k sess ds b db
  /\ Routes.deleteTxn k sess (ds ++ t) db = Routes.deleteTxn k sess ds db
  /\ (forall r db',
         Routes.putTxn k sess (ds ++ t) b db = (Sent r, db')
         \/ Routes.deleteTxn k sess (ds ++ t) db = (Sent r, db') ->
         status r <> 400)
  /\ (forall idParam r db',
         Routes.putTxn k sess idParam b db = (Sent r, db')
         \/ Routes.deleteTxn k sess idParam db = (Sent r, db') ->
         (status r = 400 <-> Js.parseInt idParam = Js.NaN)).
Proof.
  intros Hu Ha Hne Hd _ Ht Hx.
  assert (P1 : Js.parseInt (ds ++ t) = Js.Num (decimalValue ds))
    by (apply parseInt_digits; assumption).
  assert (P2 : Js.parseInt ds = Js.Num (decimalValue ds))
    by (apply parseInt_digits_only; assumption).
  split; [exact P1|]. split; [|split; [|split]].
  - rewrite !(putTxn_admin k sess db user) by assumption. rewrite P1, P2. reflexivity.
  - rewrite !(deleteTxn_admin k sess db user) by assumption. rewrite P1, P2. reflexivity.
  - intros r db' H E.
    apply (invalid_id_iff_NaN k sess db db' user (ds ++ t) b r Hu Ha H) in E.
    congruence.
  - intros idParam r db' H.
    exact (invalid_id_iff_NaN k sess db db' user idParam b r Hu Ha H).
Qed.

(** "3abc" is served as "3". *)
Lemma id_param_leading_digits_witness :
  let row := sampleRow 3 "EXP003" "2024-03-01" in
  let db := stored Expense [row] in
  Js.parseInt "3abc" = Js.Num 3
  /\ Routes.putExpense adminSession "3abc" (sampleBody "EXP003") db
     = Routes.putExpense adminSession "3" (sampleBody "EXP003") db
  /\ Routes.deleteExpense adminSession "3abc" db
     = (Sent (reply 200 (Routes.message "Expense deleted successfully")),
        setRows Expense [] db).
Proof.
  intros row db.
  destruct (id_param_leading_digits Expense adminSession db
              (User.mk 1 "admin" "786786" "Admin User" "admin")
              "3" "abc" (sampleBody "EXP003"))
    as (P & U & D & _); try reflexivity.
  - discriminate.
  - unfold maxSafeInteger. vm_compute. discriminate.
  - split; [exact P|]. split; [exact U|].
    transitivity (Routes.deleteTxn Expense adminSession "3" db);
      [exact D|reflexivity].
Defined.

(** ** Login *)
Section UniqueColumns.

Context {A B : Type} (eqb : B -> B -> bool) (f : A -> B).
Hypothesis eqb_eq : forall a b, eqb a b = true <-> a = b.

Lemma existsb_eqb_In (b : B) (l : list B) : In b l -> existsb (eqb b) l = true.
Proof.
  intros H. apply existsb_exists. exists b. split; [exact H|]. apply eqb_eq. reflexivity.
Qed.

(** Under a unique constraint on column [f], a row is found by its own
    value of [f]. *)
Lemma distinct_find (l : list A) (x : A) :
  Schema.distinct eqb (map f l) = true -> In x l ->
  find (fun y => eqb (f y) (f x)) l = Some x.
Proof.
  induction l as [|y l IH]; simpl; [tauto|].
  intros Hd [->|Hin].
  - rewrite (proj2 (eqb_eq (f x) (f x)) eq_refl). reflexivity.
  - apply andb_true_iff in Hd as [Hy Hd].
    destruct (eqb (f y) (f x)) eqn:E.
    + apply eqb_eq in E. rewrite E in Hy.
      rewrite existsb_eqb_In in Hy by (apply in_map; exact Hin). discriminate.
    + apply IH; assumption.
Qed.

Lemma distinct_app_fresh (l : list B) (b : B) :
  Schema.distinct eqb l = true -> ~ In b l ->
  Schema.distinct eqb (l ++ [b]) = true.
Proof.
  induction l as [|y l IH]; simpl; [reflexivity|].
  intros Hd Hn. apply andb_true_iff in Hd as [Hy Hd].
  rewrite IH by tauto. rewrite andb_true_r.
  rewrite existsb_app. simpl. rewrite orb_false_r.
  apply negb_true_iff in Hy. rewrite Hy. simpl.
  destruct (eqb y b) eqn:E; [|reflexivity].
  apply eqb_eq in E. subst. tauto.
Qed.

End UniqueColumns.

Lemma getUserByUsername_stored (db : Db) (user : User.t) :
  Schema.usersOk (users db) = true -> In user (users db) ->
  Storage.getUserByUsername (User.username user) db = (Ok (Some user), db).
Proof.
  intros Hok Hin. rewrite getUserByUsername_eq.
  destruct (usersOk_In _ _ Hok Hin) as [_ ->].
  unfold Schema.usersOk in Hok.
  apply andb_true_iff in Hok as [Hok _]. apply andb_true_iff in Hok as [_ Hok].
  rewrite (distinct_find String.eqb User.username String.eqb_eq _ _ Hok Hin).
  reflexivity.
Qed.

Lemma getUserByUsername_unknown (db : Db) (username : string) :
  Schema.text username = true ->
  (forall user, In user (users db) -> User.username user <> username) ->
  Storage.getUserByUsername username db = (Ok None, db).
Proof.
  intros Ht H. rewrite getUserByUsername_eq, Ht.
  destruct (find _ (users db)) as [user|] eqn:E; [|reflexivity].
  apply find_some in E as [Hin E]. apply String.eqb_eq in E.
  destruct (H user Hin E).
Qed.

Lemma login_nonempty (username password : string) (sess : Session) (db : Db) :
  username <> "" -> password <> "" ->
  Routes.login (LoginBody.mk (Some username) (Some password)) sess db =
  match Storage.getUserByUsername username db with
  | (Ok (Some user), db') =>
      if negb (String.eqb (User.password user) password)
      then (invalidCredentials, db', sess)
      else (reply 200 (Routes.userInfo user), db', mkSession (Some (User.id user)))
  | (Ok None, db') => (invalidCredentials, db', sess)
  | (Throw _, db') => (reply 500 (Routes.message "Internal server error"), db', sess)
  end.
Proof.
  intros Hu Hp. unfold Routes.login, Routes.missing, Js.truthy. simpl.
  apply String.eqb_neq in Hu, Hp. rewrite Hu, Hp. simpl.
  destruct (Storage.getUserByUsername username db) as [[[user|]|e] db']; reflexivity.
Qed.

(** Login reads the store and leaves it as it was. *)
Lemma login_db (lb : LoginBody.t) (sess : Session) (db : Db) :
  snd (fst (Routes.login lb sess db)) = db.
Proof.
  unfold Routes.login.
  destruct (Routes.missing (LoginBody.username lb)
            || Routes.missing (LoginBody.password lb)); [reflexivity|].
  pose proof (getUserByUsername_db (Routes.text (LoginBody.username lb)) db) as Hd.
  destruct (Storage.getUserByUsername _ db) as [[[user|]|e] d]; cbn [snd] in Hd; subst d;
    [|reflexivity..].
  destruct (negb (String.eqb (User.password user) _)); reflexivity.
Qed.

(** C3 (as stated, for contrast): a request with an unknown username and
    one with a stored username and a wrong password can be told apart when
    one of them has an empty field, and a stored pair does not always log
    in: after the admin creates a user with the empty password, that
    user's own credentials are answered with 400. *)
Lemma login_empty_field_counterexample :
  let anonymous := mkSession None in
  let unknown := LoginBody.mk (Some "nobody") (Some "guess") in
  let wrong := LoginBody.mk (Some "admin") (Some "") in
  let db2 :=
    snd (Routes.postUsers adminSession
           (UserBody.mk (Some "ghost") (Some "") (Some "Ghost") None) bootDb) in
  (forall user, In user (users bootDb) -> User.username user <> "nobody")
  /\ In (User.mk 1 "admin" "786786" "Admin User" "admin") (users bootDb)
  /\ fst (fst (Routes.login unknown anonymous bootDb)) = invalidCredentials
  /\ fst (fst (Routes.login wrong anonymous bootDb))
     = reply 400 (Routes.message "Username and password are required")
  /\ fst (fst (Routes.login unknown anonymous bootDb))
     <> fst (fst (Routes.login wrong anonymous bootDb))
  /\ In (User.mk 3 "ghost" "" "Ghost" "staff") (users db2)
  /\ status (fst (fst (Routes.login (LoginBody.mk (Some "ghost") (Some ""))
                                    anonymous db2))) = 400.
Proof.
  repeat split.
  - intros user [<-|[<-|[]]]; discriminate.
  - left. reflexivity.
  - discriminate.
  - right. right. left. reflexivity.
Qed.

(** C3 (amended): among login requests whose username and password are
    both non-empty and whose username holds no character U+0000, one with
    a username that matches no stored user and one with a stored username
    but a wrong password get the same response (the same 401 status and
    message, session and store untouched), and every stored (username,
    password) pair with both parts non-empty logs in with 200.  A request
    with an empty or absent username or password is answered 400, and one
    whose non-empty username holds U+0000 is answered 500 (the lookup
    throws), both whatever the store holds. *)
Theorem login_failures_indistinguishable (db : Db) (sess : Session) :
  (forall unknown guess,
      unknown <> "" -> guess <> "" -> Schema.text unknown = true ->
      (forall u, In u (users db) -> User.username u <> unknown) ->
      Routes.login (LoginBody.mk (Some unknown) (Some guess)) sess db
      = (invalidCredentials, db, sess))
  /\ (forall victim wrong,
         Schema.usersOk (users db) = true ->
         In victim (users db) -> User.username victim <> "" ->
         wrong <> "" -> User.password victim <> wrong ->
         Routes.login (LoginBody.mk (Some (User.username victim)) (Some wrong)) sess db
         = (invalidCredentials, db, sess))
  /\ (forall user,
         Schema.usersOk (users db) = true ->
         In user (users db) -> User.username user <> "" -> User.password user <> "" ->
         Routes.login (LoginBody.mk (Some (User.username user))
                                    (Some (User.password user))) sess db
         = (reply 200 (Routes.userInfo user), db, mkSession (Some (User.id user))))
  /\ (forall b,
         Routes.missing (LoginBody.username b) || Routes.missing (LoginBody.password b)
         = true ->
         Routes.login b sess db
         = (reply 400 (Routes.message "Username and password are required"), db, sess))
  /\ (forall username password,
         username <> "" -> password <> "" -> Schema.text username = false ->
         Routes.login (LoginBody.mk (Some username) (Some password)) sess db
         = (reply 500 (Routes.message "Internal server error"), db, sess)).
Proof.
  split; [|split; [|split; [|split]]].
  - intros unknown guess Hu Hg Ht Hnone.
    rewrite login_nonempty by assumption.
    rewrite (getUserByUsername_unknown db unknown Ht Hnone). reflexivity.
  - intros victim wrong Hok Hv Hvu Hw Hvp.
    rewrite login_nonempty by assumption.
    rewrite getUserByUsername_stored by assumption.
    apply String.eqb_neq in Hvp. rewrite Hvp. reflexivity.
  - intros user Hok Hin Hun Hpw.
    rewrite login_nonempty by assumption.
    rewrite getUserByUsername_stored by assumption.
    rewrite String.eqb_refl. reflexivity.
  - intros b Hb. unfold Routes.login. rewrite Hb. reflexivity.
  - intros username password Hu Hp Ht.
    rewrite login_nonempty by assumption.
    rewrite getUserByUsername_eq, Ht. reflexivity.
Qed.

(** On the seeded store: an unknown name, a wrong password for the
    admin, the staff account's own credentials, and a name that holds
    U+0000. *)
Lemma login_failures_indistinguishable_witness :
  let anonymous := mkSession None in
  let staff := User.mk 2 "staff1" "1234" "Staff User" "staff" in
  let nul := String (ascii_of_nat 0) "admin" in
  Routes.login (LoginBody.mk (Some "nobody") (Some "guess")) anonymous bootDb
  = Routes.login (LoginBody.mk (Some "admin") (Some "letmein")) anonymous bootDb
  /\ Routes.login (LoginBody.mk (Some "staff1") (Some "1234")) anonymous bootDb
     = (reply 200 (Routes.userInfo staff), bootDb, mkSession (Some 2))
  /\ Routes.login (LoginBody.mk None (Some "1234")) anonymous emptyDb
     = (reply 400 (Routes.message "Username and password are required"),
        emptyDb, anonymous)
  /\ Routes.login (LoginBody.mk (Some nul) (Some "guess")) anonymous bootDb
     = (reply 500 (Routes.message "Internal server error"), bootDb, anonymous).
Proof.
  intros anonymous staff nul.
  destruct (login_failures_indistinguishable bootDb anonymous)
    as (H1 & H2 & H3 & _ & H5).
  destruct (login_failures_indistinguishable emptyDb anonymous)
    as (_ & _ & _ & H4 & _).
  split; [|split; [|split]].
  - transitivity (invalidCredentials, bootDb, anonymous).
    + apply (H1 "nobody" "guess"); try reflexivity; try discriminate.
      intros u [<-|[<-|[]]]; discriminate.
    + symmetry.
      apply (H2 (User.mk 1 "admin" "786786" "Admin User" "admin") "letmein");
        try reflexivity; try discriminate.
      left. reflexivity.
  - apply (H3 staff); try reflexivity; try discriminate.
    right. left. reflexivity.
  - apply (H4 (LoginBody.mk None (Some "1234"))). reflexivity.
  - apply (H5 nul "guess"); try reflexivity; discriminate.
Defined.

(** ** Creating a record *)

Lemma txnsOk_app (l : list Txn.t) (row : Txn.t) :
  Schema.txnsOk l = true -> Schema.txnOk row = true ->
  (forall r, In r l -> Txn.id r <> Txn.id row) ->
  (forall r, In r l -> Txn.slNo r <> Txn.slNo row) ->
  Schema.txnsOk (l ++ [row]) = true.
Proof.
  unfold Schema.txnsOk. intros Hok Hrow Hid Hsl.
  apply andb_true_iff in Hok as [Hok Hall]. apply andb_true_iff in Hok as [Hids Hsls].
  rewrite !map_app, forallb_app. simpl.
  rewrite (distinct_app_fresh Z.eqb Z.eqb_eq), (distinct_app_fresh String.eqb String.eqb_eq);
    try assumption.
  - rewrite Hall, Hrow. reflexivity.
  - intros H. apply in_map_iff in H as (r & E & Hin). exact (Hsl r Hin E).
  - intros H. apply in_map_iff in H as (r & E & Hin). exact (Hid r Hin E).
Qed.

Lemma postTxn_bound (k : Kind) (sess : Session) (db : Db) (user : User.t) (b : TxnBody.t) :
  sessionUser sess db = Some user ->
  Routes.postTxn k sess b db =
  let onError := fun e =>
    match e with
    | ZodError fields => reply 400 (Routes.message (Routes.fromZodError fields))
    | _ => reply 500 (Routes.message ("Failed to create " ++ Routes.noun k))
    end in
  match Schema.parseInsertTxn (TxnBody.withCreatedBy (User.id user) b) with
  | Ok data =>
      match Storage.create k data db with
      | (Ok newRow, db') => (Sent (reply 201 (Routes.txnJson newRow)), db')
      | (Throw e, db') => (Sent (onError e), db')
      end
  | Throw e => (Sent (onError e), db)
  end.
Proof.
  intros Hu. unfold Routes.postTxn.
  rewrite (authenticate_bound _ _ user) by exact Hu.
  unfold Routes.tryCatch, bind, ret, Routes.liftResult.
  destruct (Schema.parseInsertTxn _) as [data|e]; [|reflexivity].
  destruct (Storage.create k data db) as [[row|e] db']; reflexivity.
Qed.

Lemma create_ok (k : Kind) (ins : InsertTxn.t) (db db' : Db) (row : Txn.t) :
  Storage.create k ins db = (Ok row, db') ->
  rows k db' = (rows k db ++ [row])%list
  /\ Txn.createdBy row = InsertTxn.createdBy ins
  /\ Txn.slNo row = Sql.clip 10 (InsertTxn.slNo ins)
  /\ Txn.id row = seq k db + 1
  /\ Pg.prepare (Storage.insertParams ins) = None.
Proof.
  unfold Storage.create. intros H.
  destruct (Pg.prepare _); [discriminate|].
  destruct (negb (Schema.int4 _)); [discriminate|].
  destruct (Schema.txnsOk _); [|discriminate].
  injection H as <- <-. rewrite rows_setRows. simpl. auto.
Qed.

Lemma varchar_within (n : nat) (s : string) :
  Schema.text s = true -> (Js.length s <= n)%nat -> Schema.varchar n s = true.
Proof.
  intros Ht Hl. unfold Schema.varchar. rewrite Ht. apply Nat.leb_le.
  pose proof (charLength_le_length s). lia.
Qed.

(** What the engine raises on the parameters is an error of its own. *)
Lemma prepare_error (ps : list Pg.param) (e : error) :
  Pg.prepare ps = Some e -> exists sqlstate, e = DbError sqlstate.
Proof.
  assert (F : forall check,
             (forall p e, check p = Some e -> exists c, e = DbError c) ->
             forall e, Pg.firstError check ps = Some e -> exists c, e = DbError c).
  { intros check Hc. induction ps as [|p ps IH]; simpl; [discriminate|].
    intros e0. destruct (check p) eqn:E; [intros [= <-]; eauto|exact (IH e0)]. }
  unfold Pg.prepare. destruct (Pg.firstError Pg.bindError ps) eqn:E.
  - intros [= <-]. apply (F Pg.bindError); [|exact E].
    intros [s|n s|z|q] err; simpl; unfold Pg.int4Error;
      try destruct (Sql.hasNul s); try destruct (Schema.int4 z);
      try destruct (Z.abs z <? 10 ^ 21);
      intros [= <-]; eexists; reflexivity.
  - apply (F Pg.lengthError).
    intros [s|n s|z|q] err; simpl; try discriminate.
    destruct (Sql.charLength s <=? n)%nat; [discriminate|].
    destruct (Sql.onlySpaces _); [discriminate|].
    intros [= <-]. eexists; reflexivity.
Qed.

Lemma app_nil_both {A} (l l' : list A) : (l ++ l')%list = [] <-> l = [] /\ l' = [].
Proof.
  split; [apply app_eq_nil|]. intros [-> ->]. reflexivity.
Qed.

Lemma atMost_nil (n : nat) (field : string) (o : option string) :
  Schema.atMost n field o = [] <-> within n o.
Proof.
  unfold Schema.atMost, within. destruct o as [s|].
  - destruct (Nat.leb_spec (Js.length s) n).
    + split; [eauto|reflexivity].
    + split; [discriminate|]. intros (s' & [= <-] & Hl). lia.
  - split; [discriminate|]. intros (s' & [=] & _).
Qed.

Lemma required_nil {A} (field : string) (o : option A) :
  Schema.required field o = [] <-> o <> None.
Proof.
  unfold Schema.required. destruct o; split; congruence.
Qed.

(** The insert schema has no issue with a body exactly when the body is
    valid and carries a creator. *)
Lemma insertTxnIssues_nil (b : TxnBody.t) :
  Schema.insertTxnIssues b = [] <-> validTxnBody b /\ TxnBody.createdBy b <> None.
Proof.
  unfold Schema.insertTxnIssues, validTxnBody.
  rewrite !app_nil_both, !atMost_nil, !required_nil. tauto.
Qed.

Lemma parseInsertTxn_issues (b : TxnBody.t) :
  Schema.insertTxnIssues b <> [] ->
  Schema.parseInsertTxn b = Throw (ZodError (Schema.insertTxnIssues b)).
Proof.
  intros H. unfold Schema.parseInsertTxn.
  destruct (Schema.insertTxnIssues b); [congruence|reflexivity].
Qed.

Lemma parseInsertTxn_valid (b : TxnBody.t) (uid : Z) :
  validTxnBody b ->
  exists s d t n ty de p a,
    TxnBody.slNo b = Some s /\ TxnBody.date b = Some d /\ TxnBody.time b = Some t
    /\ TxnBody.name b = Some n /\ TxnBody.type b = Some ty
    /\ TxnBody.detail b = Some de /\ TxnBody.paymentType b = Some p
    /\ (Js.length s <= 10)%nat /\ (Js.length d <= 10)%nat /\ (Js.length t <= 10)%nat
    /\ Schema.parseInsertTxn (TxnBody.withCreatedBy uid b)
       = Ok (InsertTxn.mk s d t n ty de p a uid).
Proof.
  intros Hv.
  assert (Hi : Schema.insertTxnIssues (TxnBody.withCreatedBy uid b) = []).
  { apply insertTxnIssues_nil. split; [|discriminate].
    destruct b. exact Hv. }
  destruct Hv as ((s & Es & Ls) & (d & Ed & Ld) & (t & Et & Lt) & Hn & Hty & Hde & Hp & Ha).
  unfold Schema.parseInsertTxn. rewrite Hi.
  destruct b as [bid bs bd bt [n|] [ty|] [de|] [p|] [a|] bc]; simpl in *;
    try congruence.
  subst. exists s, d, t, n, ty, de, p, a. repeat (split; [reflexivity || assumption|]).
  reflexivity.
Qed.

(** C6 (as stated, for contrast): a staff member posts the same valid
    body twice (two clients that fetched the same next-slno).  The first
    request is answered 201; the second repeats a stored slNo, the unique
    constraint on slNo rejects the row and the answer is 500, not 201. *)
Lemma duplicate_slNo_counterexample :
  let staff := User.mk 2 "staff1" "1234" "Staff User" "staff" in
  let b := sampleBody "EXP001" in
  let first := Routes.postExpenses staffSession b bootDb in
  let db1 := snd first in
  fst first
  = Sent (reply 201 (Routes.txnJson
                       (Txn.mk 1 "EXP001" "2024-03-01" "10:30" "Rent" "Office"
                               "March rent" "cash" (1250 # 1) 2)))
  /\ sessionUser staffSession db1 = Some staff
  /\ validTxnBody b
  /\ Schema.txnsOk (rows Expense db1) = true
  /\ (forall r, In r (rows Expense db1) -> Txn.id r <> seq Expense db1 + 1)
  /\ Routes.postExpenses staffSession b db1
     = (Sent (reply 500 (Routes.message "Failed to create expense")),
        setSeq Expense 2 db1).
Proof.
  split; [reflexivity|]. split; [reflexivity|]. split.
  { repeat split; try discriminate; eexists; (split; [reflexivity|simpl; lia]). }
  split; [reflexivity|]. split; [|reflexivity].
  intros r [<-|[]]. discriminate.
Qed.

(** C6 (amended): for every authenticated user, admin or staff, and every
    body that the insert schema accepts (every field but id and createdBy
    present; slNo, date and time at most ten code units long) and that the
    table takes (no text holds U+0000, the slNo is not already stored, the
    next id of the sequence is unused and a 32-bit integer), POST
    /api/expenses and POST /api/gains return 201, the table holds the
    persisted record besides the records it held, and the record's
    createdBy is the session user's id, whatever createdBy the body
    carried.  A body that the insert schema refuses is answered 400, and a
    body it accepts in which a text holds U+0000 is answered 500; both leave
    the store, the id sequence included, as it was. *)
Theorem post_records_session_user
        (k : Kind) (sess : Session) (db : Db) (user : User.t) (b : TxnBody.t) :
  sessionUser sess db = Some user ->
  (validTxnBody b -> accepts k db b ->
   exists row db',
     Routes.postTxn k sess b db = (Sent (reply 201 (Routes.txnJson row)), db')
     /\ Permutation (row :: rows k db) (rows k db')
     /\ Txn.createdBy row = User.id user
     /\ Some (Txn.slNo row) = TxnBody.slNo b
     /\ Txn.id row = seq k db + 1)
  /\ (~ validTxnBody b ->
      exists issues,
        issues <> []
        /\ Routes.postTxn k sess b db
           = (Sent (reply 400 (Routes.message (Routes.fromZodError issues))), db))
  /\ (validTxnBody b -> ~ storableBody b ->
      Routes.postTxn k sess b db
      = (Sent (reply 500 (Routes.message ("Failed to create " ++ Routes.noun k))), db)).
Proof.
  intros Hu. rewrite (postTxn_bound k sess db user) by exact Hu. cbv zeta.
  destruct (sessionUser_stored _ _ _ Hu) as [_ Huid].
  split; [|split].
  - intros Hv (Hok & Hseq & Hid & Hsl & Ss & Sd & St & Sn & Sty & Sde & Sp).
    destruct (parseInsertTxn_valid b (User.id user) Hv)
      as (s & d & t & n & ty & de & p & a
          & Es & Ed & Et & En & Ety & Ede & Ep & Ls & Ld & Lt & ->).
    set (row := Txn.mk (seq k db + 1) s d t n ty de p a (User.id user)).
    assert (Vs : Schema.varchar 10 s = true) by (apply varchar_within; auto).
    assert (Vd : Schema.varchar 10 d = true) by (apply varchar_within; auto).
    assert (Vt : Schema.varchar 10 t = true) by (apply varchar_within; auto).
    assert (Hrow : Schema.txnOk row = true).
    { unfold Schema.txnOk, row. simpl.
      rewrite Hseq, Huid, Vs, Vd, Vt, (Sn n En), (Sty ty Ety), (Sde de Ede), (Sp p Ep).
      reflexivity. }
    assert (Hfit : Pg.prepare (Storage.insertParams (InsertTxn.mk s d t n ty de p a
                                                      (User.id user))) = None).
    { apply prepare_fits. simpl.
      rewrite Huid, Vs, Vd, Vt, (Sn n En), (Sty ty Ety), (Sde de Ede), (Sp p Ep).
      reflexivity. }
    assert (Hall : Schema.txnsOk (rows k db ++ [row]) = true).
    { apply txnsOk_app; try assumption. intros r Hr. apply (Hsl s Es r Hr). }
    unfold Storage.create. rewrite Hfit. cbn [InsertTxn.slNo InsertTxn.date InsertTxn.time
      InsertTxn.name InsertTxn.type InsertTxn.detail InsertTxn.paymentType
      InsertTxn.amount InsertTxn.createdBy].
    rewrite !clip_fits by assumption. fold row. rewrite Hseq, Hall. cbn [negb].
    exists row. eexists. split; [reflexivity|].
    rewrite rows_setRows. split; [apply Permutation_cons_append|].
    rewrite Es. repeat split.
  - intros Hn.
    assert (Hi : Schema.insertTxnIssues (TxnBody.withCreatedBy (User.id user) b) <> []).
    { intros E. apply insertTxnIssues_nil in E as [E _]. apply Hn. destruct b. exact E. }
    rewrite (parseInsertTxn_issues _ Hi). eexists. split; [exact Hi|reflexivity].
  - intros Hv Hns.
    destruct (parseInsertTxn_valid b (User.id user) Hv)
      as (s & d & t & n & ty & de & p & a
          & Es & Ed & Et & En & Ety & Ede & Ep & _ & _ & _ & ->).
    unfold Storage.create.
    destruct (Pg.prepare _) as [e|] eqn:E.
    + destruct (prepare_error _ _ E) as [c ->]. reflexivity.
    + exfalso. apply Hns.
      assert (T : forall v,
                 In (Pg.Text v) (Storage.insertParams (InsertTxn.mk s d t n ty de p a
                                                        (User.id user)))
                 \/ (exists m, In (Pg.Varchar m v)
                                  (Storage.insertParams (InsertTxn.mk s d t n ty de p a
                                                           (User.id user)))) ->
                 Schema.text v = true)
        by (intros v; apply prepare_text; exact E).
      unfold storableBody, storable. rewrite Es, Ed, Et, En, Ety, Ede, Ep.
      repeat split; intros v [= <-]; apply T; simpl; eauto 15.
Qed.

(** The seeded staff account posts the first expense, claiming another
    creator and an id of its own: the record is stored as EXP001 with
    createdBy 2 and id 1. *)
Lemma post_records_session_user_witness :
  let b := TxnBody.mk (Some 40) (Some "EXP001") (Some "2024-03-01") (Some "10:30")
                      (Some "Rent") (Some "Office") (Some "March rent")
                      (Some "cash") (Some (1250 # 1)%Q) (Some 1) in
  exists row db',
    Routes.postExpenses staffSession b bootDb
    = (Sent (reply 201 (Routes.txnJson row)), db')
    /\ Permutation [row] (rows Expense db')
    /\ Txn.createdBy row = 2 /\ Some (Txn.slNo row) = Some "EXP001" /\ Txn.id row = 1.
Proof.
  intros b.
  apply (post_records_session_user Expense staffSession bootDb
           (User.mk 2 "staff1" "1234" "Staff User" "staff") b).
  - reflexivity.
  - repeat split; try discriminate; eexists; (split; [reflexivity|simpl; lia]).
  - split; [reflexivity|]. split; [reflexivity|]. split; [intros r []|].
    split; [intros s _ r []|].
    repeat split; intros s [= <-]; reflexivity.
Defined.

(** ** Updating a record *)

Lemma hd_error_map_filter {A B} (g : A -> B) (p : A -> bool) (l : list A) :
  hd_error (map g (filter p l)) = option_map g (find p l).
Proof.
  induction l as [|x l IH]; simpl; [reflexivity|].
  destruct (p x); [reflexivity|exact IH].
Qed.

Lemma find_by_id (l : list Txn.t) (row : Txn.t) :
  Schema.txnsOk l = true -> In row l ->
  find (fun r => Txn.id r =? Txn.id row) l = Some row
  /\ Schema.txnOk row = true.
Proof.
  unfold Schema.txnsOk. intros Hok Hin.
  apply andb_true_iff in Hok as [Hok Hall]. apply andb_true_iff in Hok as [Hids _].
  split.
  - exact (distinct_find Z.eqb Txn.id Z.eqb_eq _ _ Hids Hin).
  - rewrite forallb_forall in Hall. exact (Hall row Hin).
Qed.

Lemma find_by_id_none (l : list Txn.t) (id : Z) :
  (forall r, In r l -> Txn.id r <> id) ->
  find (fun r => Txn.id r =? id) l = None.
Proof.
  intros H. destruct (find _ l) as [r|] eqn:E; [|reflexivity].
  apply find_some in E as [Hin E]. apply Z.eqb_eq in E. destruct (H r Hin E).
Qed.


Lemma update_rows_miss (l : list Txn.t) (id : Z) (patch : TxnBody.t) :
  (forall r, In r l -> Txn.id r <> id) ->
  map (fun r => if Txn.id r =? id then TxnBody.apply patch r else r) l = l.
Proof.
  intros H. rewrite <- (map_id l) at 2. apply map_ext_in.
  intros r Hr. destruct (Z.eqb_spec (Txn.id r) id) as [E|]; [|reflexivity].
  destruct (H r Hr E).
Qed.

Lemma optional_fits {A} (f : A -> Pg.param) (o : option A) :
  forallb Pg.fits (Pg.optional f o) = true
  <-> forall v, o = Some v -> Pg.fits (f v) = true.
Proof.
  destruct o as [a|]; simpl.
  - rewrite andb_true_r. split; [intros H v [= <-]; exact H|].
    intros H. apply H. reflexivity.
  - split; [intros _ v [=]|reflexivity].
Qed.

(** The parameters of an update raise nothing when the values of the
    map fit their columns and the id is a 32-bit integer. *)
Lemma prepare_update (patch : TxnBody.t) (id : Z) :
  fitsColumns patch -> Schema.int4 id = true ->
  Pg.prepare (Storage.updateParams patch id) = None.
Proof.
  intros Hfit Hint. apply prepare_fits. revert Hfit.
  unfold Storage.updateParams, fitsColumns, storable.
  rewrite !forallb_app, !andb_true_iff, !optional_fits. cbn [forallb Pg.fits].
  rewrite Hint. intuition.
Qed.

(** Values that fit their columns are kept as they are. *)
Lemma assigned_fits (patch : TxnBody.t) :
  fitsColumns patch -> Storage.assigned patch = patch.
Proof.
  destruct patch as [i s d t n ty de p a c]. unfold fitsColumns, Storage.assigned.
  cbn [TxnBody.id TxnBody.slNo TxnBody.date TxnBody.time TxnBody.name TxnBody.type
       TxnBody.detail TxnBody.paymentType TxnBody.amount TxnBody.createdBy].
  intros (_ & Hs & Hd & Ht & _).
  destruct s as [s|], d as [d|], t as [t|]; cbn [option_map];
    rewrite ?clip_fits by auto; reflexivity.
Qed.

Lemma applied_fits (patch : TxnBody.t) (row : Txn.t) :
  Schema.txnOk (TxnBody.apply patch row) = true -> fitsColumns patch.
Proof.
  unfold Schema.txnOk, TxnBody.apply, fitsColumns, storable. cbn [Txn.id Txn.slNo
    Txn.date Txn.time Txn.name Txn.type Txn.detail Txn.paymentType Txn.createdBy].
  rewrite !andb_true_iff. intros ((((((((H1 & H2) & H3) & H4) & H5) & H6) & H7) & H8) & H9).
  repeat split; intros v E; rewrite E in *; assumption.
Qed.

(** What [update] does once the map is not empty and its values fit
    their columns. *)
Lemma update_eq (k : Kind) (id : Z) (patch : TxnBody.t) (db : Db) :
  TxnBody.isEmpty patch = false -> fitsColumns patch -> Schema.int4 id = true ->
  Storage.update k id patch db =
  if Schema.txnsOk (patched id patch (rows k db))
  then (Ok (option_map (TxnBody.apply patch)
                       (find (fun r => Txn.id r =? id) (rows k db))),
        setRows k (patched id patch (rows k db)) db)
  else (Throw Pg.unique_violation, db).
Proof.
  intros Hne Hfit Hint. unfold Storage.update.
  rewrite Hne, (prepare_update patch id Hfit Hint), (assigned_fits patch Hfit).
  fold (patched id patch (rows k db)). rewrite hd_error_map_filter. reflexivity.
Qed.




(** ** Printing and re-reading counters *)
Section Counters.

Lemma string_of_uint_digits (d : Decimal.uint) :
  allDigits (NilEmpty.string_of_uint d) = true.
Proof.
  induction d; cbn [NilEmpty.string_of_uint allDigits];
    try rewrite IHd; reflexivity.
Qed.

Lemma decimalFrom_uint_acc (d : Decimal.uint) (acc : positive) :
  decimalFrom (Z.pos acc) (NilEmpty.string_of_uint d) = Z.pos (Pos.of_uint_acc d acc).
Proof.
  revert acc.
  induction d; intros acc; cbn [NilEmpty.string_of_uint decimalFrom Pos.of_uint_acc];
    [reflexivity|..];
    rewrite <- IHd; f_equal;
    match goal with
    | |- context [Js.code ?c] =>
        let v := eval vm_compute in (Js.code c) in change (Js.code c) with v
    end; lia.
Qed.

Lemma decimalValue_uint (d : Decimal.uint) :
  decimalValue (NilEmpty.string_of_uint d) = Z.of_N (Pos.of_uint d).
Proof.
  unfold decimalValue.
  induction d; cbn [NilEmpty.string_of_uint decimalFrom Pos.of_uint];
    [reflexivity|exact IHd|..];
    match goal with
    | |- decimalFrom ?a _ = _ =>
        let v := eval vm_compute in a in change a with v
    end; apply decimalFrom_uint_acc.
Qed.

(** [String(n)] of a non-negative integer is its decimal numeral. *)
Lemma toString_nonneg (n : Z) :
  0 <= n ->
  Js.toString (Js.Num n) <> ""
  /\ allDigits (Js.toString (Js.Num n)) = true
  /\ decimalValue (Js.toString (Js.Num n)) = n.
Proof.
  intros Hn. destruct n as [|p|p]; [repeat split; discriminate| |lia].
  unfold Js.toString, Z.to_int, NilZero.string_of_int, NilZero.string_of_uint.
  pose proof (DecimalPos.Unsigned.to_uint_nonnil p) as Hnil.
  pose proof (DecimalPos.Unsigned.of_to p) as Hof.
  destruct (Pos.to_uint p) as [|d|d|d|d|d|d|d|d|d|d] eqn:E; [congruence|..];
    (split; [discriminate|]);
    rewrite <- E at 1 2; rewrite string_of_uint_digits, decimalValue_uint;
    rewrite E, Hof; auto.
Qed.

Lemma padStart3_digits (s : string) :
  allDigits s = true ->
  Js.padStart 3 "0" s <> ""
  /\ allDigits (Js.padStart 3 "0" s) = true
  /\ decimalValue (Js.padStart 3 "0" s) = decimalValue s.
Proof.
  intros H. destruct s as [|c1 [|c2 [|c3 s]]];
    (split; [discriminate|]); (split; [exact H|reflexivity]).
Qed.

Lemma parseInt_padded (n : Z) :
  0 <= n -> Js.parseInt (Js.padStart 3 "0" (Js.toString (Js.Num n))) = Js.Num n.
Proof.
  intros Hn. destruct (toString_nonneg n Hn) as (_ & Hd & Hv).
  destruct (padStart3_digits _ Hd) as (Hne & Hd' & Hv').
  rewrite parseInt_digits_only by assumption. congruence.
Qed.

Lemma digit_not_continuation (c : ascii) :
  isDigit c = true -> Utf8.isContinuation c = false.
Proof.
  unfold isDigit, Utf8.isContinuation, Js.code, Utf8.byte. intros H.
  apply andb_true_iff in H as [H1 H2]. apply Z.leb_le in H1, H2.
  apply andb_false_iff. left. apply Z.leb_gt. lia.
Qed.

Lemma skipContinuation_digits (s : string) :
  allDigits s = true -> Utf8.skipContinuation s = s.
Proof.
  destruct s as [|c s]; [reflexivity|]. simpl. intros H.
  apply andb_true_iff in H as [H _]. rewrite (digit_not_continuation c H). reflexivity.
Qed.

(** The characters after the prefix of a counter are its digits. *)
Lemma substringFrom_prefix (k : Kind) (s : string) :
  allDigits s = true -> Sql.substringFrom (suffixFrom k) (prefix k ++ s) = s.
Proof. intros H. destruct k; simpl; apply skipContinuation_digits; exact H. Qed.

Lemma aggMax_from (l : list string) (a m : string) :
  fold_left (fun acc s => match acc with
                          | None => Some s
                          | Some m => Some (Sql.greatest m s)
                          end) l (Some a) = Some m ->
  m = a \/ In m l.
Proof.
  revert a. induction l as [|x l IH]; simpl; intros a H.
  - injection H as ->. auto.
  - apply IH in H as [->|H]; [|auto].
    unfold Sql.greatest. destruct (String.leb a x); auto.
Qed.

Lemma aggMax_In (l : list string) (m : string) : Sql.aggMax l = Some m -> In m l.
Proof.
  destruct l as [|x l]; [discriminate|]. unfold Sql.aggMax. simpl.
  intros H. apply aggMax_from in H as [->|H]; auto.
Qed.

(** On a table whose slNo values are all well formed, the next id is
    well formed too. *)
Lemma nextSequentialId_formatted (k : Kind) (db : Db) :
  allFormatted k db ->
  exists slNo, Storage.nextSequentialId k db = (Ok slNo, db) /\ formatted k slNo.
Proof.
  intros Hall. unfold Storage.nextSequentialId. eexists. split; [reflexivity|].
  destruct (Storage.maxSlNo k db) as [m|] eqn:E.
  - apply aggMax_In in E. apply in_map_iff in E as (r & Hm & Hr).
    unfold allFormatted in Hall. rewrite Forall_forall in Hall.
    destruct (Hall r Hr) as (n & Hn & Hs).
    destruct (toString_nonneg n Hn) as (_ & Hd & _).
    destruct (padStart3_digits _ Hd) as (Hne & Hd' & _).
    rewrite Hs, substringFrom_prefix in Hm by exact Hd'. subst m.
    unfold Js.truthy. apply String.eqb_neq in Hne. rewrite Hne. cbn [negb].
    rewrite parseInt_padded by exact Hn. exists (n + 1). split; [lia|reflexivity].
  - exists 1. split; [lia|reflexivity].
Qed.

End Counters.

(** ** The slNo format under create and update *)

Lemma apply_verbatim (patch : TxnBody.t) (row : Txn.t) :
  appliedVerbatim patch row (TxnBody.apply patch row).
Proof.
  destruct patch as [[?|] [?|] [?|] [?|] [?|] [?|] [?|] [?|] [?|] [?|]];
    repeat split.
Qed.

Lemma not_formatted_hello (k : Kind) : ~ formatted k "hello".
Proof.
  intros (n & _ & H). destruct k; cbn [prefix append] in H; discriminate H.
Qed.

Lemma digits_solid (s : string) : allDigits s = true -> solid s = true.
Proof.
  induction s as [|c s IH]; simpl; [reflexivity|]. intros H.
  apply andb_true_iff in H as [Hc Hs].
  rewrite (digit_not_continuation c Hc), (IH Hs).
  assert (E : Ascii.eqb c " " = false) by (apply Ascii.eqb_neq; intros ->; discriminate).
  rewrite E. reflexivity.
Qed.

Lemma formatted_solid (k : Kind) (slNo : string) : formatted k slNo -> solid slNo = true.
Proof.
  intros (n & Hn & ->). destruct (toString_nonneg n Hn) as (_ & Hd & _).
  destruct (padStart3_digits _ Hd) as (_ & Hd' & _).
  apply digits_solid in Hd'. destruct k; simpl; exact Hd'.
Qed.

Lemma solid_skip (s : string) : solid s = true -> Utf8.skipContinuation s = s.
Proof.
  destruct s as [|c s]; [reflexivity|]. simpl. intros H.
  apply andb_true_iff in H as [H _]. apply andb_true_iff in H as [H _].
  apply negb_true_iff in H. rewrite H. reflexivity.
Qed.

(** Of a text without a space nothing can be cut off: if what lies
    beyond [n] characters is spaces, there is nothing beyond them. *)
Lemma onlySpaces_solid (n : nat) (s : string) :
  solid s = true -> Sql.onlySpaces (Sql.dropChars n s) = true ->
  (Sql.charLength s <= n)%nat.
Proof.
  revert s. induction n as [|n IH]; intros [|c s] Hs Ho; simpl in *; try lia.
  - apply andb_true_iff in Hs as [Hs _]. apply andb_true_iff in Hs as [_ Hs].
    apply andb_true_iff in Ho as [Ho _]. rewrite Ho in Hs. discriminate.
  - apply andb_true_iff in Hs as [Hc Hs]. apply andb_true_iff in Hc as [Hc _].
    apply negb_true_iff in Hc. rewrite Hc. rewrite (solid_skip s Hs) in Ho.
    specialize (IH s Hs Ho). lia.
Qed.

Lemma clip_solid (n : nat) (s : string) :
  solid s = true -> Pg.lengthError (Pg.Varchar n s) = None -> Sql.clip n s = s.
Proof.
  intros Hs. unfold Sql.clip. simpl.
  destruct (Nat.leb_spec (Sql.charLength s) n) as [Hl|Hl]; [reflexivity|].
  destruct (Sql.onlySpaces (Sql.dropChars n s)) eqn:E; [|discriminate].
  pose proof (onlySpaces_solid n s Hs E). lia.
Qed.

Lemma update_found (k : Kind) (id : Z) (patch : TxnBody.t) (db : Db) (row : Txn.t) :
  TxnBody.isEmpty patch = false ->
  Schema.txnsOk (rows k db) = true -> In row (rows k db) -> Txn.id row = id ->
  Schema.txnsOk (patched id patch (rows k db)) = true ->
  Storage.update k id patch db
  = (Ok (Some (TxnBody.apply patch row)), setRows k (patched id patch (rows k db)) db).
Proof.
  intros Hne Hok Hin <- Hok'.
  destruct (find_by_id _ _ Hok Hin) as [Hfind Hrow].
  assert (Hfit : fitsColumns patch).
  { apply (applied_fits patch row). unfold Schema.txnsOk in Hok'.
    apply andb_true_iff in Hok' as [_ Hall]. rewrite forallb_forall in Hall.
    apply Hall. unfold patched. apply in_map_iff. exists row.
    rewrite Z.eqb_refl. auto. }
  rewrite update_eq by (try assumption; apply txnOk_id; exact Hrow).
  rewrite Hok', Hfind. reflexivity.
Qed.

(** C8 (as stated, for contrast): create does not keep the slNo format
    either.  A staff member posts an expense whose slNo is "hello"; it is
    stored as sent. *)
Lemma create_unformatted_counterexample :
  let out := Routes.postExpenses staffSession (sampleBody "hello") bootDb in
  allFormatted Expense bootDb
  /\ (exists row,
         fst out = Sent (reply 201 (Routes.txnJson row))
         /\ rows Expense (snd out) = [row] /\ Txn.slNo row = "hello")
  /\ ~ allFormatted Expense (snd out).
Proof.
  split; [constructor|]. split.
  - eexists. repeat split.
  - intros H. inversion H as [|r l Hf _]; subst.
    exact (not_formatted_hello Expense Hf).
Qed.

(** A map whose parameters are accepted holds no U+0000 in its texts. *)
Lemma update_storable (patch : TxnBody.t) (id : Z) :
  Pg.prepare (Storage.updateParams patch id) = None -> storableBody patch.
Proof.
  intros E.
  assert (T : forall v,
             In (Pg.Text v) (Storage.updateParams patch id)
             \/ (exists m, In (Pg.Varchar m v) (Storage.updateParams patch id)) ->
             Schema.text v = true)
    by (intros v; apply prepare_text; exact E).
  unfold storableBody, storable.
  split; [|split; [|split; [|split; [|split; [|split]]]]]; intros v Hv; apply T;
    unfold Storage.updateParams.
  - right. exists 10%nat. do 1 (apply in_or_app; right). apply in_or_app; left.
    rewrite Hv. left. reflexivity.
  - right. exists 10%nat. do 2 (apply in_or_app; right). apply in_or_app; left.
    rewrite Hv. left. reflexivity.
  - right. exists 10%nat. do 3 (apply in_or_app; right). apply in_or_app; left.
    rewrite Hv. left. reflexivity.
  - left. do 4 (apply in_or_app; right). apply in_or_app; left.
    rewrite Hv. left. reflexivity.
  - left. do 5 (apply in_or_app; right). apply in_or_app; left.
    rewrite Hv. left. reflexivity.
  - left. do 6 (apply in_or_app; right). apply in_or_app; left.
    rewrite Hv. left. reflexivity.
  - left. do 7 (apply in_or_app; right). apply in_or_app; left.
    rewrite Hv. left. reflexivity.
Qed.

(** C8 (amended): update applies every field present in the supplied
    partial map verbatim, slNo, createdBy and id included, with no check
    of the slNo format: whenever the table with the record so rewritten
    meets the table's own constraints (the keys and the column types, which
    bound slNo, date and time to ten characters and exclude U+0000), that
    table is what is stored; a map with U+0000 in a text is refused and
    changes nothing.  Create stores the slNo it is given, so the
    prefix+counter format is kept by a create whose slNo is the value of
    nextSequentialId, and it is not kept by update: some admin update with
    an slNo in its map leaves a stored record whose slNo is not of the
    format. *)
Theorem update_verbatim_format_not_kept :
  (forall k id patch db row,
      TxnBody.isEmpty patch = false ->
      Schema.txnsOk (rows k db) = true -> In row (rows k db) -> Txn.id row = id ->
      Schema.txnsOk (patched id patch (rows k db)) = true ->
      exists row' db',
        Storage.update k id patch db = (Ok (Some row'), db')
        /\ appliedVerbatim patch row row'
        /\ Permutation (patched id patch (rows k db)) (rows k db')
        /\ In row' (rows k db'))
  /\ (forall k id patch db,
         TxnBody.isEmpty patch = false -> ~ storableBody patch ->
         exists e, Storage.update k id patch db = (Throw e, db))
  /\ (forall k ins db slNo row db',
         allFormatted k db ->
         Storage.nextSequentialId k db = (Ok slNo, db) ->
         InsertTxn.slNo ins = slNo ->
         Storage.create k ins db = (Ok row, db') ->
         allFormatted k db')
  /\ (exists k sess idParam patch db r db' admin,
         allFormatted k db
         /\ sessionUser sess db = Some admin /\ User.role admin = "admin"
         /\ TxnBody.slNo patch <> None
         /\ Routes.putTxn k sess idParam patch db = (Sent r, db')
         /\ status r = 200
         /\ ~ allFormatted k db').
Proof.
  split; [|split; [|split]].
  - intros k id patch db row Hne Hok Hin Hid Hok'.
    exists (TxnBody.apply patch row). eexists.
    split; [apply update_found; assumption|].
    split; [apply apply_verbatim|]. rewrite rows_setRows.
    split; [apply Permutation_refl|].
    unfold patched. apply in_map_iff. exists row.
    rewrite Hid, Z.eqb_refl. auto.
  - intros k id patch db Hne Hns. unfold Storage.update. rewrite Hne.
    destruct (Pg.prepare (Storage.updateParams patch id)) as [e|] eqn:E.
    + exists e. reflexivity.
    + destruct (Hns (update_storable patch id E)).
  - intros k ins db slNo row db' Hall Hnext Hs Hc.
    destruct (nextSequentialId_formatted k db Hall) as (s & Hn & Hf).
    rewrite Hnext in Hn. injection Hn as ->.
    apply create_ok in Hc as (Hrows & _ & Hsl & _ & Hprep).
    rewrite Hs, clip_solid in Hsl.
    + unfold allFormatted. rewrite Hrows. apply Forall_app. split; [exact Hall|].
      constructor; [|constructor]. congruence.
    + apply (formatted_solid k). exact Hf.
    + rewrite prepare_none in Hprep. rewrite <- Hs.
      apply (Hprep (Pg.Varchar 10 (InsertTxn.slNo ins))). left. reflexivity.
  - exists Expense, adminSession, "1",
      (TxnBody.mk None (Some "hello") None None None None None None None None),
      (stored Expense [sampleRow 1 "EXP001" "2024-03-01"]).
    eexists. eexists. exists (User.mk 1 "admin" "786786" "Admin User" "admin").
    split.
    { constructor; [|constructor]. exists 1. split; [lia|reflexivity]. }
    split; [reflexivity|]. split; [reflexivity|]. split; [discriminate|].
    split; [reflexivity|]. split; [reflexivity|].
    intros H. inversion H as [|r l Hf _]; subst.
    exact (not_formatted_hello Expense Hf).
Qed.

(** An admin rewrites slNo, createdBy and id of expense 1 in one PUT; a
    name that holds U+0000 is refused; and the first expense, created with
    the next sequential id, is EXP001. *)
Lemma update_verbatim_format_not_kept_witness :
  let row := sampleRow 1 "EXP001" "2024-03-01" in
  let db := stored Expense [row] in
  let patch := TxnBody.mk (Some 5) (Some "hello") None None None None None None
                          None (Some 9) in
  let nul := TxnBody.mk None None None None (Some (String (ascii_of_nat 0) "Tea"))
                        None None None None None in
  let ins := InsertTxn.mk "EXP001" "2024-03-01" "10:30" "Rent" "Office"
                          "March rent" "cash" (1250 # 1) 2 in
  (exists row' db',
      Storage.updateExpense 1 patch db = (Ok (Some row'), db')
      /\ appliedVerbatim patch row row'
      /\ Permutation (patched 1 patch (rows Expense db)) (rows Expense db')
      /\ In row' (rows Expense db'))
  /\ (exists e, Storage.updateExpense 1 nul db = (Throw e, db))
  /\ allFormatted Expense (snd (Storage.createExpense ins bootDb)).
Proof.
  intros row db patch nul ins.
  destruct update_verbatim_format_not_kept as (U & N & C & _).
  split; [|split].
  - apply (U Expense 1 patch db row); try reflexivity. left. reflexivity.
  - apply (N Expense 1 nul db); [reflexivity|].
    intros (_ & _ & _ & Hn & _). specialize (Hn _ eq_refl). discriminate.
  - apply (C Expense ins bootDb "EXP001" (Txn.mk 1 "EXP001" "2024-03-01" "10:30"
             "Rent" "Office" "March rent" "cash" (1250 # 1) 2)
             (snd (Storage.createExpense ins bootDb))); try reflexivity.
    constructor.
Defined.

(** ** The next sequential id *)
Section NextId.

Lemma code_compare (c d : ascii) : Ascii.compare c d = (Js.code c ?= Js.code d).
Proof.
  unfold Ascii.compare, Js.code, nat_of_ascii.
  rewrite !N_nat_Z, N2Z.inj_compare. reflexivity.
Qed.

Lemma decimalFrom_split (s : string) (acc : Z) :
  decimalFrom acc s = acc * 10 ^ Z.of_nat (String.length s) + decimalFrom 0 s.
Proof.
  revert acc. induction s as [|c s IH]; intros acc; cbn [decimalFrom String.length].
  - simpl. lia.
  - rewrite IH, (IH (0 * 10 + _)). rewrite Nat2Z.inj_succ, Z.pow_succ_r by lia. ring.
Qed.

Lemma decimalValue_bound (s : string) :
  allDigits s = true -> 0 <= decimalFrom 0 s < 10 ^ Z.of_nat (String.length s).
Proof.
  induction s as [|c s IH]; cbn [allDigits decimalFrom String.length]; intros H.
  - simpl. lia.
  - apply andb_true_iff in H as [Hc Hs]. specialize (IH Hs).
    unfold isDigit in Hc. apply andb_true_iff in Hc as [H1 H2].
    apply Z.leb_le in H1, H2.
    rewrite decimalFrom_split, Nat2Z.inj_succ, Z.pow_succ_r by lia. nia.
Qed.

(** On digit strings of equal length the text order is the numeric
    order. *)
Lemma compare_digits (a b : string) :
  String.length a = String.length b -> allDigits a = true -> allDigits b = true ->
  String.compare a b = (decimalValue a ?= decimalValue b).
Proof.
  unfold decimalValue. revert b.
  induction a as [|c a IH]; intros [|d b] Hl Ha Hb; try discriminate; [reflexivity|].
  cbn [allDigits] in Ha, Hb.
  apply andb_true_iff in Ha as [_ Ha]. apply andb_true_iff in Hb as [_ Hb].
  injection Hl as Hl.
  cbn [String.compare decimalFrom].
  rewrite (decimalFrom_split a), (decimalFrom_split b), <- Hl, code_compare.
  pose proof (decimalValue_bound a Ha) as Ba.
  pose proof (decimalValue_bound b Hb) as Bb. rewrite <- Hl in Bb.
  specialize (IH b Hl Ha Hb).
  set (P := 10 ^ Z.of_nat (String.length a)) in *.
  destruct (Z.compare_spec (Js.code c) (Js.code d)) as [E|E|E].
  - rewrite IH, E. symmetry.
    destruct (Z.compare_spec (decimalFrom 0 a) (decimalFrom 0 b));
      [apply Z.compare_eq_iff|apply Z.compare_lt_iff|apply Z.compare_gt_iff]; lia.
  - symmetry. apply Z.compare_lt_iff. nia.
  - symmetry. apply Z.compare_gt_iff. nia.
Qed.

Lemma greatest_digits (a b : string) :
  String.length a = String.length b -> allDigits a = true -> allDigits b = true ->
  decimalValue (Sql.greatest a b) = Z.max (decimalValue a) (decimalValue b)
  /\ (Sql.greatest a b = a \/ Sql.greatest a b = b).
Proof.
  intros Hl Ha Hb. unfold Sql.greatest, String.leb.
  rewrite (compare_digits a b Hl Ha Hb).
  destruct (Z.compare_spec (decimalValue a) (decimalValue b)); split; auto; lia.
Qed.

Lemma aggMax_digits (n : nat) (l : list string) (a : string) :
  Forall (fun s => allDigits s = true /\ String.length s = n) (a :: l) ->
  exists m,
    fold_left (fun acc s => match acc with
                            | None => Some s
                            | Some m => Some (Sql.greatest m s)
                            end) l (Some a) = Some m
    /\ allDigits m = true /\ String.length m = n
    /\ decimalValue m = fold_left Z.max (map decimalValue l) (decimalValue a).
Proof.
  revert a. induction l as [|x l IH]; intros a H; cbn [fold_left map].
  - inversion H as [|? ? [Hd Hl] _]; subst. exists a. auto.
  - inversion H as [|? ? [Hd Hl] H']; subst.
    inversion H' as [|? ? [Hdx Hlx] H'']; subst.
    destruct (greatest_digits a x) as [Hv Hg]; try congruence.
    destruct (IH (Sql.greatest a x)) as (m & Hm & Hdm & Hlm & Hvm).
    + constructor; [|exact H'']. destruct Hg as [->| ->]; auto.
    + exists m. rewrite Hv in Hvm. auto.
Qed.

(** Where the code meets the specification's wording: a table whose
    counters all have three digits. *)
Lemma nextSequentialId_three_digits (k : Kind) (db : Db) :
  Forall (fun r => threeDigits k (Txn.slNo r)) (rows k db) ->
  Storage.nextSequentialId k db = (Ok (nextSequentialId_spec k db), db).
Proof.
  intros Hall. unfold Storage.nextSequentialId, nextSequentialId_spec,
                 Storage.maxSlNo, suffixValues.
  rewrite <- (map_map (fun r => Sql.substringFrom (suffixFrom k) (Txn.slNo r)) decimalValue).
  assert (Hs : Forall (fun s => allDigits s = true /\ String.length s = 3%nat)
                 (map (fun r => Sql.substringFrom (suffixFrom k) (Txn.slNo r)) (rows k db))).
  { apply Forall_map. eapply Forall_impl; [|exact Hall].
    intros r (ds & -> & Hd & Hl). rewrite substringFrom_prefix by exact Hd. auto. }
  destruct (map _ (rows k db)) as [|a l]; [reflexivity|].
  destruct (aggMax_digits 3 l a Hs) as (m & Hm & Hd & Hl & Hv).
  unfold Sql.aggMax. cbn [fold_left map]. rewrite Hm.
  assert (Hne : m <> "") by (intros ->; discriminate).
  unfold Js.truthy. apply String.eqb_neq in Hne. rewrite Hne. cbn [negb].
  rewrite parseInt_digits_only by (try assumption; apply String.eqb_neq; exact Hne).
  cbn [Js.succ]. rewrite Hv. reflexivity.
Qed.

End NextId.

(** The wording of the specification on its own examples. *)
Example next_id_examples :
  fst (Storage.getNextExpenseSlNo emptyDb) = Ok "EXP001"
  /\ fst (Storage.getNextGainSlNo emptyDb) = Ok "GN001"
  /\ fst (Storage.getNextExpenseSlNo
            (stored Expense [sampleRow 1 "EXP001" "2024-03-01";
                             sampleRow 2 "EXP002" "2024-03-02";
                             sampleRow 5 "EXP005" "2024-03-05"]))
     = Ok "EXP006".
Proof. repeat split. Qed.

(** C1 (the code departs from it): the suffixes are compared as text, not
    as numbers.  With EXP999 and EXP1000 stored, the text maximum is "999",
    so the next id is EXP1000, which is already taken, where one more than
    the numeric maximum gives EXP1001; a create with the id so obtained is
    refused.  The same holds for gains. *)
Theorem next_id_text_maximum :
  let expensesDb := stored Expense [sampleRow 999 "EXP999" "2024-03-01";
                                   sampleRow 1000 "EXP1000" "2024-03-02"] in
  let gainsDb := stored Gain [sampleRow 999 "GN999" "2024-03-01";
                             sampleRow 1000 "GN1000" "2024-03-02"] in
  Schema.txnsOk (rows Expense expensesDb) = true
  /\ suffixValues Expense expensesDb = [999; 1000]
  /\ Storage.maxSlNo Expense expensesDb = Some "999"
  /\ Storage.getNextExpenseSlNo expensesDb = (Ok "EXP1000", expensesDb)
  /\ In "EXP1000" (map Txn.slNo (rows Expense expensesDb))
  /\ nextSequentialId_spec Expense expensesDb = "EXP1001"
  /\ fst (Routes.postExpenses staffSession (sampleBody "EXP1000") expensesDb)
     = Sent (reply 500 (Routes.message "Failed to create expense"))
  /\ Storage.getNextGainSlNo gainsDb = (Ok "GN1000", gainsDb)
  /\ nextSequentialId_spec Gain gainsDb = "GN1001".
Proof.
  repeat split. right. left. reflexivity.
Qed.

(** ** The schema's constraints are an invariant of the server *)
Section StoreInvariant.

Lemma storeOk_rows (k : Kind) (db : Db) : storeOk db -> Schema.txnsOk (rows k db) = true.
Proof. intros (_ & He & Hg). destruct k; assumption. Qed.

Lemma storeOk_setRows (k : Kind) (l : list Txn.t) (db : Db) :
  storeOk db -> Schema.txnsOk l = true -> storeOk (setRows k l db).
Proof. intros (Hu & He & Hg) Hl. destruct k; repeat split; assumption. Qed.

Lemma storeOk_setSeq (k : Kind) (n : Z) (db : Db) : storeOk db -> storeOk (setSeq k n db).
Proof. intros (Hu & He & Hg). destruct k; repeat split; assumption. Qed.

Lemma storeOk_boot : storeOk emptyDb /\ storeOk bootDb.
Proof. repeat split. Qed.

Lemma existsb_map_filter {A B} (g : B -> bool) (f : A -> B) (p : A -> bool) (l : list A) :
  existsb g (map f (filter p l)) = true -> existsb g (map f l) = true.
Proof.
  induction l as [|x l IH]; simpl; [auto|].
  destruct (p x); simpl; intros H.
  - apply orb_true_iff in H as [H|H]; apply orb_true_iff; auto.
  - apply orb_true_iff. auto.
Qed.

Lemma distinct_filter {A B} (eqb : B -> B -> bool) (f : A -> B) (p : A -> bool)
      (l : list A) :
  Schema.distinct eqb (map f l) = true ->
  Schema.distinct eqb (map f (filter p l)) = true.
Proof.
  induction l as [|x l IH]; simpl; [auto|]. intros H.
  apply andb_true_iff in H as [Hx Hl]. destruct (p x); simpl; [|auto].
  rewrite IH by exact Hl. rewrite andb_true_r.
  apply negb_true_iff in Hx. apply negb_true_iff.
  destruct (existsb (eqb (f x)) (map f (filter p l))) eqn:E; [|reflexivity].
  apply existsb_map_filter in E. congruence.
Qed.

Lemma txnsOk_filter (p : Txn.t -> bool) (l : list Txn.t) :
  Schema.txnsOk l = true -> Schema.txnsOk (filter p l) = true.
Proof.
  unfold Schema.txnsOk. intros H.
  apply andb_true_iff in H as [H Hall]. apply andb_true_iff in H as [Hid Hsl].
  rewrite !distinct_filter by assumption. simpl.
  apply forallb_forall. intros r Hr. apply filter_In in Hr as [Hr _].
  rewrite forallb_forall in Hall. auto.
Qed.

Lemma keeps_ret {A} (a : A) : keeps (ret a).
Proof. intros db H. exact H. Qed.

Lemma keeps_bind {A B} (m : M A) (f : A -> M B) :
  keeps m -> (forall a, keeps (f a)) -> keeps (bind m f).
Proof.
  intros Hm Hf db H. unfold bind. specialize (Hm db H).
  destruct (m db) as [[a|e] db1]; simpl in Hm; [apply Hf|]; exact Hm.
Qed.

Lemma keeps_liftResult {A} (r : result A) : keeps (Routes.liftResult r).
Proof. intros db H. exact H. Qed.

Lemma keeps_getUser (id : Z) : keeps (Storage.getUser id).
Proof. intros db H. rewrite getUser_db. exact H. Qed.

Lemma keeps_getUserByUsername (username : string) :
  keeps (Storage.getUserByUsername username).
Proof. intros db H. rewrite getUserByUsername_db. exact H. Qed.

Lemma keeps_createUser (insertUser : InsertUser.t) : keeps (Storage.createUser insertUser).
Proof.
  intros db (Hu & He & Hg). unfold Storage.createUser.
  destruct (Pg.prepare _); [repeat split; assumption|].
  destruct (negb (Schema.int4 _)); [repeat split; assumption|].
  destruct (Schema.usersOk (users db ++ _)) eqn:E; repeat split; assumption.
Qed.

Lemma keeps_create (k : Kind) (ins : InsertTxn.t) : keeps (Storage.create k ins).
Proof.
  intros db H. unfold Storage.create.
  destruct (Pg.prepare _); [exact H|].
  destruct (negb (Schema.int4 _)); [exact H|].
  destruct (Schema.txnsOk (rows k db ++ _)) eqn:E; cbn [snd].
  - apply storeOk_setRows; [apply storeOk_setSeq; exact H|exact E].
  - apply storeOk_setSeq. exact H.
Qed.

Lemma keeps_listByDate (k : Kind) : keeps (Storage.listByDate k).
Proof. intros db H. exact H. Qed.

Lemma keeps_getById (k : Kind) (id : Z) : keeps (Storage.getById k id).
Proof. intros db H. unfold Storage.getById. destruct (Schema.int4 id); exact H. Qed.

Lemma keeps_update (k : Kind) (id : Z) (patch : TxnBody.t) :
  keeps (Storage.update k id patch).
Proof.
  intros db H. unfold Storage.update.
  destruct (TxnBody.isEmpty patch); [exact H|].
  destruct (Pg.prepare _); [exact H|].
  destruct (Schema.txnsOk (map _ (rows k db))) eqn:E; [|exact H].
  apply storeOk_setRows; assumption.
Qed.

Lemma keeps_delete (k : Kind) (id : Z) : keeps (Storage.delete k id).
Proof.
  intros db H. unfold Storage.delete.
  destruct (Schema.int4 id); [|exact H]. cbn [negb snd].
  apply storeOk_setRows; [exact H|]. apply txnsOk_filter, storeOk_rows, H.
Qed.

Lemma keeps_nextSequentialId (k : Kind) : keeps (Storage.nextSequentialId k).
Proof. intros db H. exact H. Qed.

Lemma keeps_tryCatch (body : M Response) (handler : error -> Response) :
  keeps body -> keeps (Routes.tryCatch body handler).
Proof.
  intros Hb db H. unfold Routes.tryCatch. specialize (Hb db H).
  destruct (body db) as [[r|e] db1]; exact Hb.
Qed.

Lemma keeps_authenticate (sess : Session) (next : User.t -> Db -> Outcome * Db) :
  (forall user, keeps (next user)) -> keeps (Routes.authenticate sess next).
Proof.
  intros Hn db H. unfold Routes.authenticate.
  destruct (userId sess) as [uid|]; [|exact H].
  destruct (uid =? 0); [exact H|].
  pose proof (getUser_db uid db) as Hdb.
  destruct (Storage.getUser uid db) as [[[user|]|e] db1]; simpl in Hdb; subst;
    [apply Hn|..]; exact H.
Qed.

Lemma keeps_requireAdmin (user : User.t) (next : Db -> Outcome * Db) :
  keeps next -> keeps (Routes.requireAdmin user next).
Proof.
  intros Hn db H. unfold Routes.requireAdmin.
  destruct (negb _); [exact H|apply Hn; exact H].
Qed.

Create HintDb keeps.
#[local] Hint Resolve keeps_ret keeps_liftResult keeps_getUser
  keeps_getUserByUsername keeps_createUser keeps_create keeps_listByDate
  keeps_getById keeps_update keeps_delete keeps_nextSequentialId : keeps.

Ltac keeps_route :=
  repeat first
    [ apply keeps_authenticate; intros
    | apply keeps_requireAdmin
    | apply keeps_tryCatch
    | apply keeps_bind; [|intros]
    | match goal with |- keeps (match ?x with _ => _ end) => destruct x end
    | solve [auto with keeps] ].

(** Every route that writes to the store, and login, which only reads
    it, leaves the store consistent. *)
Lemma routes_keep_storeOk (k : Kind) (sess : Session) (idParam : string)
      (tb : TxnBody.t) (ub : UserBody.t) (lb : LoginBody.t) :
  keeps (Routes.postUsers sess ub)
  /\ keeps (Routes.postTxn k sess tb)
  /\ keeps (Routes.putTxn k sess idParam tb)
  /\ keeps (Routes.deleteTxn k sess idParam)
  /\ (forall db, storeOk db -> storeOk (snd (fst (Routes.login lb sess db)))).
Proof.
  split; [|split; [|split; [|split]]].
  - unfold Routes.postUsers. keeps_route.
  - unfold Routes.postTxn. keeps_route.
  - unfold Routes.putTxn. keeps_route.
  - unfold Routes.deleteTxn. keeps_route.
  - intros db H. rewrite (login_db lb sess db). exact H.
Qed.

End StoreInvariant.

(** * Further properties of the routes and the storage layer *)

(** ** Steps that respect a relation on stores *)
Section Respects.

Variable R : Db -> Db -> Prop.
Hypothesis R_refl : forall db, R db db.
Hypothesis R_trans : forall a b c, R a b -> R b c -> R a c.

Lemma respects_ret {A} (a : A) : respects R (ret a).
Proof. intros db. apply R_refl. Qed.

Lemma respects_liftResult {A} (r : result A) : respects R (Routes.liftResult r).
Proof. intros db. apply R_refl. Qed.

Lemma respects_bind {A B} (m : M A) (f : A -> M B) :
  respects R m -> (forall a, respects R (f a)) -> respects R (bind m f).
Proof.
  intros Hm Hf db. unfold bind. specialize (Hm db).
  destruct (m db) as [[a|e] db1]; simpl in Hm; [|exact Hm].
  exact (R_trans _ _ _ Hm (Hf a db1)).
Qed.

Lemma respects_getUser (id : Z) : respects R (Storage.getUser id).
Proof. intros db. rewrite getUser_db. apply R_refl. Qed.

Lemma respects_getUserByUsername (username : string) :
  respects R (Storage.getUserByUsername username).
Proof. intros db. rewrite getUserByUsername_db. apply R_refl. Qed.

Lemma respects_listByDate (k : Kind) : respects R (Storage.listByDate k).
Proof. intros db. apply R_refl. Qed.

Lemma respects_getById (k : Kind) (id : Z) : respects R (Storage.getById k id).
Proof. intros db. unfold Storage.getById. destruct (Schema.int4 id); apply R_refl. Qed.

Lemma respects_nextSequentialId (k : Kind) : respects R (Storage.nextSequentialId k).
Proof. intros db. apply R_refl. Qed.

Lemma respects_tryCatch (body : M Response) (handler : error -> Response) :
  respects R body -> respects R (Routes.tryCatch body handler).
Proof.
  intros Hb db. unfold Routes.tryCatch. specialize (Hb db).
  destruct (body db) as [[r|e] db1]; exact Hb.
Qed.

Lemma respects_authenticate (sess : Session) (next : User.t -> Db -> Outcome * Db) :
  (forall user, respects R (next user)) -> respects R (Routes.authenticate sess next).
Proof.
  intros Hn db. unfold Routes.authenticate.
  destruct (userId sess) as [uid|]; [|apply R_refl].
  destruct (uid =? 0); [apply R_refl|].
  pose proof (getUser_db uid db) as Hdb.
  destruct (Storage.getUser uid db) as [[[user|]|e] db1]; simpl in Hdb; subst;
    [apply Hn|..]; apply R_refl.
Qed.

Lemma respects_requireAdmin (user : User.t) (next : Db -> Outcome * Db) :
  respects R next -> respects R (Routes.requireAdmin user next).
Proof.
  intros Hn db. unfold Routes.requireAdmin.
  destruct (negb _); [apply R_refl|apply Hn].
Qed.

Ltac respects_chain :=
  repeat first
    [ apply respects_authenticate; intros
    | apply respects_requireAdmin
    | apply respects_tryCatch
    | apply respects_bind; [|intros]
    | apply respects_ret
    | apply respects_liftResult
    | apply respects_getUserByUsername
    | apply respects_listByDate
    | apply respects_getById
    | apply respects_nextSequentialId
    | match goal with
      | H : forall x, respects R _ |- _ => apply H
      | H : forall x y, respects R _ |- _ => apply H
      | |- respects R (match ?x with _ => _ end) => destruct x
      | |- respects R (fun db => (_, db)) => intros db; apply R_refl
      end ].

Lemma respects_getMe (sess : Session) : respects R (Routes.getMe sess).
Proof. unfold Routes.getMe. respects_chain. Qed.

Lemma respects_postUsers (sess : Session) (ub : UserBody.t) :
  (forall u, respects R (Storage.createUser u)) ->
  respects R (Routes.postUsers sess ub).
Proof. intros Hcu. unfold Routes.postUsers. respects_chain. Qed.

Lemma respects_getAll (k : Kind) (sess : Session) : respects R (Routes.getAll k sess).
Proof. unfold Routes.getAll. respects_chain. Qed.

Lemma respects_getNextSlNo (k : Kind) (sess : Session) :
  respects R (Routes.getNextSlNo k sess).
Proof. unfold Routes.getNextSlNo. respects_chain. Qed.

Lemma respects_postTxn (k : Kind) (sess : Session) (tb : TxnBody.t) :
  (forall ins, respects R (Storage.create k ins)) ->
  respects R (Routes.postTxn k sess tb).
Proof. intros Hc. unfold Routes.postTxn. respects_chain. Qed.

Lemma respects_putTxn (k : Kind) (sess : Session) (idParam : string) (tb : TxnBody.t) :
  (forall id patch, respects R (Storage.update k id patch)) ->
  respects R (Routes.putTxn k sess idParam tb).
Proof. intros Hu. unfold Routes.putTxn. respects_chain. Qed.

Lemma respects_deleteTxn (k : Kind) (sess : Session) (idParam : string) :
  (forall id, respects R (Storage.delete k id)) ->
  respects R (Routes.deleteTxn k sess idParam).
Proof. intros Hd. unfold Routes.deleteTxn. respects_chain. Qed.

(** Every protected route, given what the four writing storage calls
    do. *)
Lemma respects_routes (k : Kind) (sess : Session) (idParam : string)
      (tb : TxnBody.t) (ub : UserBody.t) (h : Db -> Outcome * Db) :
  (forall u, respects R (Storage.createUser u)) ->
  (forall ins, respects R (Storage.create k ins)) ->
  (forall id patch, respects R (Storage.update k id patch)) ->
  (forall id, respects R (Storage.delete k id)) ->
  In h (protectedRoutes k sess idParam tb ub) -> respects R h.
Proof.
  intros Hcu Hc Hu Hd [<-|[<-|[<-|[<-|[<-|[<-|[<-|[]]]]]]]].
  - apply respects_getMe.
  - apply respects_postUsers, Hcu.
  - apply respects_getAll.
  - apply respects_getNextSlNo.
  - apply respects_postTxn, Hc.
  - apply respects_putTxn, Hu.
  - apply respects_deleteTxn, Hd.
Qed.

End Respects.

(** ** What the storage calls leave alone *)
Section Frames.

Lemma onlyTable_refl (k : Kind) (db : Db) : onlyTable k db db.
Proof. repeat split. Qed.

Lemma onlyTable_trans (k : Kind) (a b c : Db) :
  onlyTable k a b -> onlyTable k b c -> onlyTable k a c.
Proof.
  intros (A1 & A2 & A3 & A4) (B1 & B2 & B3 & B4).
  repeat split; congruence.
Qed.

Lemma onlyTable_setRows (k : Kind) (l : list Txn.t) (db : Db) :
  onlyTable k db (setRows k l db).
Proof. destruct k; repeat split. Qed.

Lemma onlyTable_setSeq (k : Kind) (n : Z) (db : Db) : onlyTable k db (setSeq k n db).
Proof. destruct k; repeat split. Qed.

Lemma onlyTable_create (k : Kind) (ins : InsertTxn.t) :
  respects (onlyTable k) (Storage.create k ins).
Proof.
  intros db. unfold Storage.create.
  destruct (Pg.prepare _); [apply onlyTable_refl|].
  destruct (negb (Schema.int4 _)); [apply onlyTable_refl|].
  destruct (Schema.txnsOk _); cbn [snd]; [|apply onlyTable_setSeq].
  eapply onlyTable_trans; [apply onlyTable_setSeq|apply onlyTable_setRows].
Qed.

Lemma onlyTable_update (k : Kind) (id : Z) (patch : TxnBody.t) :
  respects (onlyTable k) (Storage.update k id patch).
Proof.
  intros db. unfold Storage.update.
  destruct (TxnBody.isEmpty patch); [apply onlyTable_refl|].
  destruct (Pg.prepare _); [apply onlyTable_refl|].
  destruct (Schema.txnsOk _); [apply onlyTable_setRows|apply onlyTable_refl].
Qed.

Lemma onlyTable_delete (k : Kind) (id : Z) : respects (onlyTable k) (Storage.delete k id).
Proof.
  intros db. unfold Storage.delete.
  destruct (negb (Schema.int4 id)); [apply onlyTable_refl|apply onlyTable_setRows].
Qed.

Lemma usersGrow_refl (db : Db) : usersGrow db db.
Proof. exists []. symmetry. apply app_nil_r. Qed.

Lemma usersGrow_trans (a b c : Db) : usersGrow a b -> usersGrow b c -> usersGrow a c.
Proof.
  intros [x Hx] [y Hy]. exists (x ++ y)%list. rewrite Hy, Hx. symmetry. apply app_assoc.
Qed.

Lemma usersGrow_same (db db' : Db) : users db' = users db -> usersGrow db db'.
Proof. intros H. exists []. rewrite H. symmetry. apply app_nil_r. Qed.

Lemma onlyUsers_refl (db : Db) : onlyUsers db db.
Proof. repeat split. apply usersGrow_refl. Qed.

Lemma onlyUsers_trans (a b c : Db) : onlyUsers a b -> onlyUsers b c -> onlyUsers a c.
Proof.
  intros (A1 & A2 & A3 & A4 & A5) (B1 & B2 & B3 & B4 & B5).
  repeat split; try congruence. exact (usersGrow_trans _ _ _ A5 B5).
Qed.

Lemma onlyUsers_createUser (u : InsertUser.t) : respects onlyUsers (Storage.createUser u).
Proof.
  intros db. unfold Storage.createUser.
  destruct (Pg.prepare _); [apply onlyUsers_refl|].
  destruct (negb (Schema.int4 _)); [apply onlyUsers_refl|].
  destruct (Schema.usersOk _); repeat split.
  - eexists. reflexivity.
  - apply usersGrow_same. reflexivity.
Qed.

Lemma usersGrow_createUser (u : InsertUser.t) : respects usersGrow (Storage.createUser u).
Proof. intros db. apply (onlyUsers_createUser u db). Qed.

Lemma usersGrow_create (k : Kind) (ins : InsertTxn.t) :
  respects usersGrow (Storage.create k ins).
Proof. intros db. apply usersGrow_same. apply (onlyTable_create k ins db). Qed.

Lemma usersGrow_update (k : Kind) (id : Z) (patch : TxnBody.t) :
  respects usersGrow (Storage.update k id patch).
Proof. intros db. apply usersGrow_same. apply (onlyTable_update k id patch db). Qed.

Lemma usersGrow_delete (k : Kind) (id : Z) : respects usersGrow (Storage.delete k id).
Proof. intros db. apply usersGrow_same. apply (onlyTable_delete k id db). Qed.

Lemma usersGrow_route (h : Db -> Outcome * Db) : isRoute h -> respects usersGrow h.
Proof.
  intros (k & sess & idParam & tb & ub & Hin).
  apply (respects_routes usersGrow usersGrow_refl usersGrow_trans k sess idParam tb ub);
    try assumption; intros.
  - apply usersGrow_createUser.
  - apply usersGrow_create.
  - apply usersGrow_update.
  - apply usersGrow_delete.
Qed.

Lemma usersGrow_runAll (hs : list (Db -> Outcome * Db)) (db : Db) :
  Forall isRoute hs -> usersGrow db (runAll hs db).
Proof.
  revert db. induction hs as [|h hs IH]; intros db H; simpl.
  - apply usersGrow_refl.
  - inversion H as [|? ? Hh Hhs]; subst.
    eapply usersGrow_trans; [apply (usersGrow_route h Hh db)|apply IH, Hhs].
Qed.

Lemma find_app_found {A} (p : A -> bool) (l added : list A) (x : A) :
  find p l = Some x -> find p (l ++ added) = Some x.
Proof.
  induction l as [|y l IH]; simpl; [discriminate|].
  destruct (p y); [auto|exact IH].
Qed.

Lemma usersGrow_In (db db' : Db) (user : User.t) :
  usersGrow db db' -> In user (users db) -> In user (users db').
Proof. intros [added ->] H. apply in_or_app. auto. Qed.

Lemma usersGrow_sessionUser (sess : Session) (db db' : Db) (user : User.t) :
  usersGrow db db' -> sessionUser sess db = Some user ->
  sessionUser sess db' = Some user.
Proof.
  intros [added Ha] H. apply sessionUser_getUser in H as (uid & Hs & Hz & Hg).
  unfold sessionUser. rewrite Hs, Hz. unfold Storage.getUser in *.
  destruct (Schema.int4 uid); [|discriminate].
  injection Hg as Hg. rewrite Ha, (find_app_found _ _ _ _ Hg). reflexivity.
Qed.

End Frames.

(** X1: each writing route for expenses or gains changes nothing outside
    its own table and sequence (the other kind's table and the users are as
    they were), and POST /api/users changes nothing in the expense and gain
    tables and only adds to the users. *)
Theorem routes_touch_their_own_table
        (k : Kind) (sess : Session) (idParam : string) (tb : TxnBody.t)
        (ub : UserBody.t) (db : Db) :
  onlyTable k db (snd (Routes.postTxn k sess tb db))
  /\ onlyTable k db (snd (Routes.putTxn k sess idParam tb db))
  /\ onlyTable k db (snd (Routes.deleteTxn k sess idParam db))
  /\ onlyUsers db (snd (Routes.postUsers sess ub db)).
Proof.
  pose proof (onlyTable_refl k) as Hr. pose proof (onlyTable_trans k) as Ht.
  split; [|split; [|split]].
  - apply (respects_postTxn (onlyTable k) Hr Ht). apply onlyTable_create.
  - apply (respects_putTxn (onlyTable k) Hr Ht). apply onlyTable_update.
  - apply (respects_deleteTxn (onlyTable k) Hr Ht). apply onlyTable_delete.
  - apply (respects_postUsers onlyUsers onlyUsers_refl onlyUsers_trans).
    apply onlyUsers_createUser.
Qed.

(** X2: the reading routes (GET /api/users/me, GET /api/expenses and
    /api/gains, GET .../next-slno) and login leave the store exactly as it
    was, whatever the session and the input; asking for the next slNo
    twice gives the same answer. *)
Theorem reading_routes_leave_store
        (k : Kind) (sess : Session) (lb : LoginBody.t) (db : Db) :
  snd (Routes.getMe sess db) = db
  /\ snd (Routes.getAll k sess db) = db
  /\ snd (Routes.getNextSlNo k sess db) = db
  /\ snd (fst (Routes.login lb sess db)) = db
  /\ Routes.getNextSlNo k sess (snd (Routes.getNextSlNo k sess db))
     = Routes.getNextSlNo k sess db.
Proof.
  set (R := fun a b : Db => b = a).
  assert (Hr : forall a, R a a) by reflexivity.
  assert (Ht : forall a b c, R a b -> R b c -> R a c) by (unfold R; congruence).
  assert (Hn : snd (Routes.getNextSlNo k sess db) = db)
    by apply (respects_getNextSlNo R Hr Ht k sess db).
  split; [apply (respects_getMe R Hr sess db)|].
  split; [apply (respects_getAll R Hr Ht k sess db)|].
  split; [exact Hn|]. split; [|rewrite Hn; reflexivity].
  apply login_db.
Qed.

(** X3: no sequence of requests to the protected routes removes or
    rewrites a stored user, and a session bound to a user stays bound to
    that same user, with the same role, whatever requests are served in
    between. *)
Theorem users_and_sessions_are_stable
        (hs : list (Db -> Outcome * Db)) (sess : Session) (db : Db) (user : User.t) :
  Forall isRoute hs ->
  (In user (users db) -> In user (users (runAll hs db)))
  /\ (sessionUser sess db = Some user -> sessionUser sess (runAll hs db) = Some user).
Proof.
  intros H. pose proof (usersGrow_runAll hs db H) as Hg. split.
  - apply usersGrow_In, Hg.
  - apply usersGrow_sessionUser, Hg.
Qed.

(** The admin creates a user, rewrites an expense and deletes it; the
    staff session is still the staff account. *)
Lemma users_and_sessions_are_stable_witness :
  let db := stored Expense [sampleRow 1 "EXP001" "2024-03-01"] in
  let staff := User.mk 2 "staff1" "1234" "Staff User" "staff" in
  let hs := [ Routes.postUsers adminSession
                (UserBody.mk (Some "clerk") (Some "s3cret") (Some "Clerk") (Some "admin"));
              Routes.putTxn Expense adminSession "1" (sampleBody "EXP007");
              Routes.deleteTxn Expense adminSession "1" ] in
  In staff (users (runAll hs db))
  /\ sessionUser staffSession (runAll hs db) = Some staff.
Proof.
  intros db staff hs.
  assert (H : Forall isRoute hs).
  { repeat constructor.
    - exists Expense, adminSession, "1", (sampleBody "EXP007"),
        (UserBody.mk (Some "clerk") (Some "s3cret") (Some "Clerk") (Some "admin")).
      right. left. reflexivity.
    - exists Expense, adminSession, "1", (sampleBody "EXP007"),
        (UserBody.mk None None None None).
      do 5 right. left. reflexivity.
    - exists Expense, adminSession, "1", (sampleBody "EXP007"),
        (UserBody.mk None None None None).
      do 6 right. left. reflexivity. }
  destruct (users_and_sessions_are_stable hs staffSession db staff H) as [A B].
  split; [apply A; right; left; reflexivity|apply B; reflexivity].
Defined.

(** ** Requests without a user, and requests that fail *)
Section Refusals.

Lemma authenticate_no_session (sess : Session) (db : Db)
      (next : User.t -> Db -> Outcome * Db) :
  userId sess = None \/ userId sess = Some 0 ->
  Routes.authenticate sess next db = (Sent notAuthenticated, db).
Proof. unfold Routes.authenticate. intros [-> | ->]; reflexivity. Qed.

Lemma authenticate_unknown_user (sess : Session) (db : Db) (uid : Z)
      (next : User.t -> Db -> Outcome * Db) :
  userId sess = Some uid -> uid <> 0 -> Schema.int4 uid = true ->
  (forall u, In u (users db) -> User.id u <> uid) ->
  Routes.authenticate sess next db = (Sent userNotFound, db).
Proof.
  intros Hs Hz Hr Hnone. unfold Routes.authenticate, Storage.getUser.
  apply Z.eqb_neq in Hz. rewrite Hs, Hz, Hr.
  destruct (find _ (users db)) as [u|] eqn:E; [|reflexivity].
  apply find_some in E as [Hin E]. apply Z.eqb_eq in E. destruct (Hnone u Hin E).
Qed.

(** What [authenticate] does: it hands the bound user on, or stops with
    an answer that is no success and leaves the store alone. *)
Lemma authenticate_cases (sess : Session) (db : Db)
      (next : User.t -> Db -> Outcome * Db) :
  (exists user, sessionUser sess db = Some user
                /\ Routes.authenticate sess next db = next user db)
  \/ (exists o, Routes.authenticate sess next db = (o, db)
                /\ forall r, o = Sent r -> ~ success r).
Proof.
  destruct (sessionUser sess db) as [user|] eqn:E.
  - left. exists user. split; [reflexivity|apply authenticate_bound; exact E].
  - right. destruct (authenticate_unbound sess db next E) as (o & Ho & H401).
    exists o. split; [exact Ho|]. intros r Hr [_ Hhi].
    rewrite (H401 r Hr) in Hhi. lia.
Qed.

Lemma gated_cases (sess : Session) (db : Db) (inner : User.t -> Db -> Outcome * Db) :
  (exists user, sessionUser sess db = Some user /\ User.role user = "admin")
  \/ (exists o,
         Routes.authenticate sess (fun user => Routes.requireAdmin user (inner user)) db
         = (o, db)
         /\ forall r, o = Sent r -> ~ success r).
Proof.
  destruct (authenticate_cases sess db
              (fun user => Routes.requireAdmin user (inner user)))
    as [(user & Hu & Hh)|Hstop]; [|right; exact Hstop].
  destruct (string_dec (User.role user) "admin") as [Ha|Hn].
  - left. exists user. auto.
  - right. exists (Sent forbidden). split.
    + rewrite Hh. apply requireAdmin_staff. exact Hn.
    + intros r [= <-]. unfold success, forbidden. simpl. lia.
Qed.

Lemma requireAdmin_cases (user : User.t) (next : Db -> Outcome * Db) (db : Db) :
  (User.role user = "admin" /\ Routes.requireAdmin user next db = next db)
  \/ Routes.requireAdmin user next db = (Sent forbidden, db).
Proof.
  destruct (string_dec (User.role user) "admin") as [E|E].
  - left. split; [exact E|apply requireAdmin_admin; exact E].
  - right. apply requireAdmin_staff. exact E.
Qed.

Lemma forbidden_no_success : ~ success forbidden.
Proof. unfold success, forbidden. simpl. lia. Qed.

Lemma sameRecords_refl (db : Db) : sameRecords db db.
Proof. repeat split. Qed.

Lemma update_throws (k : Kind) (id : Z) (patch : TxnBody.t) (db db' : Db) (e : error) :
  Storage.update k id patch db = (Throw e, db') -> db' = db.
Proof.
  unfold Storage.update.
  destruct (TxnBody.isEmpty patch); [intros [= _ <-]; reflexivity|].
  destruct (Pg.prepare _); [intros [= _ <-]; reflexivity|].
  destruct (Schema.txnsOk _); [discriminate|intros [= _ <-]; reflexivity].
Qed.

Lemma delete_throws (k : Kind) (id : Z) (db db' : Db) (e : error) :
  Storage.delete k id db = (Throw e, db') -> db' = db.
Proof.
  unfold Storage.delete.
  destruct (negb (Schema.int4 id)); [intros [= _ <-]; reflexivity|discriminate].
Qed.

Lemma create_throws (k : Kind) (ins : InsertTxn.t) (db db' : Db) (e : error) :
  Storage.create k ins db = (Throw e, db') -> sameRecords db db'.
Proof.
  unfold Storage.create.
  destruct (Pg.prepare _); [intros [= _ <-]; apply sameRecords_refl|].
  destruct (negb (Schema.int4 _)); [intros [= _ <-]; apply sameRecords_refl|].
  destruct (Schema.txnsOk _); [discriminate|].
  intros [= _ <-]. destruct k; repeat split.
Qed.

Lemma createUser_throws (u : InsertUser.t) (db db' : Db) (e : error) :
  Storage.createUser u db = (Throw e, db') -> sameRecords db db'.
Proof.
  unfold Storage.createUser.
  destruct (Pg.prepare _); [intros [= _ <-]; apply sameRecords_refl|].
  destruct (negb (Schema.int4 _)); [intros [= _ <-]; apply sameRecords_refl|].
  destruct (Schema.usersOk _); [discriminate|].
  intros [= _ <-]. repeat split.
Qed.

Lemma postUsers_admin (sess : Session) (ub : UserBody.t) (db : Db) (user : User.t) :
  sessionUser sess db = Some user -> User.role user = "admin" ->
  Routes.postUsers sess ub db =
  let onError := fun e =>
    match e with
    | ZodError fields => reply 400 (Routes.message (Routes.fromZodError fields))
    | _ => reply 500 (Routes.message "Failed to create user")
    end in
  match Schema.parseInsertUser ub with
  | Ok userData =>
      match Storage.getUserByUsername (InsertUser.username userData) db with
      | (Ok (Some _), _) =>
          (Sent (reply 400 (Routes.message "Username already exists")), db)
      | (Ok None, _) =>
          match Storage.createUser userData db with
          | (Ok newUser, db') => (Sent (reply 201 (Routes.userInfo newUser)), db')
          | (Throw e, db') => (Sent (onError e), db')
          end
      | (Throw e, _) => (Sent (onError e), db)
      end
  | Throw e => (Sent (onError e), db)
  end.
Proof.
  intros Hu Ha. unfold Routes.postUsers.
  rewrite (authenticate_bound _ _ user) by exact Hu.
  rewrite requireAdmin_admin by exact Ha.
  unfold Routes.tryCatch, bind, ret, Routes.liftResult.
  destruct (Schema.parseInsertUser ub) as [userData|e]; [|reflexivity].
  pose proof (getUserByUsername_db (InsertUser.username userData) db) as Hd.
  destruct (Storage.getUserByUsername _ db) as [[[x|]|e] d]; cbn [snd] in Hd; subst d;
    [reflexivity| |reflexivity].
  destruct (Storage.createUser userData db) as [[newUser|e] db']; reflexivity.
Qed.

Ltac stopped H Ho1 :=
  rewrite Ho1 in H; injection H as _ <-; right; apply sameRecords_refl.

Ltac same H := injection H as _ <-; right; apply sameRecords_refl.

Ltac succeeded H :=
  injection H as <- _; left; eexists; split; [reflexivity|];
  unfold success; simpl; lia.

(** A writing route either answers with a success or leaves the three
    tables as they were. *)
Lemma writing_route_outcomes (k : Kind) (sess : Session) (idParam : string)
      (tb : TxnBody.t) (ub : UserBody.t) (db db' : Db) (h : Db -> Outcome * Db)
      (o : Outcome) :
  In h (writingRoutes k sess idParam tb ub) -> h db = (o, db') ->
  (exists r, o = Sent r /\ success r) \/ sameRecords db db'.
Proof.
  intros [<-|[<-|[<-|[<-|[]]]]] H.
  - (* POST /api/users *)
    destruct (gated_cases sess db _ : _ \/ exists o, Routes.postUsers sess ub db = _ /\ _)
      as [(user & Hu & Ha)|(o1 & Ho1 & _)]; [|stopped H Ho1].
    rewrite (postUsers_admin sess ub db user Hu Ha) in H. cbv zeta in H.
    destruct (Schema.parseInsertUser ub) as [userData|e]; [|same H].
    destruct (Storage.getUserByUsername _ db) as [[[x|]|e] d]; try (same H).
    destruct (Storage.createUser userData db) as [[nu|e] d1] eqn:Hc; [succeeded H|].
    injection H as _ <-. right. exact (createUser_throws _ _ _ _ Hc).
  - (* POST /api/expenses, /api/gains *)
    destruct (authenticate_cases sess db _ : _ \/ exists o, Routes.postTxn k sess tb db = _ /\ _)
      as [(user & Hu & _)|(o1 & Ho1 & _)]; [|stopped H Ho1].
    rewrite (postTxn_bound k sess db user tb Hu) in H. cbv zeta in H.
    destruct (Schema.parseInsertTxn _) as [data|e]; [|same H].
    destruct (Storage.create k data db) as [[row|e] d1] eqn:Hc; [succeeded H|].
    injection H as _ <-. right. exact (create_throws _ _ _ _ _ Hc).
  - (* PUT *)
    destruct (gated_cases sess db _ : _ \/ exists o, Routes.putTxn k sess idParam tb db = _ /\ _)
      as [(user & Hu & Ha)|(o1 & Ho1 & _)]; [|stopped H Ho1].
    rewrite (putTxn_admin k sess db user idParam tb Hu Ha) in H.
    destruct (Js.parseInt idParam) as [|id]; [same H|].
    destruct (Storage.getById k id db) as [[[x|]|e] d]; try (same H).
    destruct (Storage.update k id tb db) as [[u|e] d1] eqn:Hc; [succeeded H|].
    apply update_throws in Hc. subst d1. same H.
  - (* DELETE *)
    destruct (gated_cases sess db _ : _ \/ exists o, Routes.deleteTxn k sess idParam db = _ /\ _)
      as [(user & Hu & Ha)|(o1 & Ho1 & _)]; [|stopped H Ho1].
    rewrite (deleteTxn_admin k sess db user idParam Hu Ha) in H.
    destruct (Js.parseInt idParam) as [|id]; [same H|].
    destruct (Storage.getById k id db) as [[[x|]|e] d]; try (same H).
    destruct (Storage.delete k id db) as [[u|e] d1] eqn:Hc; [succeeded H|].
    apply delete_throws in Hc. subst d1. same H.
Qed.

End Refusals.

(** X4: a request whose session carries no user id (or the id 0) is
    answered 401 "Not authenticated" by every protected route, and one
    whose user id resolves to no stored user is answered 401 "User not
    found"; in both cases the store is left as it was. *)
Theorem protected_routes_need_a_user
        (k : Kind) (sess : Session) (idParam : string) (tb : TxnBody.t)
        (ub : UserBody.t) (db : Db) (h : Db -> Outcome * Db) :
  In h (protectedRoutes k sess idParam tb ub) ->
  (userId sess = None \/ userId sess = Some 0 -> h db = (Sent notAuthenticated, db))
  /\ (forall uid,
         userId sess = Some uid -> uid <> 0 -> Schema.int4 uid = true ->
         (forall u, In u (users db) -> User.id u <> uid) ->
         h db = (Sent userNotFound, db)).
Proof.
  intros [<-|[<-|[<-|[<-|[<-|[<-|[<-|[]]]]]]]]; split;
    try (intros Hs; apply authenticate_no_session; exact Hs);
    intros uid Hs Hz Hr Hn; apply (authenticate_unknown_user _ _ uid); assumption.
Qed.

(** A DELETE with no session, and one with the session of a user that
    is not stored. *)
Lemma protected_routes_need_a_user_witness :
  let db := stored Expense [sampleRow 1 "EXP001" "2024-03-01"] in
  Routes.deleteExpense (mkSession None) "1" db = (Sent notAuthenticated, db)
  /\ Routes.deleteExpense (mkSession (Some 99)) "1" db = (Sent userNotFound, db).
Proof.
  intros db. split.
  - apply (protected_routes_need_a_user Expense (mkSession None) "1" TxnBody.empty
             (UserBody.mk None None None None) db).
    + do 6 right. left. reflexivity.
    + left. reflexivity.
  - apply (protected_routes_need_a_user Expense (mkSession (Some 99)) "1" TxnBody.empty
             (UserBody.mk None None None None) db) with (uid := 99).
    + do 6 right. left. reflexivity.
    + reflexivity.
    + discriminate.
    + reflexivity.
    + intros u [<-|[<-|[]]]; discriminate.
Defined.

(** X5: a logout whose session is destroyed answers 200 and leaves a
    session that every protected route refuses with 401; when the session
    store fails to destroy it, the answer is 500 and the session stays as
    it was. *)
Theorem logout_unbinds_the_session
        (k : Kind) (sess : Session) (idParam : string) (tb : TxnBody.t)
        (ub : UserBody.t) (db : Db) (h : Db -> Outcome * Db) :
  In h (protectedRoutes k (snd (Routes.logout false sess)) idParam tb ub) ->
  fst (Routes.logout false sess) = reply 200 (Routes.message "Logged out successfully")
  /\ h db = (Sent notAuthenticated, db)
  /\ Routes.logout true sess = (reply 500 (Routes.message "Failed to logout"), sess).
Proof.
  intros Hin. split; [reflexivity|]. split; [|reflexivity].
  simpl in Hin.
  destruct Hin as [<-|[<-|[<-|[<-|[<-|[<-|[<-|[]]]]]]]];
    apply authenticate_no_session; left; reflexivity.
Qed.

(** The admin logs out and asks for the expenses. *)
Lemma logout_unbinds_the_session_witness :
  Routes.getExpenses (snd (Routes.logout false adminSession)) bootDb
  = (Sent notAuthenticated, bootDb).
Proof.
  apply (logout_unbinds_the_session Expense adminSession "1" TxnBody.empty
           (UserBody.mk None None None None) bootDb).
  do 2 right. left. reflexivity.
Defined.

(** X6: a request to a writing route (POST /api/users, POST, PUT and
    DELETE on expenses and gains) that is not answered with a success
    status, or not answered at all, leaves the rows of all three tables as
    they were. *)
Theorem failed_requests_store_nothing
        (k : Kind) (sess : Session) (idParam : string) (tb : TxnBody.t)
        (ub : UserBody.t) (db db' : Db) (h : Db -> Outcome * Db) (o : Outcome) :
  In h (writingRoutes k sess idParam tb ub) -> h db = (o, db') ->
  (forall r, o = Sent r -> ~ success r) ->
  sameRecords db db'.
Proof.
  intros Hin H Hno.
  destruct (writing_route_outcomes k sess idParam tb ub db db' h o Hin H)
    as [(r & Hr & Hs)|Hsame]; [|exact Hsame].
  destruct (Hno r Hr Hs).
Qed.

(** A second POST of an slNo already stored is refused with 500: the
    tables are as before. *)
Lemma failed_requests_store_nothing_witness :
  let db := stored Expense [sampleRow 1 "EXP001" "2024-03-01"] in
  sameRecords db (snd (Routes.postExpenses staffSession (sampleBody "EXP001") db)).
Proof.
  intros db.
  apply (failed_requests_store_nothing Expense staffSession "1" (sampleBody "EXP001")
           (UserBody.mk None None None None) db _
           (Routes.postTxn Expense staffSession (sampleBody "EXP001"))
           (Sent (reply 500 (Routes.message "Failed to create expense")))).
  - right. left. reflexivity.
  - reflexivity.
  - intros r [= <-]. unfold success. simpl. lia.
Defined.

(** ** Records through create, list, update and delete *)
Section Records.

Lemma sessionUser_same_users (sess : Session) (db db' : Db) :
  users db' = users db -> sessionUser sess db' = sessionUser sess db.
Proof.
  intros H. unfold sessionUser, Storage.getUser. rewrite H.
  destruct (userId sess) as [uid|]; [|reflexivity].
  destruct (uid =? 0); [reflexivity|]. destruct (Schema.int4 uid); reflexivity.
Qed.

Lemma getAll_bound (k : Kind) (sess : Session) (db : Db) (user : User.t) :
  sessionUser sess db = Some user ->
  Routes.getAll k sess db
  = (Sent (reply 200 (JArr (map Routes.txnJson (Storage.orderByDateDesc (rows k db))))),
     db).
Proof.
  intros Hu. unfold Routes.getAll.
  rewrite (authenticate_bound _ _ user) by exact Hu. reflexivity.
Qed.

Lemma postTxn_success (k : Kind) (sess : Session) (b : TxnBody.t) (db db' : Db)
      (r : Response) :
  Routes.postTxn k sess b db = (Sent r, db') -> success r ->
  exists user ins row,
    sessionUser sess db = Some user
    /\ Schema.parseInsertTxn (TxnBody.withCreatedBy (User.id user) b) = Ok ins
    /\ Storage.create k ins db = (Ok row, db')
    /\ r = reply 201 (Routes.txnJson row).
Proof.
  intros H Hs.
  destruct (authenticate_cases sess db _ : _ \/ exists o, Routes.postTxn k sess b db = _ /\ _)
    as [(user & Hu & _)|(o1 & Ho1 & Hno)].
  - rewrite (postTxn_bound k sess db user b Hu) in H. cbv zeta in H.
    destruct (Schema.parseInsertTxn _) as [ins|e] eqn:Hp.
    + destruct (Storage.create k ins db) as [[row|e] d1] eqn:Hc.
      * injection H as <- <-. exists user, ins, row. auto.
      * injection H as <- _. unfold success in Hs. destruct e; simpl in Hs; lia.
    + injection H as <- _. unfold success in Hs. destruct e; simpl in Hs; lia.
  - rewrite Ho1 in H. injection H as -> _. destruct (Hno r eq_refl Hs).
Qed.

Lemma create_accepted (k : Kind) (ins : InsertTxn.t) (db db' : Db) (row : Txn.t) :
  Storage.create k ins db = (Ok row, db') ->
  Schema.txnsOk (rows k db') = true /\ users db' = users db.
Proof.
  unfold Storage.create. intros H.
  destruct (Pg.prepare _); [discriminate|].
  destruct (negb (Schema.int4 _)); [discriminate|].
  destruct (Schema.txnsOk _) eqn:E; [|discriminate].
  injection H as _ <-. rewrite rows_setRows. split; [exact E|].
  destruct k; reflexivity.
Qed.

Lemma getById_stored (k : Kind) (db : Db) (row : Txn.t) :
  Schema.txnsOk (rows k db) = true -> In row (rows k db) ->
  Storage.getById k (Txn.id row) db = (Ok (Some row), db).
Proof.
  intros Hok Hin. destruct (find_by_id _ _ Hok Hin) as [Hf Hrow].
  unfold Storage.getById. rewrite (txnOk_id _ Hrow), Hf. reflexivity.
Qed.

(** Under the primary key, the rows with a stored row's id are that row
    alone. *)
Lemma filter_by_id (l : list Txn.t) (row : Txn.t) :
  Schema.txnsOk l = true -> In row l ->
  filter (fun r => Txn.id r =? Txn.id row) l = [row].
Proof.
  unfold Schema.txnsOk. intros Hok. apply andb_true_iff in Hok as [Hok _].
  apply andb_true_iff in Hok as [Hids _]. revert Hids.
  induction l as [|y l IH]; simpl; [tauto|]. intros Hd Hin.
  apply andb_true_iff in Hd as [Hy Hd]. apply negb_true_iff in Hy.
  assert (Hnone : forall r, In r l -> (Txn.id r =? Txn.id y) = false).
  { intros r Hr. apply Z.eqb_neq. intros E.
    rewrite (existsb_eqb_In Z.eqb Z.eqb_eq) in Hy; [discriminate|].
    rewrite <- E. apply in_map. exact Hr. }
  destruct Hin as [->|Hin].
  - rewrite Z.eqb_refl. f_equal.
    clear IH Hd Hy. induction l as [|z l IHl]; simpl; [reflexivity|].
    rewrite (Hnone z) by (left; reflexivity). apply IHl.
    intros r Hr. apply Hnone. right. exact Hr.
  - rewrite Z.eqb_sym, (Hnone row Hin). apply IH; assumption.
Qed.

Lemma In_rows_same_id (l : list Txn.t) (r row : Txn.t) :
  Schema.txnsOk l = true -> In r l -> In row l -> Txn.id r = Txn.id row -> r = row.
Proof.
  intros Hok Hr Hrow E.
  destruct (find_by_id l r Hok Hr) as [Fr _], (find_by_id l row Hok Hrow) as [Frow _].
  rewrite E in Fr. congruence.
Qed.

Lemma filter_length_split {A} (p : A -> bool) (l : list A) :
  (List.length (filter p l) + List.length (filter (fun x => negb (p x)) l) = List.length l)%nat.
Proof.
  induction l as [|x l IH]; simpl; [reflexivity|].
  destruct (p x); simpl; lia.
Qed.

Lemma filter_none {A} (p : A -> bool) (l : list A) :
  filter p l = [] -> filter (fun x => negb (p x)) l = l.
Proof.
  induction l as [|x l IH]; simpl; [reflexivity|].
  destruct (p x); [discriminate|]. intros H. simpl. rewrite IH by exact H. reflexivity.
Qed.

Lemma apply_twice (patch : TxnBody.t) (r : Txn.t) :
  TxnBody.apply patch (TxnBody.apply patch r) = TxnBody.apply patch r.
Proof.
  destruct patch as [[?|] [?|] [?|] [?|] [?|] [?|] [?|] [?|] [?|] [?|]]; reflexivity.
Qed.

Lemma apply_keeps_id (patch : TxnBody.t) (r : Txn.t) :
  TxnBody.id patch = None -> Txn.id (TxnBody.apply patch r) = Txn.id r.
Proof. unfold TxnBody.apply. intros ->. reflexivity. Qed.

Lemma patched_twice (id : Z) (patch : TxnBody.t) (l : list Txn.t) :
  TxnBody.id patch = None ->
  patched id patch (patched id patch l) = patched id patch l.
Proof.
  intros Hid. unfold patched. rewrite map_map. apply map_ext. intros r.
  destruct (Txn.id r =? id) eqn:E.
  - rewrite apply_keeps_id, E by exact Hid. apply apply_twice.
  - rewrite E. reflexivity.
Qed.

Lemma find_patched (id : Z) (patch : TxnBody.t) (l : list Txn.t) :
  TxnBody.id patch = None ->
  find (fun r => Txn.id r =? id) (patched id patch l)
  = option_map (TxnBody.apply patch) (find (fun r => Txn.id r =? id) l).
Proof.
  intros Hid. induction l as [|r l IH]; simpl; [reflexivity|].
  destruct (Txn.id r =? id) eqn:E.
  - rewrite apply_keeps_id, E by exact Hid. reflexivity.
  - rewrite E. exact IH.
Qed.

Lemma setRows_twice (k : Kind) (l l' : list Txn.t) (db : Db) :
  setRows k l' (setRows k l db) = setRows k l' db.
Proof. destruct k; reflexivity. Qed.

End Records.

(** X7: after a successful POST /api/expenses or /api/gains the table
    holds the returned record besides the records it held before; the
    record is found by its id, and it is among the items that the list
    route returns next, which is one item longer than the table was. *)
Theorem created_record_is_listed
        (k : Kind) (sess : Session) (b : TxnBody.t) (db db' : Db) (r : Response) :
  Routes.postTxn k sess b db = (Sent r, db') -> success r ->
  exists row items,
    r = reply 201 (Routes.txnJson row)
    /\ Permutation (row :: rows k db) (rows k db')
    /\ Storage.getById k (Txn.id row) db' = (Ok (Some row), db')
    /\ Routes.getAll k sess db' = (Sent (reply 200 (JArr items)), db')
    /\ In (Routes.txnJson row) items
    /\ List.length items = S (List.length (rows k db)).
Proof.
  intros H Hs.
  destruct (postTxn_success k sess b db db' r H Hs) as (user & ins & row & Hu & _ & Hc & ->).
  destruct (create_accepted k ins db db' row Hc) as [Hok Husers].
  destruct (create_ok k ins db db' row Hc) as (Hrows & _).
  assert (Hin : In row (rows k db'))
    by (rewrite Hrows; apply in_or_app; right; left; reflexivity).
  exists row, (map Routes.txnJson (Storage.orderByDateDesc (rows k db'))).
  split; [reflexivity|].
  split; [rewrite Hrows; apply Permutation_cons_append|].
  split; [apply getById_stored; assumption|]. split.
  - apply (getAll_bound k sess db' user).
    rewrite (sessionUser_same_users sess db db' Husers). exact Hu.
  - split.
    + apply in_map. apply (Permutation_in _ (orderByDateDesc_perm _)). exact Hin.
    + rewrite List.length_map, <- (Permutation_length (orderByDateDesc_perm _)), Hrows.
      rewrite List.length_app. simpl. lia.
Qed.

(** The first expense posted by the staff account is then listed. *)
Lemma created_record_is_listed_witness :
  let out := Routes.postExpenses staffSession (sampleBody "EXP001") bootDb in
  exists row items,
    fst out = Sent (reply 201 (Routes.txnJson row))
    /\ Routes.getExpenses staffSession (snd out) = (Sent (reply 200 (JArr items)), snd out)
    /\ In (Routes.txnJson row) items /\ List.length items = 1%nat.
Proof.
  intros out.
  destruct (created_record_is_listed Expense staffSession (sampleBody "EXP001") bootDb
              (snd out) (reply 201 (Routes.txnJson
                 (Txn.mk 1 "EXP001" "2024-03-01" "10:30" "Rent" "Office" "March rent"
                         "cash" (1250 # 1) 2))))
    as (row & items & Hr & _ & _ & Hl & Hin & Hlen).
  - reflexivity.
  - unfold success. simpl. lia.
  - exists row, items.
    split; [exact (f_equal Sent Hr)|split; [exact Hl|split; [exact Hin|exact Hlen]]].
Defined.

(** X8: when an admin deletes a stored record, the answer is 200, the
    table loses exactly that record (every other record stays, the table
    is one shorter), the id is no longer found, and deleting it again is
    answered 404. *)
Theorem deleted_record_is_gone
        (k : Kind) (sess : Session) (db : Db) (user : User.t)
        (idParam : string) (row : Txn.t) :
  sessionUser sess db = Some user -> User.role user = "admin" ->
  Schema.txnsOk (rows k db) = true -> In row (rows k db) ->
  Js.parseInt idParam = Js.Num (Txn.id row) ->
  exists db',
    Routes.deleteTxn k sess idParam db
    = (Sent (reply 200 (Routes.message (Routes.Noun k ++ " deleted successfully"))), db')
    /\ (forall r, In r (rows k db') <-> In r (rows k db) /\ r <> row)
    /\ S (List.length (rows k db')) = List.length (rows k db)
    /\ Storage.getById k (Txn.id row) db' = (Ok None, db')
    /\ Routes.deleteTxn k sess idParam db'
       = (Sent (reply 404 (Routes.message (Routes.Noun k ++ " not found"))), db').
Proof.
  intros Hu Ha Hok Hin Hid.
  pose proof (getById_stored k db row Hok Hin) as Hget.
  assert (Hint : Schema.int4 (Txn.id row) = true).
  { unfold Storage.getById in Hget. destruct (Schema.int4 (Txn.id row)); [reflexivity|discriminate]. }
  set (keep := fun r => negb (Txn.id r =? Txn.id row)).
  assert (Hiff : forall r, In r (filter keep (rows k db)) <-> In r (rows k db) /\ r <> row).
  { intros r. rewrite filter_In. unfold keep. split; intros [Hr Hne]; split; try exact Hr.
    - intros ->. rewrite Z.eqb_refl in Hne. discriminate.
    - apply negb_true_iff, Z.eqb_neq. intros E.
      apply Hne. exact (In_rows_same_id _ _ _ Hok Hr Hin E). }
  assert (Hgone : find (fun r => Txn.id r =? Txn.id row) (filter keep (rows k db)) = None).
  { apply find_by_id_none. intros r Hr E. apply Hiff in Hr as [Hr Hne].
    apply Hne. exact (In_rows_same_id _ _ _ Hok Hr Hin E). }
  exists (setRows k (filter keep (rows k db)) db).
  assert (Hu' : sessionUser sess (setRows k (filter keep (rows k db)) db) = Some user)
    by (rewrite (sessionUser_same_users _ db) by apply users_setRows; exact Hu).
  rewrite (deleteTxn_admin k sess db user idParam Hu Ha).
  rewrite (deleteTxn_admin k sess _ user idParam Hu' Ha).
  rewrite Hid, Hget. unfold Storage.delete, Storage.getById.
  rewrite Hint, !rows_setRows, Hgone. cbn [negb].
  split; [reflexivity|]. split; [exact Hiff|]. split; [|split; reflexivity].
  pose proof (filter_length_split (fun r => Txn.id r =? Txn.id row) (rows k db)) as Hl.
  rewrite (filter_by_id _ _ Hok Hin) in Hl. simpl in Hl. unfold keep. lia.
Qed.

(** The admin deletes the second of three expenses. *)
Lemma deleted_record_is_gone_witness :
  let r1 := sampleRow 1 "EXP001" "2024-03-01" in
  let r2 := sampleRow 2 "EXP002" "2024-03-02" in
  let r3 := sampleRow 3 "EXP003" "2024-03-03" in
  let db := stored Expense [r1; r2; r3] in
  exists db',
    Routes.deleteExpense adminSession "2" db
    = (Sent (reply 200 (Routes.message "Expense deleted successfully")), db')
    /\ (forall r, In r (rows Expense db') <-> In r [r1; r2; r3] /\ r <> r2)
    /\ S (List.length (rows Expense db')) = 3%nat
    /\ Storage.getById Expense 2 db' = (Ok None, db')
    /\ Routes.deleteExpense adminSession "2" db'
       = (Sent (reply 404 (Routes.message "Expense not found")), db').
Proof.
  intros r1 r2 r3 db.
  apply (deleted_record_is_gone Expense adminSession db
           (User.mk 1 "admin" "786786" "Admin User" "admin") "2" r2);
    try reflexivity.
  right. left. reflexivity.
Defined.

(** X9: [deleteExpense]/[deleteGain] with an id in the key range return
    true exactly when a record had that id; the records with another id
    are the ones that stay, and a false result leaves the store as it
    was. *)
Theorem delete_reports_removal (k : Kind) (id : Z) (db : Db) :
  Schema.int4 id = true ->
  exists removed db',
    Storage.delete k id db = (Ok removed, db')
    /\ (removed = true <-> exists row, In row (rows k db) /\ Txn.id row = id)
    /\ (forall r, In r (rows k db') <-> In r (rows k db) /\ Txn.id r <> id)
    /\ (removed = false -> db' = db).
Proof.
  intros Hint. set (hit := fun r => Txn.id r =? id).
  exists (0 <? Z.of_nat (List.length (filter hit (rows k db)))),
         (setRows k (filter (fun r => negb (hit r)) (rows k db)) db).
  split; [unfold Storage.delete; rewrite Hint; reflexivity|].
  rewrite rows_setRows. split; [|split].
  - destruct (filter hit (rows k db)) as [|x l] eqn:E; simpl.
    + split; [discriminate|]. intros (row & Hin & Hid).
      assert (Hf : In row (filter hit (rows k db)))
        by (apply filter_In; split; [exact Hin|apply Z.eqb_eq; exact Hid]).
      rewrite E in Hf. destruct Hf.
    + split; [|reflexivity]. intros _. exists x.
      assert (Hf : In x (filter hit (rows k db))) by (rewrite E; left; reflexivity).
      apply filter_In in Hf as [Hin Hid]. apply Z.eqb_eq in Hid. auto.
  - intros r. rewrite filter_In. unfold hit.
    rewrite negb_true_iff, Z.eqb_neq. reflexivity.
  - intros H. destruct (filter hit (rows k db)) as [|x l] eqn:E; [|discriminate].
    rewrite (filter_none hit _ E). apply setRows_same.
Qed.

(** Deleting gain 2 of two gains, then deleting it again. *)
Lemma delete_reports_removal_witness :
  let db := stored Gain [sampleRow 1 "GN001" "2024-03-01"; sampleRow 2 "GN002" "2024-03-02"] in
  exists db',
    Storage.deleteGain 2 db = (Ok true, db')
    /\ rows Gain db' = [sampleRow 1 "GN001" "2024-03-01"]
    /\ Storage.deleteGain 2 db' = (Ok false, db').
Proof.
  intros db.
  destruct (delete_reports_removal Gain 2 db eq_refl) as (b & db' & H & _).
  exists db'. injection H as <- <-. repeat split.
Defined.

(** X10: [updateExpense]/[updateGain] never add or remove a record and
    never change a record with another id, whatever the map holds; when
    they throw, or find no record, the store is as it was. *)
Theorem update_touches_one_record (k : Kind) (id : Z) (patch : TxnBody.t) (db : Db) :
  List.length (rows k (snd (Storage.update k id patch db))) = List.length (rows k db)
  /\ (forall r, In r (rows k db) -> Txn.id r <> id ->
                In r (rows k (snd (Storage.update k id patch db))))
  /\ (forall e, fst (Storage.update k id patch db) = Throw e ->
                snd (Storage.update k id patch db) = db)
  /\ (fst (Storage.update k id patch db) = Ok None ->
      snd (Storage.update k id patch db) = db).
Proof.
  unfold Storage.update.
  destruct (TxnBody.isEmpty patch); [repeat split; auto; discriminate|].
  destruct (Pg.prepare _); [repeat split; auto; discriminate|].
  cbv zeta. set (set := Storage.assigned patch).
  fold (patched id set (rows k db)).
  destruct (Schema.txnsOk (patched id set (rows k db)));
    [|repeat split; auto; discriminate].
  cbn [fst snd]. rewrite rows_setRows. split; [|split; [|split]].
  - unfold patched. apply List.length_map.
  - intros r Hin Hne. unfold patched. apply in_map_iff. exists r.
    apply Z.eqb_neq in Hne. rewrite Hne. auto.
  - discriminate.
  - rewrite hd_error_map_filter. intros H.
    destruct (find _ (rows k db)) as [x|] eqn:E; [discriminate|].
    assert (Hmiss : forall r, In r (rows k db) -> Txn.id r <> id).
    { intros r Hr Hid. pose proof (find_none _ _ E r Hr) as Hf.
      apply Z.eqb_neq in Hf. exact (Hf Hid). }
    unfold patched.
    rewrite (update_rows_miss _ _ _ Hmiss). apply setRows_same.
Qed.

(** Renaming expense 2 leaves expense 1 in place; the empty map throws
    and changes nothing. *)
Lemma update_touches_one_record_witness :
  let r1 := sampleRow 1 "EXP001" "2024-03-01" in
  let db := stored Expense [r1; sampleRow 2 "EXP002" "2024-03-02"] in
  let patch := TxnBody.mk None None None None (Some "Tea") None None None None None in
  In r1 (rows Expense (snd (Storage.updateExpense 2 patch db)))
  /\ snd (Storage.updateExpense 2 TxnBody.empty db) = db.
Proof.
  intros r1 db patch. split.
  - apply (update_touches_one_record Expense 2 patch db).
    + left. reflexivity.
    + discriminate.
  - apply (proj1 (proj2 (proj2 (update_touches_one_record Expense 2 TxnBody.empty db)))
             (JsError "No values to set")).
    reflexivity.
Defined.

(** X11: a PUT whose body does not rewrite the id is idempotent: once it
    has succeeded, sending it again gives the same response and leaves the
    store as the first one left it. *)
Theorem put_is_idempotent
        (k : Kind) (sess : Session) (idParam : string) (patch : TxnBody.t)
        (db db' : Db) (r : Response) :
  TxnBody.id patch = None ->
  Routes.putTxn k sess idParam patch db = (Sent r, db') -> success r ->
  Routes.putTxn k sess idParam patch db' = (Sent r, db').
Proof.
  intros Hnoid H Hs.
  destruct (gated_cases sess db _ : _ \/ exists o, Routes.putTxn k sess idParam patch db = _ /\ _)
    as [(user & Hu & Ha)|(o1 & Ho1 & Hno)];
    [|rewrite Ho1 in H; injection H as -> _; destruct (Hno r eq_refl Hs)].
  assert (Hfail : forall s d, ~ (Sent (reply 500 s), d) = (Sent r, db')).
  { intros s d [= <- _]. unfold success in Hs. simpl in Hs. lia. }
  rewrite (putTxn_admin k sess db user idParam patch Hu Ha) in H.
  destruct (Js.parseInt idParam) as [|id] eqn:Hp;
    [injection H as <- _; unfold success in Hs; simpl in Hs; lia|].
  unfold Storage.getById in H.
  destruct (Schema.int4 id) eqn:Hint; [|destruct (Hfail _ _ H)].
  destruct (find (fun r0 => Txn.id r0 =? id) (rows k db)) as [x|] eqn:Hf;
    [|injection H as <- _; unfold success in Hs; simpl in Hs; lia].
  unfold Storage.update in H. cbv zeta in H.
  set (set := Storage.assigned patch) in *.
  assert (Hset : TxnBody.id set = None) by exact Hnoid.
  fold (patched id set (rows k db)) in H.
  destruct (TxnBody.isEmpty patch) eqn:He; [destruct (Hfail _ _ H)|].
  destruct (Pg.prepare (Storage.updateParams patch id)) eqn:Hprep;
    [destruct (Hfail _ _ H)|].
  destruct (Schema.txnsOk (patched id set (rows k db))) eqn:Hok;
    [|destruct (Hfail _ _ H)].
  rewrite hd_error_map_filter, Hf in H. injection H as <- <-.
  assert (Hu' : sessionUser sess (setRows k (patched id set (rows k db)) db) = Some user)
    by (rewrite (sessionUser_same_users _ db) by apply users_setRows; exact Hu).
  rewrite (putTxn_admin k sess _ user idParam patch Hu' Ha), Hp.
  unfold Storage.getById, Storage.update. rewrite Hint, He, Hprep, rows_setRows.
  cbv zeta. fold set. fold (patched id set (patched id set (rows k db))).
  rewrite (find_patched id set _ Hset), Hf. cbn [option_map].
  rewrite (patched_twice id set _ Hset), Hok, hd_error_map_filter.
  rewrite (find_patched id set _ Hset), Hf, setRows_twice. cbn [option_map].
  rewrite apply_twice. reflexivity.
Qed.

(** The admin renames expense 1 twice. *)
Lemma put_is_idempotent_witness :
  let db := stored Expense [sampleRow 1 "EXP001" "2024-03-01"] in
  let patch := TxnBody.mk None None None None (Some "Tea") None None None None None in
  let first := Routes.putExpense adminSession "1" patch db in
  Routes.putExpense adminSession "1" patch (snd first) = first.
Proof.
  intros db patch first.
  apply (put_is_idempotent Expense adminSession "1" patch db (snd first)
           (reply 200 (Routes.txnJson
              (Txn.mk 1 "EXP001" "2024-03-01" "10:30" "Tea" "Office" "March rent"
                      "cash" (1250 # 1) 2)))).
  - reflexivity.
  - reflexivity.
  - unfold success. simpl. lia.
Defined.

(** ** Accounts: login, the session and new users *)
Section Accounts.

Lemma getUser_stored (db : Db) (user : User.t) :
  Schema.usersOk (users db) = true -> In user (users db) ->
  Storage.getUser (User.id user) db = (Ok (Some user), db).
Proof.
  intros Hok Hin. unfold Storage.getUser.
  destruct (usersOk_In _ _ Hok Hin) as [-> _]. unfold Schema.usersOk in Hok.
  apply andb_true_iff in Hok as [Hok _]. apply andb_true_iff in Hok as [Hids _].
  rewrite (distinct_find Z.eqb User.id Z.eqb_eq _ _ Hids Hin). reflexivity.
Qed.

Lemma find_app_none {A} (p : A -> bool) (l l' : list A) :
  find p l = None -> find p (l ++ l') = find p l'.
Proof.
  induction l as [|y l IH]; simpl; [reflexivity|].
  destruct (p y); [discriminate|exact IH].
Qed.

Lemma find_exists {A} (p : A -> bool) (l : list A) (x : A) :
  In x l -> p x = true -> exists y, find p l = Some y.
Proof.
  induction l as [|y l IH]; simpl; [tauto|]. intros [->|Hin] Hp.
  - rewrite Hp. eauto.
  - destruct (p y); eauto.
Qed.

(** A successful POST /api/users: the handler found no user of that name
    and [createUser] accepted the row. *)
Lemma postUsers_created (sess : Session) (ub : UserBody.t) (db db' : Db) (r : Response) :
  Routes.postUsers sess ub db = (Sent r, db') -> success r ->
  exists userData newUser,
    Schema.parseInsertUser ub = Ok userData
    /\ find (fun u => String.eqb (User.username u) (InsertUser.username userData))
            (users db) = None
    /\ Storage.createUser userData db = (Ok newUser, db')
    /\ r = reply 201 (Routes.userInfo newUser).
Proof.
  intros H Hs.
  destruct (postUsers_success sess ub db db' r H Hs) as (ud & nu & Hp & Hg & Hc & ->).
  exists ud, nu. split; [exact Hp|]. split; [|auto].
  rewrite getUserByUsername_eq in Hg.
  destruct (Schema.text _); [|discriminate]. injection Hg as Hg. exact Hg.
Qed.

(** A user that [createUser] accepted has a username that can be looked
    up. *)
Lemma createUser_text (iu : InsertUser.t) (db db' : Db) (user : User.t) :
  Storage.createUser iu db = (Ok user, db') ->
  Schema.text (InsertUser.username iu) = true.
Proof.
  unfold Storage.createUser. intros H.
  destruct (Pg.prepare _) eqn:E; [discriminate|].
  apply (prepare_text _ _ E). left. left. reflexivity.
Qed.

End Accounts.

(** X12: after a successful login the session is bound to the user who
    logged in: GET /api/users/me answers 200 with the same body as the
    login did.  The one exception the code makes is a user whose id is 0,
    whose session [authenticate] takes for absent. *)
Theorem login_binds_the_session (db : Db) (sess : Session) (user : User.t) :
  Schema.usersOk (users db) = true -> In user (users db) ->
  User.username user <> "" -> User.password user <> "" ->
  exists sess',
    Routes.login (LoginBody.mk (Some (User.username user)) (Some (User.password user)))
                 sess db
    = (reply 200 (Routes.userInfo user), db, sess')
    /\ (User.id user <> 0 ->
        sessionUser sess' db = Some user
        /\ Routes.getMe sess' db = (Sent (reply 200 (Routes.userInfo user)), db))
    /\ (User.id user = 0 -> Routes.getMe sess' db = (Sent notAuthenticated, db)).
Proof.
  intros Hok Hin Hu Hp. exists (mkSession (Some (User.id user))).
  rewrite login_nonempty by assumption.
  rewrite getUserByUsername_stored by assumption.
  rewrite String.eqb_refl. cbn [negb]. split; [reflexivity|]. split.
  - intros Hz.
    assert (Hs : sessionUser (mkSession (Some (User.id user))) db = Some user).
    { unfold sessionUser. cbn [userId]. apply Z.eqb_neq in Hz. rewrite Hz.
      rewrite getUser_stored by assumption. reflexivity. }
    split; [exact Hs|]. unfold Routes.getMe.
    rewrite (authenticate_bound _ _ user) by exact Hs. reflexivity.
  - intros Hz. apply authenticate_no_session. right. cbn [userId]. rewrite Hz. reflexivity.
Qed.

(** The staff account logs in and reads its own record. *)
Lemma login_binds_the_session_witness :
  let staff := User.mk 2 "staff1" "1234" "Staff User" "staff" in
  exists sess',
    Routes.login (LoginBody.mk (Some "staff1") (Some "1234")) (mkSession None) bootDb
    = (reply 200 (Routes.userInfo staff), bootDb, sess')
    /\ Routes.getMe sess' bootDb = (Sent (reply 200 (Routes.userInfo staff)), bootDb).
Proof.
  intros staff.
  destruct (login_binds_the_session bootDb (mkSession None) staff)
    as (sess' & Hl & Hme & _); try reflexivity; try discriminate.
  - right. left. reflexivity.
  - exists sess'. split; [exact Hl|]. apply Hme. discriminate.
Defined.

(** X13: POST /api/users by an admin is answered 400 "Username already
    exists" when a user of that name is stored (in a store that meets the
    schema's constraints, so that the stored name can be looked up), and
    400 with a validation message when username, password or name is
    absent; neither stores anything. *)
Theorem post_users_refusals
        (sess : Session) (db : Db) (admin : User.t) (ub : UserBody.t) :
  sessionUser sess db = Some admin -> User.role admin = "admin" ->
  (forall userData user,
      Schema.usersOk (users db) = true ->
      Schema.parseInsertUser ub = Ok userData ->
      In user (users db) -> User.username user = InsertUser.username userData ->
      Routes.postUsers sess ub db
      = (Sent (reply 400 (Routes.message "Username already exists")), db))
  /\ (UserBody.username ub = None \/ UserBody.password ub = None
      \/ UserBody.name ub = None ->
      exists fields,
        fields <> []
        /\ Routes.postUsers sess ub db
           = (Sent (reply 400 (Routes.message (Routes.fromZodError fields))), db)).
Proof.
  intros Hu Ha. rewrite (postUsers_admin sess ub db admin Hu Ha). cbv zeta. split.
  - intros userData user Hok Hp Hin Hname. rewrite Hp, getUserByUsername_eq.
    destruct (usersOk_In _ _ Hok Hin) as [_ Ht]. rewrite Hname in Ht. rewrite Ht.
    destruct (find_exists (fun u => String.eqb (User.username u) (InsertUser.username userData))
                (users db) user Hin) as [y Hy].
    + apply String.eqb_eq. exact Hname.
    + rewrite Hy. reflexivity.
  - intros H. unfold Schema.parseInsertUser, Schema.required.
    destruct (UserBody.username ub), (UserBody.password ub), (UserBody.name ub);
      try (eexists; split; [|reflexivity]; discriminate).
    destruct H as [H|[H|H]]; discriminate.
Qed.

(** The admin posts a second "staff1", and a body without a password. *)
Lemma post_users_refusals_witness :
  Routes.postUsers adminSession
    (UserBody.mk (Some "staff1") (Some "pw") (Some "Other") None) bootDb
  = (Sent (reply 400 (Routes.message "Username already exists")), bootDb)
  /\ exists fields,
       Routes.postUsers adminSession
         (UserBody.mk (Some "clerk") None (Some "Clerk") None) bootDb
       = (Sent (reply 400 (Routes.message (Routes.fromZodError fields))), bootDb).
Proof.
  split.
  - apply (proj1 (post_users_refusals adminSession bootDb
                    (User.mk 1 "admin" "786786" "Admin User" "admin")
                    (UserBody.mk (Some "staff1") (Some "pw") (Some "Other") None)
                    eq_refl eq_refl)
             (InsertUser.mk "staff1" "pw" "Other" None)
             (User.mk 2 "staff1" "1234" "Staff User" "staff")).
    + reflexivity.
    + reflexivity.
    + right. left. reflexivity.
    + reflexivity.
  - destruct (proj2 (post_users_refusals adminSession bootDb
                       (User.mk 1 "admin" "786786" "Admin User" "admin")
                       (UserBody.mk (Some "clerk") None (Some "Clerk") None)
                       eq_refl eq_refl)) as (fields & _ & H).
    + right. left. reflexivity.
    + exists fields. exact H.
Defined.

(** X14: the user that a successful POST /api/users stores can log in
    with the username and password that were posted (when neither is
    empty) and gets the body the POST returned; and every login that
    succeeded before still succeeds, with the same response, after it. *)
Theorem created_user_can_log_in
        (sess : Session) (ub : UserBody.t) (db db' : Db) (r : Response) :
  Routes.postUsers sess ub db = (Sent r, db') -> success r ->
  exists newUser,
    r = reply 201 (Routes.userInfo newUser)
    /\ users db' = (users db ++ [newUser])%list
    /\ UserBody.username ub = Some (User.username newUser)
    /\ UserBody.password ub = Some (User.password newUser)
    /\ (User.username newUser <> "" -> User.password newUser <> "" ->
        forall s,
          Routes.login (LoginBody.mk (UserBody.username ub) (UserBody.password ub)) s db'
          = (reply 200 (Routes.userInfo newUser), db', mkSession (Some (User.id newUser))))
    /\ (forall lb s r0 s',
           Routes.login lb s db = (r0, db, s') -> success r0 ->
           Routes.login lb s db' = (r0, db', s')).
Proof.
  intros H Hs.
  destruct (postUsers_created sess ub db db' r H Hs) as (ud & nu & Hp & Hnone & Hc & ->).
  destruct (parseInsertUser_fields ub ud Hp) as (Hbu & Hbp & _).
  destruct (createUser_ok ud db db' nu Hc) as (Husers & _ & Hun & Hpw).
  exists nu. split; [reflexivity|]. split; [exact Husers|].
  rewrite Hbu, Hbp, <- Hun, <- Hpw. split; [reflexivity|]. split; [reflexivity|]. split.
  - intros Hne Hpe s. rewrite login_nonempty by assumption.
    rewrite getUserByUsername_eq, Hun, (createUser_text ud db db' nu Hc).
    rewrite Husers, find_app_none by exact Hnone.
    cbn [find]. rewrite <- Hun, !String.eqb_refl. reflexivity.
  - clear Hnone Hc H. intros lb s r0 s' Hl Hs0.
    unfold Routes.login in *. rewrite !getUserByUsername_eq in *.
    destruct (Routes.missing (LoginBody.username lb) || Routes.missing (LoginBody.password lb));
      [injection Hl as <- _; unfold success in Hs0; simpl in Hs0; lia|].
    destruct (Schema.text (Routes.text (LoginBody.username lb)));
      [|injection Hl as <- _; unfold success in Hs0; simpl in Hs0; lia].
    destruct (find (fun u => String.eqb (User.username u)
                                        (Routes.text (LoginBody.username lb)))
                   (users db)) as [u|] eqn:Hf;
      [|injection Hl as <- _; unfold success in Hs0; simpl in Hs0; lia].
    rewrite Husers, (find_app_found _ _ _ _ Hf).
    destruct (negb (String.eqb (User.password u) (Routes.text (LoginBody.password lb))));
      injection Hl as <- <-; reflexivity.
Qed.

(** The admin creates "clerk", who then logs in; the staff account
    still logs in as before. *)
Lemma created_user_can_log_in_witness :
  let ub := UserBody.mk (Some "clerk") (Some "s3cret") (Some "Clerk") None in
  let clerk := User.mk 3 "clerk" "s3cret" "Clerk" "staff" in
  let db' := snd (Routes.postUsers adminSession ub bootDb) in
  Routes.login (LoginBody.mk (Some "clerk") (Some "s3cret")) (mkSession None) db'
  = (reply 200 (Routes.userInfo clerk), db', mkSession (Some 3)).
Proof.
  intros ub clerk db'.
  destruct (created_user_can_log_in adminSession ub bootDb db'
              (reply 201 (Routes.userInfo clerk)))
    as (nu & Hr & Husers & _ & _ & Hlogin & _).
  - reflexivity.
  - unfold success. simpl. lia.
  - assert (E : nu = clerk).
    { assert (Hl := f_equal (fun l => last l clerk) Husers).
      cbv beta in Hl. rewrite last_last in Hl. symmetry. exact Hl. }
    subst nu. apply Hlogin; discriminate.
Defined.

(** ** The seeded accounts *)
Section DefaultAccounts.

Lemma createIfAbsent_ok (u : InsertUser.t) (db db' : Db) :
  Storage.createIfAbsent u db = (Ok tt, db') ->
  let named := fun x => String.eqb (User.username x) (InsertUser.username u) in
  onlyUsers db db'
  /\ (forall x, find named (users db) = Some x -> db' = db)
  /\ (find named (users db) = None ->
      exists nu,
        find named (users db') = Some nu
        /\ User.password nu = InsertUser.password u
        /\ User.role nu = Storage.roleOrStaff (InsertUser.role u)).
Proof.
  unfold Storage.createIfAbsent, bind, ret. rewrite getUserByUsername_eq. cbv zeta.
  destruct (Schema.text (InsertUser.username u)); [|discriminate].
  destruct (find _ (users db)) as [x|] eqn:Hf.
  - intros [= <-]. split; [apply onlyUsers_refl|]. split; [reflexivity|discriminate].
  - destruct (Storage.createUser u db) as [[nu|e] d1] eqn:Hc; [|discriminate].
    intros [= <-]. split.
    + pose proof (onlyUsers_createUser u db) as H. rewrite Hc in H. exact H.
    + split; [discriminate|]. intros _.
      destruct (createUser_ok u db d1 nu Hc) as (Husers & Hr & Hn & Hp).
      exists nu. rewrite Husers, find_app_none by exact Hf. cbn [find].
      rewrite Hn, String.eqb_refl. auto.
Qed.

Lemma createIfAbsent_present (u : InsertUser.t) (db : Db) (x : User.t) :
  Schema.text (InsertUser.username u) = true ->
  find (fun y => String.eqb (User.username y) (InsertUser.username u)) (users db) = Some x ->
  Storage.createIfAbsent u db = (Ok tt, db).
Proof.
  intros Ht H. unfold Storage.createIfAbsent, bind, ret.
  rewrite getUserByUsername_eq, Ht, H. reflexivity.
Qed.

End DefaultAccounts.

(** X15: when the start-up step [initializeDefaultUsers] succeeds, the
    accounts "admin" and "staff1" exist, the users present before are all
    kept in place and the other tables are untouched; an "admin" that
    existed before is still the account found under that name, one that
    did not is created with password 786786 and role admin; and running
    the step again changes nothing. *)
Theorem default_accounts_are_seeded_once (db db' : Db) :
  Storage.initializeDefaultUsers db = (Ok tt, db') ->
  onlyUsers db db'
  /\ (exists a, Storage.getUserByUsername "admin" db' = (Ok (Some a), db'))
  /\ (exists s, Storage.getUserByUsername "staff1" db' = (Ok (Some s), db'))
  /\ (forall x,
         Storage.getUserByUsername "admin" db = (Ok (Some x), db) ->
         Storage.getUserByUsername "admin" db' = (Ok (Some x), db'))
  /\ (Storage.getUserByUsername "admin" db = (Ok None, db) ->
      exists a,
        Storage.getUserByUsername "admin" db' = (Ok (Some a), db')
        /\ User.password a = "786786" /\ User.role a = "admin")
  /\ Storage.initializeDefaultUsers db' = (Ok tt, db').
Proof.
  unfold Storage.initializeDefaultUsers, bind.
  set (adminU := InsertUser.mk "admin" "786786" "Admin User" (Some "admin")).
  set (staffU := InsertUser.mk "staff1" "1234" "Staff User" (Some "staff")).
  destruct (Storage.createIfAbsent adminU db) as [[[]|e] db1] eqn:H1; [|discriminate].
  intros H2.
  destruct (createIfAbsent_ok adminU db db1 H1) as (G1 & P1 & N1).
  destruct (createIfAbsent_ok staffU db1 db' H2) as (G2 & P2 & N2).
  cbv zeta in *. cbn [InsertUser.username adminU staffU] in *.
  assert (Hadd : exists added, users db' = (users db1 ++ added)%list) by apply G2.
  destruct Hadd as [added Hadd].
  assert (Hadmin1 : exists a, find (fun x => String.eqb (User.username x) "admin")
                                   (users db1) = Some a
                              /\ (find (fun x => String.eqb (User.username x) "admin")
                                       (users db) = None ->
                                  User.password a = "786786" /\ User.role a = "admin")
                              /\ (forall x, find (fun x => String.eqb (User.username x) "admin")
                                                 (users db) = Some x -> a = x)).
  { destruct (find (fun x => String.eqb (User.username x) "admin") (users db))
      as [x|] eqn:Hf.
    - rewrite (P1 x eq_refl), Hf. exists x. split; [reflexivity|].
      split; [discriminate|]. intros y [= ->]. reflexivity.
    - destruct (N1 eq_refl) as (nu & Hnu & Hp & Hr). exists nu.
      split; [exact Hnu|]. split; [auto|discriminate]. }
  destruct Hadmin1 as (a & Ha1 & Hnew & Hold).
  assert (Ha : find (fun x => String.eqb (User.username x) "admin") (users db') = Some a)
    by (rewrite Hadd; apply find_app_found; exact Ha1).
  assert (Hs : exists s, find (fun x => String.eqb (User.username x) "staff1")
                              (users db') = Some s).
  { destruct (find (fun x => String.eqb (User.username x) "staff1") (users db1))
      as [x|] eqn:Hf.
    - rewrite (P2 x eq_refl), Hf. eauto.
    - destruct (N2 eq_refl) as (nu & Hnu & _). eauto. }
  destruct Hs as [s Hs].
  rewrite !getUserByUsername_eq.
  change (Schema.text "admin") with true. change (Schema.text "staff1") with true.
  cbv iota.
  split; [exact (onlyUsers_trans _ _ _ G1 G2)|].
  split; [exists a; rewrite Ha; reflexivity|].
  split; [exists s; rewrite Hs; reflexivity|].
  split; [|split].
  - intros x [= Hx]. rewrite Ha, (Hold x Hx). reflexivity.
  - intros [= Hx]. exists a. rewrite Ha. split; [reflexivity|apply Hnew; exact Hx].
  - rewrite (createIfAbsent_present adminU db' a eq_refl Ha).
    exact (createIfAbsent_present staffU db' s eq_refl Hs).
Qed.

(** From the empty store the step seeds the two accounts; on the seeded
    store it is a no-op. *)
Lemma default_accounts_are_seeded_once_witness :
  (exists a,
      Storage.getUserByUsername "admin" bootDb = (Ok (Some a), bootDb)
      /\ User.password a = "786786" /\ User.role a = "admin")
  /\ Storage.initializeDefaultUsers bootDb = (Ok tt, bootDb).
Proof.
  destruct (default_accounts_are_seeded_once emptyDb bootDb eq_refl)
    as (_ & _ & _ & _ & Hnew & Hagain).
  split; [apply Hnew; reflexivity|exact Hagain].
Defined.

(** ** Identifiers *)
Section Identifiers.

Lemma fold_max_start (vs : list Z) (v : Z) : v <= fold_left Z.max vs v.
Proof.
  revert v. induction vs as [|w vs IH]; intros v; simpl; [lia|].
  specialize (IH (Z.max v w)). lia.
Qed.

Lemma fold_max_ge (vs : list Z) (v x : Z) :
  In x (v :: vs) -> x <= fold_left Z.max vs v.
Proof.
  intros [->|H]; [apply fold_max_start|].
  revert v. induction vs as [|w vs IH]; intros v; simpl; [destruct H|].
  destruct H as [->|H]; [|apply IH; exact H].
  pose proof (fold_max_start vs (Z.max v x)). lia.
Qed.

Lemma decimalValue_padded (n : Z) :
  0 <= n -> decimalValue (Js.padStart 3 "0" (Js.toString (Js.Num n))) = n.
Proof.
  intros Hn. destruct (toString_nonneg n Hn) as (_ & Hd & Hv).
  destruct (padStart3_digits _ Hd) as (_ & _ & Hv'). congruence.
Qed.

Lemma seqsGrow_refl (db : Db) : seqsGrow db db.
Proof. unfold seqsGrow. lia. Qed.

Lemma seqsGrow_trans (a b c : Db) : seqsGrow a b -> seqsGrow b c -> seqsGrow a c.
Proof. unfold seqsGrow. lia. Qed.

Lemma seqsGrow_createUser (u : InsertUser.t) : respects seqsGrow (Storage.createUser u).
Proof.
  intros db. unfold Storage.createUser, seqsGrow.
  destruct (Pg.prepare _); [simpl; lia|].
  destruct (negb (Schema.int4 _)); [simpl; lia|].
  destruct (Schema.usersOk _); simpl; lia.
Qed.

Lemma seqsGrow_create (k : Kind) (ins : InsertTxn.t) :
  respects seqsGrow (Storage.create k ins).
Proof.
  intros db. unfold Storage.create, seqsGrow.
  destruct (Pg.prepare _); [simpl; lia|].
  destruct (negb (Schema.int4 _)); [simpl; lia|].
  destruct (Schema.txnsOk _), k; simpl; lia.
Qed.

Lemma seqsGrow_update (k : Kind) (id : Z) (patch : TxnBody.t) :
  respects seqsGrow (Storage.update k id patch).
Proof.
  intros db. unfold Storage.update, seqsGrow.
  destruct (TxnBody.isEmpty patch); [simpl; lia|].
  destruct (Pg.prepare _); [simpl; lia|].
  destruct (Schema.txnsOk _), k; simpl; lia.
Qed.

Lemma seqsGrow_delete (k : Kind) (id : Z) : respects seqsGrow (Storage.delete k id).
Proof.
  intros db. unfold Storage.delete, seqsGrow.
  destruct (negb (Schema.int4 id)), k; simpl; lia.
Qed.

Lemma seqsGrow_route (h : Db -> Outcome * Db) : isRoute h -> respects seqsGrow h.
Proof.
  intros (k & sess & idParam & tb & ub & Hin).
  apply (respects_routes seqsGrow seqsGrow_refl seqsGrow_trans k sess idParam tb ub);
    try assumption; intros.
  - apply seqsGrow_createUser.
  - apply seqsGrow_create.
  - apply seqsGrow_update.
  - apply seqsGrow_delete.
Qed.

Lemma seqsGrow_runAll (hs : list (Db -> Outcome * Db)) (db : Db) :
  Forall isRoute hs -> seqsGrow db (runAll hs db).
Proof.
  revert db. induction hs as [|h hs IH]; intros db H; simpl.
  - apply seqsGrow_refl.
  - inversion H as [|? ? Hh Hhs]; subst.
    eapply seqsGrow_trans; [apply (seqsGrow_route h Hh db)|apply IH, Hhs].
Qed.

Lemma seqsGrow_seq (k : Kind) (db db' : Db) : seqsGrow db db' -> seq k db <= seq k db'.
Proof. intros (_ & He & Hg). destruct k; assumption. Qed.

Lemma create_seq (k : Kind) (ins : InsertTxn.t) (db db' : Db) (row : Txn.t) :
  Storage.create k ins db = (Ok row, db') ->
  Txn.id row = seq k db + 1 /\ seq k db' = seq k db + 1.
Proof.
  unfold Storage.create.
  destruct (Pg.prepare _); [discriminate|].
  destruct (negb (Schema.int4 _)); [discriminate|].
  destruct (Schema.txnsOk _); [|discriminate].
  intros [= <- <-]. destruct k; split; reflexivity.
Qed.

Lemma txnJson_id (r r' : Txn.t) :
  Routes.txnJson r = Routes.txnJson r' -> Txn.id r = Txn.id r'.
Proof.
  unfold Routes.txnJson, Txn.toObj, JInt, inject_Z. intros [= H _]. exact H.
Qed.

(** [authenticate] depends on its continuation only through the user it
    hands on. *)
Lemma authenticate_ext (sess : Session) (db : Db)
      (next next' : User.t -> Db -> Outcome * Db) :
  (forall user, sessionUser sess db = Some user -> next user db = next' user db) ->
  Routes.authenticate sess next db = Routes.authenticate sess next' db.
Proof.
  intros H. destruct (sessionUser sess db) as [user|] eqn:E.
  - rewrite !(authenticate_bound _ _ user) by exact E. apply H. reflexivity.
  - unfold sessionUser in E. unfold Routes.authenticate.
    destruct (userId sess) as [uid|]; [|reflexivity].
    destruct (uid =? 0); [reflexivity|].
    destruct (Storage.getUser uid db) as [[[user|]|e] d]; [discriminate|reflexivity..].
Qed.

End Identifiers.

(** X16: while every stored counter has three digits, the id that
    next-slno computes is carried by no stored record of the kind, so a
    record created with it keeps the slNo values distinct. *)
Theorem next_id_is_unused (k : Kind) (db : Db) :
  Forall (fun r => threeDigits k (Txn.slNo r)) (rows k db) ->
  exists slNo,
    Storage.nextSequentialId k db = (Ok slNo, db)
    /\ forall r, In r (rows k db) -> Txn.slNo r <> slNo.
Proof.
  intros Hall. exists (nextSequentialId_spec k db).
  split; [apply nextSequentialId_three_digits; exact Hall|].
  intros r Hin E. rewrite Forall_forall in Hall.
  destruct (Hall r Hin) as (ds & Hs & Hd & _).
  assert (Hv : In (decimalValue ds) (suffixValues k db)).
  { unfold suffixValues. apply in_map_iff. exists r.
    rewrite Hs, substringFrom_prefix by exact Hd. auto. }
  assert (Hpos : Forall (fun v => 0 <= v) (suffixValues k db)).
  { unfold suffixValues. apply Forall_map, Forall_forall. intros r0 Hr0.
    destruct (Hall r0 Hr0) as (ds0 & -> & Hd0 & _).
    rewrite substringFrom_prefix by exact Hd0.
    apply (decimalValue_bound ds0 Hd0). }
  unfold nextSequentialId_spec in E.
  destruct (suffixValues k db) as [|v vs] eqn:Ev; [destruct Hv|].
  pose proof (fold_max_ge vs v _ Hv) as Hle.
  pose proof (fold_max_ge vs v v (or_introl eq_refl)) as Hlev.
  assert (H0 : 0 <= v) by (inversion Hpos; assumption).
  apply (f_equal (fun s => decimalValue (Sql.substringFrom (suffixFrom k) s))) in E.
  cbv beta in E.
  assert (Hn : 0 <= fold_left Z.max vs v + 1) by lia.
  destruct (toString_nonneg _ Hn) as (_ & Hd1 & _).
  destruct (padStart3_digits _ Hd1) as (_ & Hd2 & _).
  rewrite Hs, (substringFrom_prefix k ds Hd), (substringFrom_prefix k _ Hd2),
    decimalValue_padded in E by lia.
  lia.
Qed.

(** After EXP001, EXP002 and EXP005 the next id is EXP006, which is
    free. *)
Lemma next_id_is_unused_witness :
  let db := stored Expense [sampleRow 1 "EXP001" "2024-03-01";
                            sampleRow 2 "EXP002" "2024-03-02";
                            sampleRow 5 "EXP005" "2024-03-05"] in
  exists slNo,
    Storage.getNextExpenseSlNo db = (Ok slNo, db)
    /\ forall r, In r (rows Expense db) -> Txn.slNo r <> slNo.
Proof.
  intros db. apply (next_id_is_unused Expense db).
  repeat constructor.
  - exists "001". repeat split.
  - exists "002". repeat split.
  - exists "005". repeat split.
Defined.

(** X17: record ids are never handed out twice: of two successful POSTs
    to the same table, the later one gets the larger id, whatever requests
    (deletions included) are served in between. *)
Theorem ids_are_never_reused
        (k : Kind) (s1 s2 : Session) (b1 b2 : TxnBody.t) (db db1 db2 : Db)
        (row1 row2 : Txn.t) (hs : list (Db -> Outcome * Db)) :
  Routes.postTxn k s1 b1 db = (Sent (reply 201 (Routes.txnJson row1)), db1) ->
  Forall isRoute hs ->
  Routes.postTxn k s2 b2 (runAll hs db1) = (Sent (reply 201 (Routes.txnJson row2)), db2) ->
  Txn.id row1 < Txn.id row2.
Proof.
  intros H1 Hhs H2.
  assert (Hs : forall j, success (reply 201 j)) by (intros j; unfold success; simpl; lia).
  destruct (postTxn_success _ _ _ _ _ _ H1 (Hs _)) as (u1 & i1 & r1 & _ & _ & Hc1 & E1).
  destruct (postTxn_success _ _ _ _ _ _ H2 (Hs _)) as (u2 & i2 & r2 & _ & _ & Hc2 & E2).
  apply (f_equal body) in E1, E2. cbn [body] in E1, E2.
  apply txnJson_id in E1, E2.
  destruct (create_seq _ _ _ _ _ Hc1) as [I1 S1], (create_seq _ _ _ _ _ Hc2) as [I2 _].
  pose proof (seqsGrow_seq k _ _ (seqsGrow_runAll hs db1 Hhs)). lia.
Qed.

(** The first expense is deleted by the admin before the staff account
    posts again: the new record is 2, not 1. *)
Lemma ids_are_never_reused_witness :
  let first := Routes.postExpenses staffSession (sampleBody "EXP001") bootDb in
  let hs := [Routes.deleteTxn Expense adminSession "1"] in
  let second := Routes.postExpenses staffSession (sampleBody "EXP001") (runAll hs (snd first)) in
  rows Expense (runAll hs (snd first)) = []
  /\ exists row2, fst second = Sent (reply 201 (Routes.txnJson row2)) /\ 1 < Txn.id row2.
Proof.
  intros first hs second. split; [reflexivity|].
  exists (Txn.mk 2 "EXP001" "2024-03-01" "10:30" "Rent" "Office" "March rent" "cash"
                 (1250 # 1) 2).
  split; [reflexivity|].
  apply (ids_are_never_reused Expense staffSession staffSession (sampleBody "EXP001")
           (sampleBody "EXP001") bootDb (snd first) (snd second)
           (Txn.mk 1 "EXP001" "2024-03-01" "10:30" "Rent" "Office" "March rent" "cash"
                   (1250 # 1) 2) _ hs).
  - reflexivity.
  - repeat constructor.
    exists Expense, adminSession, "1", TxnBody.empty, (UserBody.mk None None None None).
    do 6 right. left. reflexivity.
  - reflexivity.
Defined.

(** X18: POST /api/expenses and POST /api/gains take neither the id nor
    the createdBy from the client: two bodies that agree on the other
    fields get the same response and leave the same store. *)
Theorem post_ignores_client_id_and_creator
        (k : Kind) (sess : Session) (b b' : TxnBody.t) (db : Db) :
  sameClientFields b b' ->
  Routes.postTxn k sess b db = Routes.postTxn k sess b' db.
Proof.
  intros (Hs & Hd & Ht & Hn & Hty & Hde & Hp & Ha).
  unfold Routes.postTxn. apply authenticate_ext. intros user _.
  unfold Schema.parseInsertTxn, TxnBody.withCreatedBy.
  destruct b, b'. simpl in *. subst. reflexivity.
Qed.

(** A staff body that claims id 40 and the admin as creator is served
    like the plain one. *)
Lemma post_ignores_client_id_and_creator_witness :
  let claimed := TxnBody.mk (Some 40) (Some "EXP001") (Some "2024-03-01") (Some "10:30")
                            (Some "Rent") (Some "Office") (Some "March rent")
                            (Some "cash") (Some (1250 # 1)%Q) (Some 1) in
  Routes.postExpenses staffSession claimed bootDb
  = Routes.postExpenses staffSession (sampleBody "EXP001") bootDb.
Proof.
  intros claimed.
  apply (post_ignores_client_id_and_creator Expense staffSession claimed
           (sampleBody "EXP001") bootDb).
  repeat split.
Defined.

(** ** What the responses hold *)
Section Answers.

Variable P : Outcome -> Prop.

Lemma yields_ret (r : Response) : P (Sent r) -> yields P (ret r).
Proof. intros H db. exact H. Qed.

Lemma yields_bind {A} (m : M A) (f : A -> M Response) :
  (forall a, yields P (f a)) -> yields P (bind m f).
Proof.
  intros Hf db. unfold bind. destruct (m db) as [[a|e] db1]; [apply Hf|exact I].
Qed.

Lemma answers_tryCatch (body : M Response) (handler : error -> Response) :
  yields P body -> (forall e, P (Sent (handler e))) ->
  answers P (Routes.tryCatch body handler).
Proof.
  intros Hb Hh db. unfold Routes.tryCatch. specialize (Hb db).
  destruct (body db) as [[r|e] db1]; [exact Hb|apply Hh].
Qed.

Lemma answers_authenticate (sess : Session) (next : User.t -> Db -> Outcome * Db) :
  P (Sent notAuthenticated) -> P (Sent userNotFound) -> (forall e, P (Unhandled e)) ->
  (forall user, answers P (next user)) ->
  answers P (Routes.authenticate sess next).
Proof.
  intros H1 H2 H3 Hn db. unfold Routes.authenticate.
  destruct (userId sess) as [uid|]; [|exact H1].
  destruct (uid =? 0); [exact H1|].
  destruct (Storage.getUser uid db) as [[[user|]|e] db1]; [apply Hn|exact H2|apply H3].
Qed.

Lemma answers_requireAdmin (user : User.t) (next : Db -> Outcome * Db) :
  P (Sent forbidden) -> answers P next -> answers P (Routes.requireAdmin user next).
Proof.
  intros H Hn db. unfold Routes.requireAdmin. destruct (negb _); [exact H|apply Hn].
Qed.

End Answers.

Lemma clean_message (status : Z) (m : string) : clean (Sent (reply status (Routes.message m))).
Proof. reflexivity. Qed.

Lemma clean_userInfo (status : Z) (user : User.t) :
  clean (Sent (reply status (Routes.userInfo user))).
Proof. reflexivity. Qed.

Lemma clean_txnJson (status : Z) (row : Txn.t) :
  clean (Sent (reply status (Routes.txnJson row))).
Proof. reflexivity. Qed.

Lemma clean_optTxnJson (status : Z) (o : option Txn.t) :
  clean (Sent (reply status (Routes.optTxnJson o))).
Proof. destruct o; reflexivity. Qed.

Lemma clean_list (status : Z) (l : list Txn.t) :
  clean (Sent (reply status (JArr (map Routes.txnJson l)))).
Proof.
  unfold clean, sentBody. cbn [body hasKey].
  induction l as [|r l IH]; [reflexivity|].
  cbn [map existsb]. rewrite IH. reflexivity.
Qed.

Lemma clean_slNo (status : Z) (slNo : string) :
  clean (Sent (reply status (JObj [("slNo", JStr slNo)]))).
Proof. reflexivity. Qed.

Ltac clean_leaf :=
  first [ apply clean_message | apply clean_userInfo | apply clean_txnJson
        | apply clean_optTxnJson | apply clean_list | apply clean_slNo ].

Ltac clean_body :=
  repeat match goal with
         | |- yields clean (ret _) => apply yields_ret; clean_leaf
         | |- yields clean (bind _ _) => apply yields_bind; intros
         | |- yields clean (match ?x with _ => _ end) => destruct x
         end.

Ltac clean_route :=
  repeat match goal with
         | |- answers clean (Routes.authenticate _ _) =>
             apply answers_authenticate; [reflexivity|reflexivity|intros; reflexivity|intros]
         | |- answers clean (Routes.requireAdmin _ _) =>
             apply answers_requireAdmin; [reflexivity|]
         | |- answers clean (Routes.tryCatch _ _) =>
             apply answers_tryCatch; [clean_body|intros []; intros; clean_leaf]
         | |- answers clean (fun db => (_, db)) => intros db; cbn [fst]; clean_leaf
         end.

Lemma clean_protected (k : Kind) (sess : Session) (idParam : string)
      (tb : TxnBody.t) (ub : UserBody.t) (h : Db -> Outcome * Db) :
  In h (protectedRoutes k sess idParam tb ub) -> answers clean h.
Proof.
  intros [<-|[<-|[<-|[<-|[<-|[<-|[<-|[]]]]]]]];
    unfold Routes.getMe, Routes.postUsers, Routes.getAll, Routes.getNextSlNo,
      Routes.postTxn, Routes.putTxn, Routes.deleteTxn;
    clean_route.
Qed.

(** X19: no response of any route holds a field named password, at any
    depth: not the user objects, not the records and their lists, not the
    error messages. *)
Theorem no_response_holds_a_password
        (k : Kind) (sess : Session) (idParam : string) (tb : TxnBody.t)
        (ub : UserBody.t) (lb : LoginBody.t) (destroyFails : bool) (db : Db) :
  Forall (fun h => clean (fst (h db))) (protectedRoutes k sess idParam tb ub)
  /\ clean (Sent (fst (fst (Routes.login lb sess db))))
  /\ clean (Sent (fst (Routes.logout destroyFails sess))).
Proof.
  split; [|split].
  - apply Forall_forall. intros h Hin.
    exact (clean_protected k sess idParam tb ub h Hin db).
  - unfold Routes.login.
    destruct (Routes.missing (LoginBody.username lb)
              || Routes.missing (LoginBody.password lb)); [reflexivity|].
    destruct (Storage.getUserByUsername _ db) as [[[user|]|e] d]; [|reflexivity..].
    destruct (negb _); reflexivity.
  - destruct destroyFails; reflexivity.
Qed.

(** X20: GET /api/expenses and GET /api/gains answer any authenticated
    user, staff included, with 200 and every record of the table exactly
    once, in descending order of date; the store is left as it was. *)
Theorem list_route_returns_all_records
        (k : Kind) (sess : Session) (db : Db) (user : User.t) :
  sessionUser sess db = Some user ->
  exists l,
    Routes.getAll k sess db = (Sent (reply 200 (JArr (map Routes.txnJson l))), db)
    /\ Permutation (rows k db) l
    /\ StronglySorted dateGe l.
Proof.
  intros Hu. exists (Storage.orderByDateDesc (rows k db)).
  split; [apply (getAll_bound k sess db user Hu)|].
  split; [apply orderByDateDesc_perm|apply orderByDateDesc_sorted].
Qed.

(** The staff account lists three gains entered out of order. *)
Lemma list_route_returns_all_records_witness :
  let g1 := sampleRow 1 "GN001" "2024-03-02" in
  let g2 := sampleRow 2 "GN002" "2024-03-09" in
  let g3 := sampleRow 3 "GN003" "2024-03-05" in
  let db := stored Gain [g1; g2; g3] in
  exists l,
    Routes.getGains staffSession db = (Sent (reply 200 (JArr (map Routes.txnJson l))), db)
    /\ Permutation [g1; g2; g3] l /\ StronglySorted dateGe l.
Proof.
  intros g1 g2 g3 db.
  apply (list_route_returns_all_records Gain staffSession db
           (User.mk 2 "staff1" "1234" "Staff User" "staff")).
  reflexivity.
Defined.
